(** * SPECtate: run orchestration and configuration validation

    A shallow embedding of [src/benchmark_run.py] and [src/validate.py].

    Python values are embedded as the inductive type [pyval]; a raised
    exception is the [Raise] case of [result]; the identifier generator and
    the file and process effects of [SpecJBBRun.run] are threaded through an
    explicit [world], and the answer of the operating system to [open] is a
    parameter of [run].

    Conventions of the embedding:
    - [str] is embedded as [string].  [upper] and [lower] change the ASCII
      letters only, and [py_repr] escapes as [repr] does on ASCII text: a
      property that depends on the case or on the [repr] of text that comes
      with the input is stated for text that satisfies [isascii];
    - a [dict] is an association list in insertion order with [str] keys
      (the documents come from JSON/YAML);
    - a [str] object carries one bit of identity, [interned], because
      [_generate_tasks] and [run] compare the controller type with the
      operator [is];
    - logging is not part of the embedding, except that the arguments of a
      log call are still evaluated where their evaluation can raise. *)

From Stdlib Require Import String Ascii List ZArith Bool Lia Arith.
From Stdlib Require Import DecimalString.
Import ListNotations.

Local Open Scope string_scope.
Local Open Scope list_scope.

Set Implicit Arguments.
Set Warnings "-register-all".

(** ** Python values

    [POther] stands for an object of any other class: [tyname] is the name
    of the class as [str(type(v))] shows it, [text] is what [repr(v)] and
    [str(v)] give. *)

Inductive pyval : Type :=
| PNone
| PBool (b : bool)
| PInt (z : Z)
| PStr (interned : bool) (s : string)
| PList (l : list pyval)
| PDict (d : list (string * pyval))
| POther (tyname : string) (text : string).

(** A [str] object created at run time (read from a file, computed). *)
Abbreviation str s := (PStr false s).
(** The object of a string constant of the module whose characters are all
    identifier characters: CPython interns those when it compiles the
    module, so that all of them with the same text are one object. *)
Abbreviation lit s := (PStr true s).

Inductive exn : Type :=
| Exception (msg : string)
| InvalidRunConfigurationException (msg : string)
| KeyError (key : string)
| IndexError
| TypeError
| AttributeError
| ValueError
| OSError
| SchemaError
| SchemaMissingKeyError
| SchemaWrongKeyError
| SchemaUnexpectedTypeError
| DuplicateOptionError (option : string).

Inductive result (A : Type) : Type :=
| Return (a : A)
| Raise (e : exn).

Arguments Return {A} a.
Arguments Raise {A} e.

Definition bind {A B} (c : result A) (k : A -> result B) : result B :=
  match c with
  | Return a => k a
  | Raise e => Raise e
  end.

Declare Scope py_scope.
Delimit Scope py_scope with py.
Notation "x <- c ;; k" := (bind c (fun x => k))
  (at level 61, c at next level, right associativity) : py_scope.
Notation "c ;;; k" := (bind c (fun _ => k))
  (at level 61, right associativity) : py_scope.
Local Open Scope py_scope.

(** ** Strings *)

Definition upper_ascii (c : ascii) : ascii :=
  let n := N_of_ascii c in
  if (97 <=? n)%N && (n <=? 122)%N then ascii_of_N (n - 32) else c.

Definition lower_ascii (c : ascii) : ascii :=
  let n := N_of_ascii c in
  if (65 <=? n)%N && (n <=? 90)%N then ascii_of_N (n + 32) else c.

Fixpoint map_string (f : ascii -> ascii) (s : string) : string :=
  match s with
  | EmptyString => EmptyString
  | String c s' => String (f c) (map_string f s')
  end.

(** [s.upper()] and [s.lower()], for ASCII text *)
Definition upper (s : string) : string := map_string upper_ascii s.
Definition lower (s : string) : string := map_string lower_ascii s.

(** [s.isascii()] *)
Fixpoint isascii (s : string) : bool :=
  match s with
  | EmptyString => true
  | String c s' => (N_of_ascii c <? 128)%N && isascii s'
  end.

(** [sub in s] on two [str] *)
Fixpoint substring_of (sub s : string) : bool :=
  prefix sub s ||
  match s with
  | EmptyString => false
  | String _ s' => substring_of sub s'
  end.

(** ** Dictionaries *)

Definition dict := list (string * pyval).

Fixpoint dict_get (d : dict) (k : string) : option pyval :=
  match d with
  | [] => None
  | (k', v) :: d' => if String.eqb k' k then Some v else dict_get d' k
  end.

Definition dict_in (d : dict) (k : string) : bool :=
  match dict_get d k with Some _ => true | None => false end.

(** [d[k] = v]: an existing key keeps its position, a new one goes last. *)
Fixpoint dict_set (d : dict) (k : string) (v : pyval) : dict :=
  match d with
  | [] => [(k, v)]
  | (k', v') :: d' =>
      if String.eqb k' k then (k, v) :: d' else (k', v') :: dict_set d' k v
  end.

Definition dict_keys (d : dict) : list string := map fst d.

(** ** Text of a value: [repr(v)] and [str(v)] *)

Definition string_of_Z (z : Z) : string := NilZero.string_of_int (Z.to_int z).

Definition hex_digit (n : N) : ascii :=
  ascii_of_N (if (n <? 10)%N then 48 + n else 87 + n).

(** One character of the [repr] of a [str] quoted with [q]. *)
Definition repr_char (q c : ascii) : string :=
  let n := N_of_ascii c in
  if Ascii.eqb c "\"%char then "\\"
  else if Ascii.eqb c q then String "\"%char (String q "")
  else if (n =? 9)%N then "\t"
  else if (n =? 10)%N then "\n"
  else if (n =? 13)%N then "\r"
  else if (n <? 32)%N || (n =? 127)%N then
    ("\x" ++ String (hex_digit (n / 16)) (String (hex_digit (n mod 16)) ""))%string
  else String c "".

Fixpoint has_char (c : ascii) (s : string) : bool :=
  match s with
  | EmptyString => false
  | String c' s' => Ascii.eqb c c' || has_char c s'
  end.

Fixpoint repr_chars (q : ascii) (s : string) : string :=
  match s with
  | EmptyString => EmptyString
  | String c s' => (repr_char q c ++ repr_chars q s')%string
  end.

Definition repr_str (s : string) : string :=
  let q := if has_char "'"%char s && negb (has_char "034"%char s)
           then "034"%char else "'"%char in
  (String q (repr_chars q s) ++ String q "")%string.

Fixpoint join (sep : string) (l : list string) : string :=
  match l with
  | [] => ""
  | [x] => x
  | x :: l' => (x ++ sep ++ join sep l')%string
  end.

Fixpoint py_repr (v : pyval) : string :=
  match v with
  | PNone => "None"
  | PBool true => "True"
  | PBool false => "False"
  | PInt z => string_of_Z z
  | PStr _ s => repr_str s
  | PList l => ("[" ++ join ", " (map py_repr l) ++ "]")%string
  | PDict d =>
      ("{" ++ join ", "
                (map (fun kv => repr_str (fst kv) ++ ": " ++ py_repr (snd kv)) d)
           ++ "}")%string
  | POther _ text => text
  end.

Definition py_str (v : pyval) : string :=
  match v with
  | PStr _ s => s
  | _ => py_repr v
  end.

(** [str(type(v))], as [format] puts it into a message *)
Definition type_name (v : pyval) : string :=
  match v with
  | PNone => "NoneType"
  | PBool _ => "bool"
  | PInt _ => "int"
  | PStr _ _ => "str"
  | PList _ => "list"
  | PDict _ => "dict"
  | POther tyname _ => tyname
  end.

Definition type_text (v : pyval) : string := ("<class '" ++ type_name v ++ "'>")%string.

(** ** Python operators on values *)

(** [isinstance(v, T)]; [bool] is a subclass of [int]. *)
Definition is_str (v : pyval) : bool :=
  match v with PStr _ _ => true | _ => false end.
Definition is_list (v : pyval) : bool :=
  match v with PList _ => true | _ => false end.
Definition is_dict (v : pyval) : bool :=
  match v with PDict _ => true | _ => false end.
Definition is_int (v : pyval) : bool :=
  match v with PInt _ | PBool _ => true | _ => false end.
Definition is_none (v : pyval) : bool :=
  match v with PNone => true | _ => false end.

(** [a == b].  An object embedded as [POther] is taken to compare unequal
    to every value of the six other types. *)
Fixpoint py_eq (a b : pyval) {struct a} : bool :=
  match a, b with
  | PNone, PNone => true
  | PBool x, PBool y => Bool.eqb x y
  | PBool x, PInt y => Z.eqb (Z.b2z x) y
  | PInt x, PBool y => Z.eqb x (Z.b2z y)
  | PInt x, PInt y => Z.eqb x y
  | PStr _ s, PStr _ t => String.eqb s t
  | PList l, PList m =>
      (fix all2 (l m : list pyval) {struct l} : bool :=
         match l, m with
         | [], [] => true
         | x :: l', y :: m' => py_eq x y && all2 l' m'
         | _, _ => false
         end) l m
  | PDict d, PDict e =>
      Nat.eqb (length d) (length e) &&
      (fix sub (d : list (string * pyval)) : bool :=
         match d with
         | [] => true
         | (k, v) :: d' =>
             match dict_get e k with
             | Some v' => py_eq v v'
             | None => false
             end && sub d'
         end) d
  | POther t x, POther t' x' => String.eqb t t' && String.eqb x x'
  | _, _ => false
  end.

(** The operator [is] against a string constant of the module that CPython
    interns: the operand is that very object exactly when it is the interned
    [str] of the same text. *)
Definition py_is_lit (v : pyval) (s : string) : bool :=
  match v with
  | PStr true t => String.eqb t s
  | _ => false
  end.

Definition hashable (v : pyval) : bool :=
  match v with PList _ | PDict _ => false | _ => true end.

(** The key a [KeyError] reports. *)
Definition key_text (k : pyval) : string :=
  match k with PStr _ s => s | _ => py_repr k end.

Definition list_index (l : list pyval) (i : Z) : result pyval :=
  let n := Z.of_nat (length l) in
  let j := if (i <? 0)%Z then (i + n)%Z else i in
  if (j <? 0)%Z then Raise IndexError
  else match nth_error l (Z.to_nat j) with
       | Some v => Return v
       | None => Raise IndexError
       end.

Definition int_value (v : pyval) : option Z :=
  match v with
  | PInt z => Some z
  | PBool b => Some (Z.b2z b)
  | _ => None
  end.

(** [c[k]] *)
Definition getitem (c k : pyval) : result pyval :=
  match c with
  | PDict d =>
      match k with
      | PStr _ s =>
          match dict_get d s with
          | Some v => Return v
          | None => Raise (KeyError s)
          end
      | _ => if hashable k then Raise (KeyError (key_text k)) else Raise TypeError
      end
  | PList l =>
      match int_value k with
      | Some i => list_index l i
      | None => Raise TypeError
      end
  | PStr _ s =>
      match int_value k with
      | Some i =>
          let n := Z.of_nat (String.length s) in
          let j := if (i <? 0)%Z then (i + n)%Z else i in
          if (j <? 0)%Z then Raise IndexError
          else match String.get (Z.to_nat j) s with
               | Some ch => Return (str (String ch ""))
               | None => Raise IndexError
               end
      | None => Raise TypeError
      end
  | _ => Raise TypeError
  end.

(** [c["k"]] for a key written as a constant *)
Definition item (c : pyval) (k : string) : result pyval := getitem c (lit k).

(** [c[1:]] *)
Definition slice_from_1 (c : pyval) : result pyval :=
  match c with
  | PList l => Return (PList (tl l))
  | PStr _ s =>
      Return (str (match s with EmptyString => "" | String _ s' => s' end))
  | _ => Raise TypeError
  end.

(** [x in c] *)
Definition py_contains (c x : pyval) : result bool :=
  match c with
  | PList l => Return (existsb (py_eq x) l)
  | PDict d =>
      match x with
      | PStr _ s => Return (dict_in d s)
      | _ => if hashable x then Return false else Raise TypeError
      end
  | PStr _ s =>
      match x with
      | PStr _ t => Return (substring_of t s)
      | _ => Raise TypeError
      end
  | _ => Raise TypeError
  end.

Fixpoint chars (s : string) : list pyval :=
  match s with
  | EmptyString => []
  | String c s' => str (String c "") :: chars s'
  end.

(** The elements a [for] loop over [c] visits. *)
Definition py_iter (c : pyval) : result (list pyval) :=
  match c with
  | PList l => Return l
  | PDict d => Return (map (fun kv => str (fst kv)) d)
  | PStr _ s => Return (chars s)
  | _ => Raise TypeError
  end.

(** The number of iterations of [for _ in range(v)]. *)
Definition py_range (v : pyval) : result nat :=
  match int_value v with
  | Some z => Return (Z.to_nat z)
  | None => Raise TypeError
  end.

(** [a + b] where [a] is a list *)
Definition list_add (a : list pyval) (b : pyval) : result (list pyval) :=
  match b with
  | PList l => Return (a ++ l)
  | _ => Raise TypeError
  end.

(** [d.get(k, [])] on a value known to be used as a mapping *)
Definition dict_get_default (c : pyval) (k : string) (default : pyval)
  : result pyval :=
  match c with
  | PDict d =>
      match dict_get d k with
      | Some v => Return v
      | None => Return default
      end
  | _ => Raise AttributeError
  end.

(** [v.upper()] *)
Definition py_upper (v : pyval) : result pyval :=
  match v with
  | PStr _ s => Return (str (upper s))
  | _ => Raise AttributeError
  end.

(** A [for] loop whose body may [return]: [body] gives [Some r] for
    [return r] and [None] to go on with the next element. *)
Fixpoint for_each {A R} (l : list A) (body : A -> result (option R))
  : result (option R) :=
  match l with
  | [] => Return None
  | x :: l' =>
      r <- body x ;;
      match r with
      | Some v => Return (Some v)
      | None => for_each l' body
      end
  end.

(** ** The world: identifier generator, files, processes *)

(** A UUID, as the 128-bit integer [UUID.int]. *)
Definition uuid := Z.

Fixpoint hex_digits (n : nat) (z : Z) : string :=
  match n with
  | O => ""
  | S n' => (hex_digits n' (z / 16) ++ String (hex_digit (Z.to_N (z mod 16))) "")%string
  end.

(** [str(u)]: the 32 hexadecimal digits, cut as 8-4-4-4-12. *)
Definition dashed (h : string) : string :=
  (substring 0 8 h ++ "-" ++ substring 8 4 h ++ "-" ++ substring 12 4 h ++ "-"
   ++ substring 16 4 h ++ "-" ++ substring 20 12 h)%string.

Definition uuid_str (u : uuid) : string := dashed (hex_digits 32 u).

(** Modelled from the spec: the process runner [src.task_runner.TaskRunner],
    which is imported but is not among the given sources.  It is built from
    the command-line tokens; [run] launches the process and blocks until it
    exits, [start] launches it without blocking, [stop] ends a started
    process.  Each of the three is recorded as an event of the world. *)
Record TaskRunner : Type := mkTaskRunner { argv : list pyval }.

Inductive event : Type :=
| FileOpen (path : string)
| FileWrite (path : string) (text : string)
| FileClose (path : string)
| ProcRun (t : TaskRunner)
| ProcStart (t : TaskRunner)
| ProcStop (t : TaskRunner)
| PoolCreate (processes : nat)
| PoolMap (tasks : list TaskRunner).

(** [entropy n] is the identifier the [n]-th call of [uuid4()] returns;
    [drawn] counts the calls made so far; [trace] lists the effects so far,
    oldest first. *)
Record world : Type := mkWorld {
  entropy : nat -> uuid;
  drawn : nat;
  trace : list event
}.

Definition M (A : Type) : Type := world -> result A * world.

Definition ret {A} (a : A) : M A := fun w => (Return a, w).
Definition raise {A} (e : exn) : M A := fun w => (Raise e, w).
Definition lift {A} (c : result A) : M A := fun w => (c, w).

Definition mbind {A B} (c : M A) (k : A -> M B) : M B :=
  fun w =>
    match c w with
    | (Return a, w') => k a w'
    | (Raise e, w') => (Raise e, w')
    end.

Notation "x <~ c ;; k" := (mbind c (fun x => k))
  (at level 61, c at next level, right associativity) : py_scope.
Notation "c ~;; k" := (mbind c (fun _ => k))
  (at level 61, right associativity) : py_scope.

Definition emit (e : event) : M unit :=
  fun w => (Return tt, mkWorld (entropy w) (drawn w) (trace w ++ [e])).

Definition uuid4 : M uuid :=
  fun w => (Return (entropy w (drawn w)), mkWorld (entropy w) (S (drawn w)) (trace w)).

(** [try: body finally: cleanup] *)
Definition finally {A} (body : M A) (cleanup : M unit) : M A :=
  fun w =>
    match body w with
    | (r, w') =>
        match cleanup w' with
        | (Return _, w'') => (r, w'')
        | (Raise e, w'') => (Raise e, w'')
        end
    end.

(** ** [configparser.ConfigParser], as [run] uses it

    A parser is created with its defaults (strict, no empty values, basic
    interpolation, option names folded to lower case), loaded from a
    dictionary with one section whose name is not the default section's,
    and written out. *)

Definition nl : string := String "010"%char "".
Definition tab : string := String "009"%char "".

(** [value.replace('%%', '')] *)
Fixpoint remove_pct_pct (s : string) : string :=
  match s with
  | EmptyString => EmptyString
  | String c s' =>
      match s' with
      | String c' s'' =>
          if Ascii.eqb c "%"%char && Ascii.eqb c' "%"%char
          then remove_pct_pct s''
          else String c (remove_pct_pct s')
      | EmptyString => String c EmptyString
      end
  end.

(** Where the scan for [%(name)s] stands. *)
Inductive keyref_state : Type := KOut | KPct | KOpen | KKey | KClose.

(** Whether no [%] is left once every match of the pattern [%\(([^)]+)\)s]
    is deleted; the scan goes left to right, and a [%] that starts no match
    stays. *)
Fixpoint only_keyrefs (st : keyref_state) (s : string) : bool :=
  match s with
  | EmptyString => match st with KOut => true | _ => false end
  | String c s' =>
      match st with
      | KOut => if Ascii.eqb c "%"%char then only_keyrefs KPct s'
                else only_keyrefs KOut s'
      | KPct => if Ascii.eqb c "("%char then only_keyrefs KOpen s' else false
      | KOpen => if Ascii.eqb c ")"%char then false else only_keyrefs KKey s'
      | KKey => if Ascii.eqb c ")"%char then only_keyrefs KClose s'
                else only_keyrefs KKey s'
      | KClose => if Ascii.eqb c "s"%char then only_keyrefs KOut s' else false
      end
  end.

(** [BasicInterpolation.before_set] *)
Definition before_set (value : string) : result string :=
  if only_keyrefs KOut (remove_pct_pct value) then Return value
  else Raise ValueError.

Definition section := list (string * string).

(** The loop of [read_dict] over the items of one section. *)
Fixpoint read_options (items : dict) (sect : section) : result section :=
  match items with
  | [] => Return sect
  | (k, v) :: rest =>
      let key := lower k in
      if existsb (String.eqb key) (map fst sect)
      then Raise (DuplicateOptionError key)
      else
        match v with
        | PNone => Raise TypeError
        | _ =>
            let value := py_str v in
            value' <- (match value with
                       | EmptyString => Return value
                       | _ => before_set value
                       end) ;;
            read_options rest (sect ++ [(lower key, value')])
        end
  end.

(** [c.read_dict({name: keys})] on a new parser: the options of the one
    section. *)
Definition read_dict (name : string) (keys : pyval) : result section :=
  match keys with
  | PDict items => read_options items []
  | _ => Raise AttributeError
  end.

(** [s.replace('\n', '\n\t')] *)
Fixpoint indent_newlines (s : string) : string :=
  match s with
  | EmptyString => EmptyString
  | String c s' =>
      if Ascii.eqb c "010"%char
      then (nl ++ tab ++ indent_newlines s')%string
      else String c (indent_newlines s')
  end.

Definition option_line (kv : string * string) : string :=
  (fst kv ++ " = " ++ indent_newlines (snd kv) ++ nl)%string.

(** What [c.write(fp)] writes for a parser holding the one section. *)
Definition write_section (name : string) (sect : section) : string :=
  ("[" ++ name ++ "]" ++ nl ++ String.concat "" (map option_line sect) ++ nl)%string.

(** ** [benchmark_run.py] *)

(** [JvmRunOptions.__init__]: the attribute dictionary the new object gets.
    In the mapping case the argument itself is completed and becomes that
    dictionary. *)
Definition JvmRunOptions (val : pyval) : result pyval :=
  match val with
  | PStr _ _ => Return (PDict [("path", val); ("options", PList [])])
  | PList _ =>
      path <- getitem val (PInt 0) ;;
      options <- slice_from_1 val ;;
      Return (PDict [("path", path); ("options", options)])
  | PDict d =>
      match dict_get d "path" with
      | None => Raise (Exception "'path' not specified for JvmRunOptions")
      | Some path =>
          if negb (is_str path) then Raise (Exception "'path' must be a string")
          else
            match dict_get d "options" with
            | None => Return (PDict (dict_set d "options" (PList [])))
            | Some options =>
                if negb (is_list options)
                then Raise (Exception "'path' must be a string")
                else Return (PDict d)
            end
      end
  | PNone => Return (PDict [("path", lit "java"); ("options", PList [])])
  | _ =>
      Raise (Exception ("unrecognized type given to JvmRunOptions: " ++ type_text val))
  end.

Definition SpecJBBComponentTypes : list pyval :=
  [lit "backend"; lit "txinjector"; lit "composite"; lit "multi"; lit "distributed"].

Definition default_to (d : dict) (k : string) (v : pyval) : dict :=
  if dict_in d k then d else dict_set d k v.

(** [SpecJBBComponentOptions.__init__]: the attribute dictionary. *)
Definition SpecJBBComponentOptions (init count : pyval) : result pyval :=
  (match init with
   | PStr _ s =>
       if negb (existsb (py_eq init) SpecJBBComponentTypes)
       then Raise (Exception ("Type '" ++ s ++ "' is not a valid SpecJBB component type"))
       else Return tt
   | PDict _ => Return tt
   | _ =>
       Raise (Exception ("Unrecognized type given to SpecJBBComponentOptions: "
                         ++ type_text init))
   end) ;;;
  match init with
  | PDict d =>
      if negb (dict_in d "type")
      then Raise (Exception "'type' not specified in SpecJBBComponentOptions")
      else
        let d := default_to d "count" count in
        let d := default_to d "options" (PList []) in
        let d := default_to d "jvm_opts" (PList []) in
        Return (PDict d)
  | _ =>
      Return (PDict [("type", init); ("count", count);
                     ("options", PList []); ("jvm_opts", PList [])])
  end.

(** The attributes of a [SpecJBBRun] object.  An attribute that is not
    assigned yet holds [PNone]; no method reads one before it is assigned. *)
Record SpecJBBRun : Type := mkRun {
  jar : pyval;
  props : pyval;
  props_file : pyval;
  run_id : uuid;
  java : pyval;
  controller : pyval;
  backends : pyval;
  injectors : pyval
}.

Definition with_java (self : SpecJBBRun) (v : pyval) : SpecJBBRun :=
  mkRun (jar self) (props self) (props_file self) (run_id self)
        v (controller self) (backends self) (injectors self).
Definition with_controller (self : SpecJBBRun) (v : pyval) : SpecJBBRun :=
  mkRun (jar self) (props self) (props_file self) (run_id self)
        (java self) v (backends self) (injectors self).
Definition with_backends (self : SpecJBBRun) (v : pyval) : SpecJBBRun :=
  mkRun (jar self) (props self) (props_file self) (run_id self)
        (java self) (controller self) v (injectors self).
Definition with_injectors (self : SpecJBBRun) (v : pyval) : SpecJBBRun :=
  mkRun (jar self) (props self) (props_file self) (run_id self)
        (java self) (controller self) (backends self) v.

(** [SpecJBBRun.__set_java__] *)
Definition __set_java__ (self : SpecJBBRun) (java : pyval) : result SpecJBBRun :=
  if is_str java then
    Return (with_java self (PDict [("path", java); ("options", PList [])]))
  else if is_list java then
    path <- getitem java (PInt 0) ;;
    options <- slice_from_1 java ;;
    Return (with_java self (PDict [("path", path); ("options", options)]))
  else if is_dict java then
    Return (with_java self java)
  else
    Raise (InvalidRunConfigurationException
             "'java' was not a string, list, or dictionary").

Definition default_controller : pyval :=
  PDict [("type", lit "composite"); ("options", PList []); ("jvm_opts", PList [])].

Definition component_of_count (count : pyval) (type : string) : pyval :=
  PDict [("count", count); ("type", lit type);
         ("options", PList []); ("jvm_opts", PList [])].

(** [SpecJBBRun.__set_topology__] *)
Definition __set_topology__ (self : SpecJBBRun) (controller backends injectors : pyval)
  : result SpecJBBRun :=
  if is_none controller && is_none backends && is_none injectors then
    Raise (InvalidRunConfigurationException "no topology specified")
  else if negb (is_dict controller) then
    Raise (InvalidRunConfigurationException "'controller' was not a dict")
  else
    has_type <- py_contains controller (lit "type") ;;
    if negb has_type then
      Raise (InvalidRunConfigurationException
               "'type' wasn't specified in 'controller'")
    else
      let self :=
        if is_none controller then with_controller self default_controller
        else with_controller self controller in
      self <- (if is_int backends then
                 Return (with_backends self (component_of_count backends "backend"))
               else if is_dict backends then
                 Return (with_backends self backends)
               else if is_none backends then
                 Return (with_backends self (component_of_count (PInt 1) "backend"))
               else
                 Raise (InvalidRunConfigurationException
                          "'backends' was not an integer or dict")) ;;
      if is_int injectors then
        Return (with_injectors self (component_of_count injectors "txinjector"))
      else if is_dict injectors then
        Return (with_injectors self injectors)
      else if is_none injectors then
        Return (with_injectors self (component_of_count (PInt 1) "txinjector"))
      else
        Raise (InvalidRunConfigurationException
                 "'injectors' was not an integer or dict").

(** The arguments of [SpecJBBRun(...)]; an argument that is left out has
    its default, given by [no_args]. *)
Record init_args : Type := mkArgs {
  arg_controller : pyval;
  arg_backends : pyval;
  arg_injectors : pyval;
  arg_java : pyval;
  arg_jar : pyval;
  arg_props : pyval;
  arg_props_file : pyval
}.

Definition no_args : init_args :=
  mkArgs PNone PNone PNone PNone PNone (PDict []) (str "specjbb2015.props").

(** [SpecJBBRun.__init__] *)
Definition SpecJBBRun__init__ (a : init_args) : M SpecJBBRun :=
  if existsb (py_eq PNone) [arg_java a; arg_jar a] || negb (is_str (arg_jar a))
  then raise (InvalidRunConfigurationException "Run was invalid")
  else
    id <~ uuid4 ;;
    let self :=
      mkRun (arg_jar a) (arg_props a) (arg_props_file a) id PNone PNone PNone PNone in
    self <~ lift (__set_java__ self (arg_java a)) ;;
    lift (__set_topology__ self (arg_controller a) (arg_backends a) (arg_injectors a)).

(** [SpecJBBRun._full_options] *)
Definition _full_options (self : SpecJBBRun) (options_dict : pyval) : result pyval :=
  path <- item (java self) "path" ;;
  java_options <- item (java self) "options" ;;
  java1 <- list_add [path; str "-jar"; jar self] java_options ;;
  jvm_opts <- dict_get_default options_dict "jvm_opts" (PList []) ;;
  java <- list_add java1 jvm_opts ;;
  type <- item options_dict "type" ;;
  TYPE <- py_upper type ;;
  options <- dict_get_default options_dict "options" (PList []) ;;
  spec1 <- list_add [str "-m"; TYPE] options ;;
  let spec := spec1 ++ [str "-p"; props_file self] in
  Return (PList (java ++ spec)).

Definition controller_run_args (self : SpecJBBRun) : result pyval :=
  _full_options self (controller self).
Definition backend_run_args (self : SpecJBBRun) : result pyval :=
  _full_options self (backends self).
Definition injector_run_args (self : SpecJBBRun) : result pyval :=
  _full_options self (injectors self).

(** A task: the runner built from the arguments followed by the two flags
    [-G=<group_id>] and [-J=<jvm_id>]. *)
Definition group_flag (group_id : uuid) : pyval := str ("-G=" ++ uuid_str group_id).
Definition jvm_flag (jvm_id : uuid) : pyval := str ("-J=" ++ uuid_str jvm_id).

Definition tagged_task (args : list pyval) (group_id jvm_id : uuid) : TaskRunner :=
  mkTaskRunner (args ++ [group_flag group_id; jvm_flag jvm_id]).

(** The inner loop of [_generate_tasks], for [n] more injectors. *)
Fixpoint injector_tasks (self : SpecJBBRun) (group_id : uuid) (n : nat)
  : M (list TaskRunner) :=
  match n with
  | O => ret []
  | S n' =>
      ti_jvm_id <~ uuid4 ;;
      args <~ lift (a <- injector_run_args self ;; py_iter a) ;;
      rest <~ injector_tasks self group_id n' ;;
      ret (tagged_task args group_id ti_jvm_id :: rest)
  end.

(** The outer loop of [_generate_tasks], for [n] more groups. *)
Fixpoint group_tasks (self : SpecJBBRun) (n : nat) : M (list TaskRunner) :=
  match n with
  | O => ret []
  | S n' =>
      group_id <~ uuid4 ;;
      backend_jvm_id <~ uuid4 ;;
      args <~ lift (a <- backend_run_args self ;; py_iter a) ;;
      count <~ lift (c <- item (injectors self) "count" ;; py_range c) ;;
      inj <~ injector_tasks self group_id count ;;
      rest <~ group_tasks self n' ;;
      ret (tagged_task args group_id backend_jvm_id :: inj ++ rest)
  end.

(** [SpecJBBRun._generate_tasks]: the tasks the generator yields, in order.
    The two counts are first read for the log line. *)
Definition _generate_tasks (self : SpecJBBRun) : M (list TaskRunner) :=
  type <~ lift (item (controller self) "type") ;;
  if py_is_lit type "composite" then ret []
  else
    lift (item (backends self) "count") ~;;
    lift (item (injectors self) "count") ~;;
    count <~ lift (c <- item (backends self) "count" ;; py_range c) ;;
    group_tasks self count.

(** [Pool(processes=n)] *)
Definition Pool (n : nat) : M unit :=
  match n with
  | O => raise ValueError
  | _ => emit (PoolCreate n)
  end.

Section Files.

(** Whether the operating system lets a file of this name be created, or
    cut to length zero, and opened for reading and writing: it does not, for
    instance, when the name is that of a directory, or lies in a directory
    that does not exist or cannot be written to. *)
Variable writable : string -> bool.

(** The error of [open(p, 'w+')], if any: [ValueError] for a name with a
    null character, [OSError] (through one of its subclasses) for the empty
    name and for a name the operating system refuses. *)
Definition open_error (p : string) : option exn :=
  if has_char "000"%char p then Some ValueError
  else if String.eqb p "" || negb (writable p) then Some OSError
  else None.

(** [open(path, 'w+')]: the file is created, or cut to length zero.  Only a
    path given as a [str] is embedded. *)
Definition open_w (path : pyval) : M string :=
  match path with
  | PStr _ p =>
      match open_error p with
      | Some e => raise e
      | None => emit (FileOpen p) ~;; ret p
      end
  | _ => raise TypeError
  end.

(** [SpecJBBRun.run] *)
Definition run (self : SpecJBBRun) : M unit :=
  path <~ open_w (props_file self) ;;
  finally
    (c <~ lift (read_dict "SPECtate" (props self)) ;;
     emit (FileWrite path (write_section "SPECtate" c)))
    (emit (FileClose path)) ~;;
  args <~ lift (a <- controller_run_args self ;; py_iter a) ;;
  let c := mkTaskRunner args in
  type <~ lift (item (controller self) "type") ;;
  if py_is_lit type "composite" then
    emit (ProcRun c)
  else
    emit (ProcStart c) ~;;
    tasks <~ _generate_tasks self ;;
    Pool (length tasks) ~;;
    emit (PoolMap tasks) ~;;
    emit (ProcStop c).

End Files.

(** ** The [schema] package, as far as [validate.py] uses it

    A schema maps the data to its validated copy or raises.  [callable],
    [object], [And], [list_of] and [dict_schema] stand for a function used as
    a schema, the type [object], [And(a, b)], a one-element list [[s]] and a
    dictionary of keys and schemas.  Data of the wrong type for a list or a
    dictionary schema raises [SchemaUnexpectedTypeError]; an element or a
    value that its schema rejects raises a plain [SchemaError], whatever the
    class of the error inside. *)

Definition schema : Type := pyval -> result pyval.

Definition callable (f : pyval -> bool) : schema :=
  fun data => if f data then Return data else Raise SchemaError.

Definition object : schema := fun data => Return data.

Definition And (a b : schema) : schema := fun data => d <- a data ;; b d.

Fixpoint validate_all (s : schema) (l : list pyval) : result (list pyval) :=
  match l with
  | [] => Return []
  | x :: l' =>
      match s x with
      | Return x' =>
          l'' <- validate_all s l' ;;
          Return (x' :: l'')
      | Raise _ => Raise SchemaError
      end
  end.

Definition list_of (s : schema) : schema :=
  fun data =>
    match data with
    | PList l => l' <- validate_all s l ;; Return (PList l')
    | _ => Raise SchemaUnexpectedTypeError
    end.

(** A key of a dictionary schema: a constant or a function, bare (the key
    is required) or wrapped in [Optional], with a default or without. *)
Inductive key_pattern : Type :=
| Name (name : string)
| Pred (f : pyval -> bool).

Inductive schema_key : Type :=
| Required (k : key_pattern)
| Optional (k : key_pattern) (default : option pyval).

Definition pattern_of (sk : schema_key) : key_pattern :=
  match sk with Required k | Optional k _ => k end.

Definition key_matches (sk : schema_key) (k : string) : bool :=
  match pattern_of sk with
  | Name n => String.eqb n k
  | Pred f => f (str k)
  end.

Definition is_required (sk : schema_key) : bool :=
  match sk with Required _ => true | Optional _ _ => false end.

(** The order in which the keys of a dictionary schema are tried:
    constants before functions, and a bare key before an [Optional] one of
    the same kind. *)
Definition key_priority (sk : schema_key) : nat :=
  match sk with
  | Required (Name _) => 0
  | Optional (Name _) _ => 1
  | Required (Pred _) => 2
  | Optional (Pred _) _ => 3
  end.

Definition entries : Type := list (schema_key * schema).

Definition with_priority (p : nat) (es : entries) : entries :=
  filter (fun e => Nat.eqb (key_priority (fst e)) p) es.

Definition sorted_keys (es : entries) : entries :=
  with_priority 0 es ++ with_priority 1 es ++ with_priority 2 es ++ with_priority 3 es.

(** The first entry, from position [i] on, whose key accepts [k]. *)
Fixpoint find_entry (es : entries) (k : string) (i : nat)
  : option (nat * schema_key * schema) :=
  match es with
  | [] => None
  | (sk, s) :: es' =>
      if key_matches sk k then Some (i, sk, s) else find_entry es' k (S i)
  end.

(** The loop over the items of the data: the validated items, and the
    positions of the schema keys that were used.  An item no key accepts is
    left out. *)
Fixpoint validate_items (es : entries) (items : dict)
  : result (dict * list nat) :=
  match items with
  | [] => Return ([], [])
  | (k, v) :: rest =>
      match find_entry es k 0 with
      | Some (i, _, s) =>
          match s v with
          | Return v' =>
              r <- validate_items es rest ;;
              Return ((k, v') :: fst r, i :: snd r)
          | Raise _ => Raise SchemaError
          end
      | None => validate_items es rest
      end
  end.

(** Whether every required key, at its position from [i] on, was used. *)
Fixpoint required_covered (es : entries) (coverage : list nat) (i : nat) : bool :=
  match es with
  | [] => true
  | (sk, _) :: es' =>
      (negb (is_required sk) || existsb (Nat.eqb i) coverage)
      && required_covered es' coverage (S i)
  end.

(** The defaults of the [Optional] keys that were not used. *)
Fixpoint unused_defaults (es : entries) (coverage : list nat) (i : nat) : dict :=
  match es with
  | [] => []
  | (sk, _) :: es' =>
      match sk with
      | Optional (Name n) (Some v) =>
          if existsb (Nat.eqb i) coverage then unused_defaults es' coverage (S i)
          else (n, v) :: unused_defaults es' coverage (S i)
      | _ => unused_defaults es' coverage (S i)
      end
  end.

(** A dictionary used as a schema.  The result holds the validated items
    and, after them, the defaults of the keys that were not used.  The
    order of its keys is not part of the embedding: the package validates
    the items whose value is a dictionary after the others, and adds the
    defaults in the iteration order of a set, where the embedding keeps the
    order of the data and of the schema.  Which error is raised does not
    depend on that order, and the properties of a result are stated through
    lookups, membership and [py_eq], which do not depend on it either. *)
Definition dict_schema (es : entries) : schema :=
  fun data =>
    match data with
    | PDict items =>
        let es := sorted_keys es in
        r <- validate_items es items ;;
        let (new, coverage) := r in
        if negb (required_covered es coverage 0) then Raise SchemaMissingKeyError
        else if negb (Nat.eqb (length new) (length items)) then
          Raise SchemaWrongKeyError
        else Return (PDict (new ++ unused_defaults es coverage 0))
    | _ => Raise SchemaUnexpectedTypeError
    end.

(** ** [validate.py] *)

Definition is_stringy (v : pyval) : bool := is_str v.

Definition run_types : list string :=
  ["multi"; "composite"; "distributed_ctrl_txl"; "distributed_sut"].

Definition run_type_known (rt : pyval) : bool :=
  match rt with
  | PStr _ s => existsb (String.eqb (lower s)) run_types
  | _ => false
  end.

Definition TemplateSchema : schema :=
  dict_schema
    [ (Required (Name "args"), list_of (callable is_stringy));
      (Optional (Name "run_type") (Some (lit "composite")),
       And (callable is_stringy) (callable run_type_known));
      (Optional (Name "java") (Some (lit "java")), callable is_stringy);
      (Optional (Name "jar") (Some (str "specjbb2015.jar")), callable is_stringy);
      (Optional (Name "default_props") None,
       dict_schema [ (Required (Pred is_stringy), object) ]);
      (Optional (Name "annotations") None,
       dict_schema [ (Required (Pred is_stringy), callable is_stringy) ]);
      (Optional (Name "translations") None,
       dict_schema [ (Required (Pred is_stringy), callable is_stringy) ]);
      (Optional (Name "types") None,
       dict_schema [ (Required (Pred is_stringy), callable is_stringy) ]) ].

Definition RunConfigSchema : schema :=
  dict_schema
    [ (Required (Name "template_type"), callable is_stringy);
      (Required (Name "args"),
       dict_schema [ (Optional (Pred is_stringy) None, object) ]);
      (Optional (Name "props_extra") None,
       dict_schema [ (Optional (Pred is_stringy) None, callable is_stringy) ]) ].

Definition SpectateConfig : schema :=
  dict_schema
    [ (Required (Name "TemplateData"),
       dict_schema [ (Required (Pred is_stringy), TemplateSchema) ]);
      (Required (Name "RunList"), list_of RunConfigSchema) ].

(** [c.values()] *)
Definition values (c : pyval) : result (list pyval) :=
  match c with
  | PDict d => Return (map snd d)
  | _ => Raise AttributeError
  end.

(** The loop [for key in keys: if key not in template["args"]: return None] *)
Definition keys_declared (template keys : pyval) : result (option pyval) :=
  ks <- py_iter keys ;;
  for_each ks (fun key =>
    t_args <- item template "args" ;;
    found <- py_contains t_args key ;;
    Return (if negb found then Some PNone else None)).

(** The body of [for run in d["RunList"]] *)
Definition check_run (d run : pyval) : result (option pyval) :=
  template_data <- item d "TemplateData" ;;
  template_type <- item run "template_type" ;;
  t <- getitem template_data template_type ;;
  run_args <- item run "args" ;;
  r <- keys_declared t run_args ;;
  match r with
  | Some v => Return (Some v)
  | None =>
      t_args <- item t "args" ;;
      args <- py_iter t_args ;;
      for_each args (fun arg =>
        run_args <- item run "args" ;;
        in_run <- py_contains run_args arg ;;
        if negb in_run then
          default_props <- item t "default_props" ;;
          in_defaults <- py_contains default_props arg ;;
          Return (if negb in_defaults then Some PNone else None)
        else Return None)
  end.

(** [if name in template: for key in template[name]: ...] *)
Definition check_optional_map (template : pyval) (name : string)
  : result (option pyval) :=
  present <- py_contains template (lit name) ;;
  if present then
    m <- item template name ;;
    keys_declared template m
  else Return None.

(** The body of [for template in d["TemplateData"].values()] *)
Definition check_template (template : pyval) : result (option pyval) :=
  r <- check_optional_map template "translations" ;;
  match r with
  | Some v => Return (Some v)
  | None => check_optional_map template "annotations"
  end.

(** [validate] *)
Definition validate (unvalidated : pyval) : result pyval :=
  d <- SpectateConfig unvalidated ;;
  run_list <- item d "RunList" ;;
  runs <- py_iter run_list ;;
  r <- for_each runs (check_run d) ;;
  match r with
  | Some v => Return v
  | None =>
      template_data <- item d "TemplateData" ;;
      templates <- values template_data ;;
      r <- for_each templates check_template ;;
      match r with
      | Some v => Return v
      | None => Return d
      end
  end.

(** ** Definitions used to state the properties *)

(** The list a role's dictionary gives for [k]: its value, or the empty list
    that [options_dict.get(k, [])] supplies when the key is missing. *)
Definition role_list (od : dict) (k : string) : pyval :=
  match dict_get od k with
  | Some v => v
  | None => PList []
  end.

Definition example_run : SpecJBBRun :=
  mkRun (str "x.jar") (PDict []) (str "p.props") 0%Z
        (PDict [("path", str "java"); ("options", PList [str "-Xmx1g"])])
        (PDict [("type", str "multi")])
        (PDict [("type", str "backend"); ("options", PList [str "-Dfoo=bar"]);
                ("jvm_opts", PList [str "-Xms1g"])])
        (PDict [("type", str "txinjector")]).

Definition example_argv : pyval :=
  PList [str "java"; str "-jar"; str "x.jar"; str "-Xmx1g"; str "-Xms1g";
         str "-m"; str "BACKEND"; str "-Dfoo=bar"; str "-p"; str "p.props"].

(** A world in which [uuid4()] returns 0, 1, 2, ... and nothing has
    happened yet. *)
Definition world0 : world := mkWorld Z.of_nat 0 [].

Definition java_record : pyval :=
  PDict [("path", str "java"); ("options", PList [])].

(** Arguments that are valid but for the empty [jar]. *)
Definition args_empty_jar : init_args :=
  mkArgs (PDict [("type", lit "composite")]) PNone PNone (str "java") (str "")
         (PDict []) (str "specjbb2015.props").

(** Arguments with backends and injectors but no controller. *)
Definition args_no_controller : init_args :=
  mkArgs PNone (PInt 2) (PInt 3) (str "java") (str "x.jar")
         (PDict []) (str "specjbb2015.props").

(** Valid arguments whose [java] is a mapping with neither key. *)
Definition args_java_empty_dict : init_args :=
  mkArgs (PDict [("type", lit "composite")]) PNone PNone (PDict []) (str "x.jar")
         (PDict []) (str "specjbb2015.props").

(** What the constructor accepts for [backends] and for [injectors]. *)
Definition count_or_dict (v : pyval) : bool := is_int v || is_dict v || is_none v.

(** The run the constructor builds from [args_empty_jar]. *)
Definition run_empty_jar : SpecJBBRun :=
  mkRun (str "") (PDict []) (str "specjbb2015.props") 0%Z java_record
        (PDict [("type", lit "composite")])
        (component_of_count (PInt 1) "backend")
        (component_of_count (PInt 1) "txinjector").

(** A run before [__set_topology__] has assigned anything. *)
Definition blank_run : SpecJBBRun :=
  mkRun (str "") (PDict []) (str "specjbb2015.props") 0%Z java_record
        PNone PNone PNone.








Definition backend_argv : list pyval :=
  [str "java"; str "-jar"; str "x.jar"; str "-m"; str "BACKEND"; str "-p"; str "p.props"].
Definition injector_argv : list pyval :=
  [str "java"; str "-jar"; str "x.jar"; str "-m"; str "TXINJECTOR"; str "-p"; str "p.props"].

(** The draws number [lo] to [hi - 1] are pairwise different. *)
Definition fresh (e : nat -> uuid) (lo hi : nat) : Prop :=
  forall m n, lo <= m < hi -> lo <= n < hi -> e m = e n -> m = n.


(** The events that launch, stop or pool processes, as opposed to the three
    file events. *)
Definition is_process_event (ev : event) : bool :=
  match ev with
  | FileOpen _ | FileWrite _ _ | FileClose _ => false
  | _ => true
  end.

(** Whatever the world, the computation only adds events that satisfy [P]
    to the trace. *)
Definition emits {A} (P : event -> bool) (c : M A) : Prop :=
  forall w, exists rest,
    trace (snd (c w)) = trace w ++ rest /\ forallb P rest = true.

(** The part of [run] that follows the [with] block. *)
Definition run_processes (self : SpecJBBRun) : M unit :=
  args <~ lift (a <- controller_run_args self ;; py_iter a) ;;
  let c := mkTaskRunner args in
  type <~ lift (item (controller self) "type") ;;
  if py_is_lit type "composite" then
    emit (ProcRun c)
  else
    emit (ProcStart c) ~;;
    tasks <~ _generate_tasks self ;;
    Pool (length tasks) ~;;
    emit (PoolMap tasks) ~;;
    emit (ProcStop c).

(** The pairs [read_dict] stores for the items of a mapping it accepts. *)
Definition folded (items : dict) : section :=
  map (fun kv => (lower (fst kv), py_str (snd kv))) items.

(** A composite run whose one property has a capital letter in its name. *)
Definition run_Foo : SpecJBBRun :=
  mkRun (str "x.jar") (PDict [("Foo", str "bar")]) (str "p.props") 0%Z java_record
        (PDict [("type", lit "composite")])
        (component_of_count (PInt 1) "backend")
        (component_of_count (PInt 1) "txinjector").

Definition composite_argv : list pyval :=
  [str "java"; str "-jar"; str "x.jar"; str "-m"; str "COMPOSITE"; str "-p"; str "p.props"].

(** A run whose controller type is a [str] with the text composite that was
    built at run time, for instance read from a JSON or YAML document, and
    so is not the object of the constant in [benchmark_run.py]. *)
Definition run_composite_read : SpecJBBRun :=
  mkRun (str "x.jar") (PDict []) (str "p.props") 0%Z java_record
        (PDict [("type", str "composite")])
        (component_of_count (PInt 1) "backend")
        (component_of_count (PInt 1) "txinjector").

(** What [SpecJBBComponentOptions] supplies for an attribute that a mapping
    leaves out. *)
Definition component_default (count : pyval) (k : string) : option pyval :=
  if String.eqb k "count" then Some count
  else if String.eqb k "options" || String.eqb k "jvm_opts" then Some (PList [])
  else None.

Definition component_type_names : list string :=
  ["backend"; "txinjector"; "composite"; "multi"; "distributed"].

(** What [__set_topology__] stores for backends or injectors given as [v]:
    a count becomes a record of that count and the role's type, a mapping is
    stored as it is, nothing becomes a record with count 1. *)
Definition normalized_role (v : pyval) (type : string) : pyval :=
  if is_int v then component_of_count v type
  else if is_dict v then v
  else component_of_count (PInt 1) type.

(** Arguments with a java path, integer counts and a controller mapping. *)
Definition args_counts : init_args :=
  mkArgs (PDict [("type", str "multi")]) (PInt 2) PNone (str "java") (str "x.jar")
         (PDict []) (str "p.props").

(** The run the constructor builds from [args_counts]. *)
Definition run_2_multi : SpecJBBRun :=
  mkRun (str "x.jar") (PDict []) (str "p.props") 0%Z java_record
        (PDict [("type", str "multi")])
        (component_of_count (PInt 2) "backend")
        (component_of_count (PInt 1) "txinjector").

(** The three file events of [run], for the path [p] and the section
    [sect]. *)
Definition file_events (p : string) (sect : section) : list event :=
  [FileOpen p; FileWrite p (write_section "SPECtate" sect); FileClose p].



(** A run whose java mapping has no path. *)
Definition run_no_path : SpecJBBRun :=
  mkRun (str "x.jar") (PDict []) (str "p.props") 0%Z (PDict [])
        (PDict [("type", lit "composite")])
        (component_of_count (PInt 1) "backend")
        (component_of_count (PInt 1) "txinjector").

(** The keys and schemas of the three dictionary schemas of [validate.py],
    named so that properties can refer to them. *)
Definition TemplateSchema_entries : entries :=
  [ (Required (Name "args"), list_of (callable is_stringy));
    (Optional (Name "run_type") (Some (lit "composite")),
     And (callable is_stringy) (callable run_type_known));
    (Optional (Name "java") (Some (lit "java")), callable is_stringy);
    (Optional (Name "jar") (Some (str "specjbb2015.jar")), callable is_stringy);
    (Optional (Name "default_props") None,
     dict_schema [ (Required (Pred is_stringy), object) ]);
    (Optional (Name "annotations") None,
     dict_schema [ (Required (Pred is_stringy), callable is_stringy) ]);
    (Optional (Name "translations") None,
     dict_schema [ (Required (Pred is_stringy), callable is_stringy) ]);
    (Optional (Name "types") None,
     dict_schema [ (Required (Pred is_stringy), callable is_stringy) ]) ].

Definition RunConfigSchema_entries : entries :=
  [ (Required (Name "template_type"), callable is_stringy);
    (Required (Name "args"),
     dict_schema [ (Optional (Pred is_stringy) None, object) ]);
    (Optional (Name "props_extra") None,
     dict_schema [ (Optional (Pred is_stringy) None, callable is_stringy) ]) ].

Definition SpectateConfig_entries : entries :=
  [ (Required (Name "TemplateData"),
     dict_schema [ (Required (Pred is_stringy), TemplateSchema) ]);
    (Required (Name "RunList"), list_of RunConfigSchema) ].

(** The errors of the [schema] package. *)
Definition is_schema_error (e : exn) : Prop :=
  e = SchemaError \/ e = SchemaMissingKeyError \/ e = SchemaWrongKeyError
  \/ e = SchemaUnexpectedTypeError.

(** The shape of a validated template: a mapping with a list of [str] as
    args, a known run type, [str] java and jar, and mappings as
    default_props, translations and annotations where it has them. *)
Definition template_shape (t : pyval) : Prop :=
  exists td args,
    t = PDict td
    /\ dict_get td "args" = Some (PList args)
    /\ Forall (fun a => is_str a = true) args
    /\ (exists rt, dict_get td "run_type" = Some rt /\ run_type_known rt = true)
    /\ (exists j, dict_get td "java" = Some j /\ is_str j = true)
    /\ (exists j, dict_get td "jar" = Some j /\ is_str j = true)
    /\ (forall m, dict_get td "default_props" = Some m -> is_dict m = true)
    /\ (forall m, dict_get td "translations" = Some m -> is_dict m = true)
    /\ (forall m, dict_get td "annotations" = Some m -> is_dict m = true).

(** The shape of a validated run: a mapping with a [str] template_type and
    a mapping as args. *)
Definition run_shape (r : pyval) : Prop :=
  exists rd i name ra,
    r = PDict rd
    /\ dict_get rd "template_type" = Some (PStr i name)
    /\ dict_get rd "args" = Some (PDict ra).

(** The shape of a validated document. *)
Definition config_shape (d : pyval) : Prop :=
  exists dd tpls runs,
    d = PDict dd
    /\ dict_get dd "TemplateData" = Some (PDict tpls)
    /\ dict_get dd "RunList" = Some (PList runs)
    /\ Forall run_shape runs
    /\ (forall name t, In (name, t) tpls -> template_shape t).

(** What [validate] does with the document the schema returned. *)
Definition cross_check (d : pyval) : result pyval :=
  run_list <- item d "RunList" ;;
  runs <- py_iter run_list ;;
  r <- for_each runs (check_run d) ;;
  match r with
  | Some v => Return v
  | None =>
      template_data <- item d "TemplateData" ;;
      templates <- values template_data ;;
      r <- for_each templates check_template ;;
      match r with
      | Some v => Return v
      | None => Return d
      end
  end.

(** Reading a document: the value under a key of a mapping, the keys of a
    mapping, the strings of a list. *)
Definition field (v : pyval) (k : string) : option pyval :=
  match v with
  | PDict d => dict_get d k
  | _ => None
  end.

Definition keys_of (o : option pyval) : list string :=
  match o with
  | Some (PDict d) => map fst d
  | _ => []
  end.

Definition names_of (o : option pyval) : list string :=
  match o with
  | Some (PList l) =>
      flat_map (fun x => match x with PStr _ s => [s] | _ => [] end) l
  | _ => []
  end.

(** The two rules on a run: its template exists, every arg it supplies is
    declared by the template, and every declared arg is supplied by the run
    or has a default in the template. *)
Definition run_consistent (template_data run : pyval) : Prop :=
  exists i name t,
    field run "template_type" = Some (PStr i name)
    /\ field template_data name = Some t
    /\ (forall a, In a (keys_of (field run "args")) ->
                  In a (names_of (field t "args")))
    /\ (forall a, In a (names_of (field t "args")) ->
                  In a (keys_of (field run "args"))
                  \/ In a (keys_of (field t "default_props"))).

(** The two rules on a template: the keys of its translations and of its
    annotations are declared args. *)
Definition template_consistent (t : pyval) : Prop :=
  (forall k, In k (keys_of (field t "translations")) ->
             In k (names_of (field t "args")))
  /\ (forall k, In k (keys_of (field t "annotations")) ->
                In k (names_of (field t "args"))).

(** The four cross-referential rules on a document. *)
Definition consistent (d : pyval) : Prop :=
  exists tpls runs,
    field d "TemplateData" = Some (PDict tpls)
    /\ field d "RunList" = Some (PList runs)
    /\ Forall (run_consistent (PDict tpls)) runs
    /\ (forall name t, In (name, t) tpls -> template_consistent t).

(** A document that is valid in shape and in its cross references. *)
Definition good_document : pyval :=
  PDict [("TemplateData",
          PDict [("t", PDict [("args", PList [str "a"; str "b"]);
                              ("default_props", PDict [("b", PInt 1)])])]);
         ("RunList",
          PList [PDict [("template_type", str "t"); ("args", PDict [("a", PInt 5)])]])].

(** The same document once validated. *)
Definition good_document_validated : pyval :=
  PDict [("TemplateData",
          PDict [("t", PDict [("args", PList [str "a"; str "b"]);
                              ("default_props", PDict [("b", PInt 1)]);
                              ("run_type", lit "composite"); ("java", lit "java");
                              ("jar", str "specjbb2015.jar")])]);
         ("RunList",
          PList [PDict [("template_type", str "t"); ("args", PDict [("a", PInt 5)])]])].

(** A document whose run names a template that does not exist. *)
Definition document_unknown_template : pyval :=
  PDict [("TemplateData",
          PDict [("t", PDict [("args", PList [str "a"]);
                              ("default_props", PDict [("a", PInt 1)])])]);
         ("RunList",
          PList [PDict [("template_type", str "u"); ("args", PDict [])]])].

(** A document whose run supplies an arg that its template does not
    declare. *)
Definition document_undeclared_arg : pyval :=
  PDict [("TemplateData",
          PDict [("t", PDict [("args", PList [str "a"])])]);
         ("RunList",
          PList [PDict [("template_type", str "t");
                        ("args", PDict [("a", PInt 1); ("z", PInt 2)])]])].

(** What [__set_java__] can normalize: a string, a list with a first
    element, a mapping. *)
Definition java_acceptable (v : pyval) : bool :=
  match v with
  | PStr _ _ => true
  | PList (_ :: _) => true
  | PDict _ => true
  | _ => false
  end.

(** A mapping with a type key. *)
Definition has_type (v : pyval) : bool :=
  match v with
  | PDict d => dict_in d "type"
  | _ => false
  end.

(** The arguments the constructor accepts. *)
Definition acceptable (a : init_args) : bool :=
  is_str (arg_jar a) && java_acceptable (arg_java a) && has_type (arg_controller a)
  && count_or_dict (arg_backends a) && count_or_dict (arg_injectors a).

(** Arguments whose java is a number. *)
Definition args_java_number : init_args :=
  mkArgs (PDict [("type", lit "composite")]) PNone PNone (PInt 8) (str "x.jar")
         (PDict []) (str "specjbb2015.props").

(** A value the parser takes: not [None], and with a text that is empty or
    keeps no stray percent sign. *)
Definition value_accepted (v : pyval) : bool :=
  negb (is_none v)
  && match py_str v with
     | EmptyString => true
     | s => only_keyrefs KOut (remove_pct_pct s)
     end.

(** The option names of a mapping, as the parser stores them. *)
Definition folded_names (items : dict) : list string :=
  map (fun kv => lower (fst kv)) items.

(** The errors of [read_dict]. *)
Definition is_parser_error (e : exn) : Prop :=
  (exists k, e = DuplicateOptionError k) \/ e = TypeError \/ e = ValueError.

(** A composite run with a percent sign in a property. *)
Definition run_percent : SpecJBBRun :=
  mkRun (str "x.jar") (PDict [("load", str "90%")]) (str "p.props") 0%Z java_record
        (PDict [("type", lit "composite")])
        (component_of_count (PInt 1) "backend")
        (component_of_count (PInt 1) "txinjector").

(** The eight keys a template may have. *)
Definition template_keys : list string :=
  ["args"; "run_type"; "java"; "jar"; "default_props"; "annotations";
   "translations"; "types"].

(** The schema of the run type of a template. *)
Definition run_type_schema : schema :=
  And (callable is_stringy) (callable run_type_known).

(** A document with a template of an unknown run type. *)
Definition document_bad_run_type : pyval :=
  PDict [("TemplateData",
          PDict [("t", PDict [("args", PList []); ("run_type", str "hybrid")])]);
         ("RunList", PList [])].

(** A document with a template that has a key the schema does not know. *)
Definition document_unknown_key : pyval :=
  PDict [("TemplateData",
          PDict [("t", PDict [("args", PList []); ("heap", str "4g")])]);
         ("RunList", PList [])].

(** A schema is stable when it returns its own results unchanged. *)
Definition stable (s : schema) : Prop :=
  forall x y, s x = Return y -> s y = Return y.

(** The positions of the [Optional] keys with a default that were not
    used, in step with [unused_defaults]. *)
Fixpoint unused_indices (es : entries) (coverage : list nat) (i : nat) : list nat :=
  match es with
  | [] => []
  | (sk, _) :: es' =>
      match sk with
      | Optional (Name n) (Some v) =>
          if existsb (Nat.eqb i) coverage then unused_indices es' coverage (S i)
          else i :: unused_indices es' coverage (S i)
      | _ => unused_indices es' coverage (S i)
      end
  end.

(** The entries of a dictionary schema are well formed when their schemas
    are stable, every constant key is the first key that accepts its own
    name, and every default passes the schema of its key. *)
Definition entries_wf (es : entries) : Prop :=
  (forall sk s, In (sk, s) es -> stable s)
  /\ (forall j sk s n,
         nth_error (sorted_keys es) j = Some (sk, s) ->
         pattern_of sk = Name n ->
         find_entry (sorted_keys es) n 0 = Some (j, sk, s))
  /\ (forall n dv s, In (Optional (Name n) (Some dv), s) es -> s dv = Return dv).

(** Whether all the text of a value is ASCII: the [str] objects in it, at
    any depth, and the keys of its mappings. *)
Fixpoint ascii_text (v : pyval) : bool :=
  match v with
  | PStr _ s => isascii s
  | PList l => forallb ascii_text l
  | PDict d => forallb (fun kv => isascii (fst kv) && ascii_text (snd kv)) d
  | POther _ text => isascii text
  | _ => true
  end.

(** Whether the text of a run's props, controller, backends and injectors
    is ASCII. *)
Definition ascii_run (self : SpecJBBRun) : bool :=
  ascii_text (props self) && ascii_text (controller self)
  && ascii_text (backends self) && ascii_text (injectors self).

(** An operating system that refuses no file name. *)
Definition any_file : string -> bool := fun _ => true.

(** Arguments with no controller and an empty list as [java]. *)
Definition args_no_controller_empty_java : init_args :=
  mkArgs PNone (PInt 2) (PInt 3) (PList []) (str "x.jar")
         (PDict []) (str "specjbb2015.props").

(** The events of the pool and of stopping a process. *)
Definition is_pool_event (ev : event) : bool :=
  match ev with
  | PoolCreate _ | PoolMap _ | ProcStop _ => true
  | _ => false
  end.

(** What [run_composite_read] does when run: the controller is started, a
    backend and an injector are handed to a pool of two, and the controller
    is stopped. *)
Definition composite_read_trace : list event :=
  file_events "p.props" []
  ++ [ProcStart (mkTaskRunner composite_argv);
      PoolCreate 2;
      PoolMap [tagged_task backend_argv 0%Z 1%Z; tagged_task injector_argv 0%Z 2%Z];
      ProcStop (mkTaskRunner composite_argv)].

(** A schema that returns the data themselves when it accepts them. *)
Definition identity (s : schema) : Prop :=
  forall x y, s x = Return y -> y = x.

(** What the schema of a template supplies for a key that is left out. *)
Definition template_default (k : string) : option pyval :=
  if String.eqb k "run_type" then Some (lit "composite")
  else if String.eqb k "java" then Some (lit "java")
  else if String.eqb k "jar" then Some (str "specjbb2015.jar")
  else None.

(** A document whose template declares an arg, has no default_props, and
    whose run does not supply the arg. *)
Definition document_no_defaults : pyval :=
  PDict [("TemplateData", PDict [("t", PDict [("args", PList [str "a"])])]);
         ("RunList", PList [PDict [("template_type", str "t"); ("args", PDict [])]])].

(** Whether the strings of a list are pairwise different. *)
Fixpoint all_different (l : list string) : bool :=
  match l with
  | [] => true
  | x :: l' => negb (existsb (String.eqb x) l') && all_different l'
  end.

(** Whether every mapping in a value, at any depth, has pairwise different
    keys, as every [dict] has. *)
Fixpoint distinct_keys (v : pyval) : bool :=
  match v with
  | PList l => forallb distinct_keys l
  | PDict d => all_different (map fst d) && forallb (fun kv => distinct_keys (snd kv)) d
  | _ => true
  end.

(** Induction on a value, with the property at hand for the elements of a
    list and for the values of a dictionary. *)
Section ValueInduction.

Variable P : pyval -> Prop.
Hypothesis HNone : P PNone.
Hypothesis HBool : forall b, P (PBool b).
Hypothesis HInt : forall z, P (PInt z).
Hypothesis HStr : forall i s, P (PStr i s).
Hypothesis HList : forall l, Forall P l -> P (PList l).
Hypothesis HDict : forall d, Forall (fun kv => P (snd kv)) d -> P (PDict d).
Hypothesis HOther : forall t x, P (POther t x).

Fixpoint pyval_nested_ind (v : pyval) : P v :=
  match v with
  | PNone => HNone
  | PBool b => HBool b
  | PInt z => HInt z
  | PStr i s => HStr i s
  | PList l =>
      HList ((fix elements (l : list pyval) : Forall P l :=
                match l with
                | [] => Forall_nil P
                | x :: l' => Forall_cons x (pyval_nested_ind x) (elements l')
                end) l)
  | PDict d =>
      HDict ((fix values (d : list (string * pyval))
                : Forall (fun kv => P (snd kv)) d :=
                match d with
                | [] => Forall_nil _
                | kv :: d' =>
                    @Forall_cons _ (fun kv => P (snd kv)) kv d'
                                 (pyval_nested_ind (snd kv)) (values d')
                end) d)
  | POther t x => HOther t x
  end.

End ValueInduction.

(** * Properties *)

(** ** Command lines *)

Lemma item_dict (d : dict) (k : string) (v : pyval) :
  dict_get d k = Some v -> item (PDict d) k = Return v.
Proof. intros H. unfold item, getitem. now rewrite H. Qed.

Lemma item_dict_missing (d : dict) (k : string) :
  dict_get d k = None -> item (PDict d) k = Raise (KeyError k).
Proof. intros H. unfold item, getitem. now rewrite H. Qed.

Lemma dict_get_default_role (od : dict) (k : string) :
  dict_get_default (PDict od) k (PList []) = Return (role_list od k).
Proof. unfold dict_get_default, role_list. now destruct (dict_get od k). Qed.

(** C1. For a run whose [java] record has a path and a list of options, and
    a role record with an ASCII [str] as type and lists (given or defaulted)
    of [jvm_opts] and [options], [_full_options] returns
    [[path, "-jar", jar] ++ java options ++ jvm_opts ++ ["-m", upper type]
    ++ options ++ ["-p", props_file]]; the controller, the backends and the
    injectors all go through this one function. *)
Theorem full_options_formula
  (self : SpecJBBRun) (jd od : dict) (path : pyval)
  (java_options jvm_opts options : list pyval) (i : bool) (type : string) :
  java self = PDict jd ->
  dict_get jd "path" = Some path ->
  dict_get jd "options" = Some (PList java_options) ->
  dict_get od "type" = Some (PStr i type) ->
  isascii type = true ->
  role_list od "jvm_opts" = PList jvm_opts ->
  role_list od "options" = PList options ->
  let argv :=
    PList ([path; str "-jar"; jar self] ++ java_options ++ jvm_opts
           ++ [str "-m"; str (upper type)] ++ options
           ++ [str "-p"; props_file self]) in
  _full_options self (PDict od) = Return argv
  /\ (controller self = PDict od -> controller_run_args self = Return argv)
  /\ (backends self = PDict od -> backend_run_args self = Return argv)
  /\ (injectors self = PDict od -> injector_run_args self = Return argv).
Proof.
  intros Hj Hp Ho Ht _ Hv Hopt argv.
  assert (H : _full_options self (PDict od) = Return argv).
  { unfold _full_options. rewrite Hj.
    rewrite (item_dict _ _ Hp), (item_dict _ _ Ho). cbn [bind list_add].
    rewrite dict_get_default_role, Hv. cbn [bind list_add].
    rewrite (item_dict _ _ Ht). cbn [bind py_upper].
    rewrite dict_get_default_role, Hopt. cbn [bind list_add].
    unfold argv. f_equal. f_equal.
    rewrite <- !app_assoc. reflexivity. }
  unfold controller_run_args, backend_run_args, injector_run_args.
  repeat split; try assumption; intros ->; assumption.
Qed.


Lemma full_options_formula_witness :
  _full_options example_run (backends example_run) = Return example_argv
  /\ backend_run_args example_run = Return example_argv.
Proof.
  destruct (@full_options_formula example_run
              [("path", str "java"); ("options", PList [str "-Xmx1g"])]
              [("type", str "backend"); ("options", PList [str "-Dfoo=bar"]);
               ("jvm_opts", PList [str "-Xms1g"])]
              (str "java") [str "-Xmx1g"] [str "-Xms1g"] [str "-Dfoo=bar"]
              false "backend"
              eq_refl eq_refl eq_refl eq_refl eq_refl eq_refl eq_refl)
    as (H & _ & Hb & _).
  split; [exact H | exact (Hb eq_refl)].
Defined.

(** The example of the specification, for every run with that [java], [jar]
    and [props_file], whatever its other attributes. *)
Lemma full_options_example (self : SpecJBBRun) (i1 i2 i3 i4 i5 i6 i7 : bool) :
  java self = PDict [("path", PStr i1 "java"); ("options", PList [PStr i2 "-Xmx1g"])] ->
  jar self = PStr i3 "x.jar" ->
  props_file self = PStr i4 "p.props" ->
  _full_options self
    (PDict [("type", PStr i5 "backend"); ("options", PList [PStr i6 "-Dfoo=bar"]);
            ("jvm_opts", PList [PStr i7 "-Xms1g"])])
  = Return (PList [PStr i1 "java"; str "-jar"; PStr i3 "x.jar"; PStr i2 "-Xmx1g";
                   PStr i7 "-Xms1g"; str "-m"; str "BACKEND"; PStr i6 "-Dfoo=bar";
                   str "-p"; PStr i4 "p.props"]).
Proof.
  intros Hj Hjar Hp. unfold _full_options. rewrite Hj, Hjar, Hp. reflexivity.
Qed.

(** ** Construction *)

Lemma set_java_keeps (self r : SpecJBBRun) (v : pyval) :
  __set_java__ self v = Return r ->
  jar r = jar self /\ props r = props self /\ props_file r = props_file self
  /\ controller r = controller self.
Proof.
  unfold __set_java__. intros H.
  destruct (is_str v); [injection H as <-; now cbn|].
  destruct (is_list v).
  { destruct (getitem v (PInt 0)); cbn in H; [|discriminate].
    destruct (slice_from_1 v); cbn in H; [|discriminate].
    injection H as <-. now cbn. }
  destruct (is_dict v); [|discriminate].
  injection H as <-. now cbn.
Qed.

Lemma set_topology_keeps (self r : SpecJBBRun) (c b i : pyval) :
  __set_topology__ self c b i = Return r ->
  jar r = jar self /\ java r = java self /\ controller r = c /\ is_dict c = true.
Proof.
  unfold __set_topology__. intros H.
  destruct (is_none c && is_none b && is_none i); [discriminate|].
  destruct (is_dict c) eqn:Hc; [|discriminate]. cbn [negb] in H.
  destruct c; try discriminate. cbn [py_contains bind is_none] in H.
  destruct (negb (dict_in d "type")); [discriminate|].
  destruct (is_int b);
    [|destruct (is_dict b); [|destruct (is_none b); [|discriminate]]];
    cbn [bind] in H;
    (destruct (is_int i);
     [|destruct (is_dict i); [|destruct (is_none i); [|discriminate]]]);
    injection H as <-; now cbn.
Qed.

(** C5 fails as stated: the constructor accepts the empty string as [jar]
    and stores it. *)
Lemma jar_empty_is_accepted :
  fst (SpecJBBRun__init__ args_empty_jar world0) = Return run_empty_jar
  /\ jar run_empty_jar = str "".
Proof. split; reflexivity. Qed.

(** C5, amended. A run that was constructed holds as [jar] the [str] it was
    given, which may be empty; without a [jar], or with one that is not a
    [str], the constructor raises [InvalidRunConfigurationException] and
    leaves the world as it was. *)
Theorem jar_is_str :
  (forall (a : init_args) (w w' : world) (r : SpecJBBRun),
      SpecJBBRun__init__ a w = (Return r, w') ->
      jar r = arg_jar a /\ is_str (jar r) = true)
  /\ (forall (a : init_args) (w : world),
         is_str (arg_jar a) = false ->
         SpecJBBRun__init__ a w
         = (Raise (InvalidRunConfigurationException "Run was invalid"), w)).
Proof.
  split.
  - intros a w w' r H. unfold SpecJBBRun__init__ in H.
    destruct (existsb (py_eq PNone) [arg_java a; arg_jar a]); [discriminate|].
    destruct (is_str (arg_jar a)) eqn:Hs; [|discriminate].
    cbn [orb negb] in H.
    unfold mbind, uuid4, lift in H.
    destruct (__set_java__ _ (arg_java a)) as [s|] eqn:Hj; [|discriminate].
    destruct (__set_topology__ s _ _ _) as [s'|] eqn:Ht; [|discriminate].
    injection H as <- _.
    apply set_java_keeps in Hj. apply set_topology_keeps in Ht.
    cbn in Hj. destruct Hj as (Hj & _), Ht as (Ht & _).
    rewrite Ht, Hj. now split.
  - intros a w Hs. unfold SpecJBBRun__init__. rewrite Hs.
    now rewrite orb_true_r.
Qed.

Lemma jar_is_str_witness :
  (jar run_empty_jar = arg_jar args_empty_jar
   /\ is_str (jar run_empty_jar) = true)
  /\ SpecJBBRun__init__ no_args world0
     = (Raise (InvalidRunConfigurationException "Run was invalid"), world0).
Proof.
  destruct jar_is_str as [H1 H2]. split.
  - exact (H1 args_empty_jar world0 _ _ eq_refl).
  - exact (H2 no_args world0 eq_refl).
Defined.

Lemma set_topology_no_controller (self : SpecJBBRun) (b i : pyval) :
  exists msg,
    __set_topology__ self PNone b i = Raise (InvalidRunConfigurationException msg).
Proof.
  unfold __set_topology__. cbn [is_none is_dict andb negb].
  destruct (is_none b && is_none i); eexists; reflexivity.
Qed.

(** C6 fails as stated: without a controller and with an empty list as
    [java], the constructor raises the [IndexError] of [java[0]], which
    [__set_java__] takes before the topology is looked at, and not an
    [InvalidRunConfigurationException]. *)
Lemma no_controller_empty_java_raises_IndexError :
  arg_controller args_no_controller_empty_java = PNone
  /\ fst (SpecJBBRun__init__ args_no_controller_empty_java world0) = Raise IndexError
  /\ forall msg, IndexError <> InvalidRunConfigurationException msg.
Proof. split; [reflexivity|]. split; [reflexivity|discriminate]. Qed.

(** C6, amended. Without a controller [__set_topology__] raises
    [InvalidRunConfigurationException], whatever the backends and injectors
    are: the test for a mapping comes first.  Hence the constructor never
    returns a run, and it raises that exception whenever [java] is not the
    empty list.  Whenever [__set_topology__] does return, the controller it
    stored is the mapping it was given, never the default one. *)
Theorem default_controller_unreachable :
  (forall (self : SpecJBBRun) (b i : pyval),
      exists msg,
        __set_topology__ self PNone b i
        = Raise (InvalidRunConfigurationException msg))
  /\ (forall (a : init_args) (w : world),
         arg_controller a = PNone ->
         exists e w',
           SpecJBBRun__init__ a w = (Raise e, w')
           /\ (arg_java a <> PList [] ->
               exists msg, e = InvalidRunConfigurationException msg))
  /\ (forall (self r : SpecJBBRun) (c b i : pyval),
         __set_topology__ self c b i = Return r ->
         controller r = c /\ is_dict c = true).
Proof.
  split; [exact set_topology_no_controller|]. split.
  - intros a w Hc. unfold SpecJBBRun__init__.
    destruct (existsb (py_eq PNone) [arg_java a; arg_jar a]
              || negb (is_str (arg_jar a))).
    { do 2 eexists. split; [reflexivity|]. intros _. eexists. reflexivity. }
    unfold mbind, uuid4, lift. rewrite Hc.
    destruct (__set_java__ _ (arg_java a)) as [s|e] eqn:Hj.
    + destruct (set_topology_no_controller s (arg_backends a) (arg_injectors a))
        as [msg ->].
      do 2 eexists. split; [reflexivity|]. intros _. eexists. reflexivity.
    + do 2 eexists. split; [reflexivity|]. intros Hne.
      unfold __set_java__ in Hj.
      destruct (arg_java a) as [| | | |l| |]; cbn in Hj; try discriminate;
        try (injection Hj as <-; eexists; reflexivity).
      destruct l as [|x l]; [now contradiction Hne|discriminate].
  - intros self r c b i H. now apply set_topology_keeps in H.
Qed.

Lemma default_controller_unreachable_witness :
  (exists e w',
      SpecJBBRun__init__ args_no_controller world0 = (Raise e, w')
      /\ (arg_java args_no_controller <> PList [] ->
          exists msg, e = InvalidRunConfigurationException msg))
  /\ (controller run_empty_jar = PDict [("type", lit "composite")]
      /\ is_dict (PDict [("type", lit "composite")]) = true).
Proof.
  destruct default_controller_unreachable as (_ & H2 & H3). split.
  - exact (H2 args_no_controller world0 eq_refl).
  - exact (H3 blank_run run_empty_jar (PDict [("type", lit "composite")])
              PNone PNone eq_refl).
Defined.

Lemma dict_get_set_other (d : dict) (k k' : string) (v : pyval) :
  k <> k' -> dict_get (dict_set d k v) k' = dict_get d k'.
Proof.
  intros Hne. induction d as [|[k0 v0] d IH]; cbn.
  - destruct (String.eqb_spec k k'); [contradiction|reflexivity].
  - destruct (String.eqb_spec k0 k) as [->|Hk]; cbn.
    + destruct (String.eqb_spec k k'); [contradiction|reflexivity].
    + destruct (String.eqb k0 k'); [reflexivity|exact IH].
Qed.

(** C9 fails as stated: the empty string is accepted as a bare path, by
    [JvmRunOptions] and by [__set_java__], and becomes the path. *)
Lemma path_may_be_empty :
  JvmRunOptions (str "") = Return (PDict [("path", str ""); ("options", PList [])])
  /\ __set_java__ blank_run (str "")
     = Return (with_java blank_run (PDict [("path", str ""); ("options", PList [])])).
Proof. split; reflexivity. Qed.

(** C9, amended. The normalized path is a [str], the one given, which may
    be empty: for a bare path string and for a sequence that starts with a
    string, in [JvmRunOptions] and in [__set_java__] alike, and for every
    mapping that [JvmRunOptions] accepts, whose path it keeps.
    [__set_java__] stores a mapping as it is. *)
Theorem path_is_str :
  (forall (i : bool) (s : string),
      JvmRunOptions (PStr i s)
      = Return (PDict [("path", PStr i s); ("options", PList [])]))
  /\ (forall (i : bool) (s : string) (l : list pyval),
         JvmRunOptions (PList (PStr i s :: l))
         = Return (PDict [("path", PStr i s); ("options", PList l)]))
  /\ (forall (d : dict) (r : pyval),
         JvmRunOptions (PDict d) = Return r ->
         exists (rd : dict) (i : bool) (s : string),
           r = PDict rd
           /\ dict_get d "path" = Some (PStr i s)
           /\ dict_get rd "path" = Some (PStr i s))
  /\ (forall (self : SpecJBBRun) (i : bool) (s : string),
         __set_java__ self (PStr i s)
         = Return (with_java self (PDict [("path", PStr i s); ("options", PList [])])))
  /\ (forall (self : SpecJBBRun) (i : bool) (s : string) (l : list pyval),
         __set_java__ self (PList (PStr i s :: l))
         = Return (with_java self (PDict [("path", PStr i s); ("options", PList l)])))
  /\ (forall (self : SpecJBBRun) (d : dict),
         __set_java__ self (PDict d) = Return (with_java self (PDict d))).
Proof.
  repeat split; try reflexivity.
  intros d r H. unfold JvmRunOptions in H.
  destruct (dict_get d "path") as [p|] eqn:Hp; [|discriminate].
  destruct p as [| | |i s| | |]; try discriminate. cbn [is_str negb] in H.
  destruct (dict_get d "options") as [o|] eqn:Ho.
  - destruct (negb (is_list o)); [discriminate|]. injection H as <-.
    now exists d, i, s.
  - injection H as <-. exists (dict_set d "options" (PList [])), i, s.
    split; [reflexivity|]. split; [reflexivity|].
    rewrite dict_get_set_other; [exact Hp|discriminate].
Qed.

Lemma path_is_str_witness :
  JvmRunOptions (str "/usr/bin/java")
  = Return (PDict [("path", str "/usr/bin/java"); ("options", PList [])])
  /\ JvmRunOptions (PList [str "java"; str "-Xmx1g"])
     = Return (PDict [("path", str "java"); ("options", PList [str "-Xmx1g"])])
  /\ (exists (rd : dict) (i : bool) (s : string),
         PDict [("path", str ""); ("options", PList [])] = PDict rd
         /\ dict_get [("path", str "")] "path" = Some (PStr i s)
         /\ dict_get rd "path" = Some (PStr i s))
  /\ __set_java__ blank_run (PList [str "java"; str "-Xmx1g"])
     = Return (with_java blank_run
                 (PDict [("path", str "java"); ("options", PList [str "-Xmx1g"])])).
Proof.
  destruct path_is_str as (H1 & H2 & H3 & _ & H5 & _).
  split; [apply H1|]. split; [apply H2|]. split; [|apply H5].
  exact (H3 [("path", str "")] _ eq_refl).
Defined.

(** C10. With a mapping [d] as [java] and otherwise valid arguments (a [str]
    as [jar], a mapping with a type as controller, a count, a mapping or
    nothing as backends and as injectors), the constructor succeeds, draws
    the run identifier, and stores [d] itself, whatever it holds.  A missing
    path or options key only shows when [_full_options] reads it, as a
    [KeyError]. *)
Theorem java_dict_unchecked
  (a : init_args) (w : world) (d cd : dict) :
  arg_java a = PDict d ->
  is_str (arg_jar a) = true ->
  arg_controller a = PDict cd ->
  dict_in cd "type" = true ->
  count_or_dict (arg_backends a) = true ->
  count_or_dict (arg_injectors a) = true ->
  exists r,
    SpecJBBRun__init__ a w
    = (Return r, mkWorld (entropy w) (S (drawn w)) (trace w))
    /\ java r = PDict d
    /\ (dict_get d "path" = None ->
        forall od, _full_options r od = Raise (KeyError "path"))
    /\ (forall p, dict_get d "path" = Some p -> dict_get d "options" = None ->
        forall od, _full_options r od = Raise (KeyError "options")).
Proof.
  intros Hj Hjar Hc Ht Hb Hi.
  unfold SpecJBBRun__init__. rewrite Hj.
  destruct (arg_jar a) as [| | |ij sj| | |] eqn:Ej; try discriminate.
  cbn [existsb py_eq orb negb is_str].
  unfold mbind, uuid4, lift. cbn [__set_java__ is_str is_list is_dict].
  set (self := with_java _ _).
  assert (Hex : exists r, __set_topology__ self (arg_controller a) (arg_backends a)
                            (arg_injectors a) = Return r /\ java r = PDict d).
  { unfold __set_topology__. rewrite Hc. cbn [is_none is_dict andb negb py_contains bind].
    rewrite Ht. cbn [negb].
    unfold count_or_dict in Hb, Hi.
    destruct (is_int (arg_backends a));
      [|destruct (is_dict (arg_backends a));
        [|destruct (is_none (arg_backends a)); [|discriminate]]];
      cbn [bind];
      (destruct (is_int (arg_injectors a));
       [|destruct (is_dict (arg_injectors a));
         [|destruct (is_none (arg_injectors a)); [|discriminate]]]);
      eexists; split; reflexivity. }
  destruct Hex as (r & -> & Hr). exists r. split; [reflexivity|].
  split; [exact Hr|]. split.
  - intros Hp od. unfold _full_options. rewrite Hr.
    now rewrite (item_dict_missing _ _ Hp).
  - intros p Hp Ho od. unfold _full_options. rewrite Hr.
    rewrite (item_dict _ _ Hp). cbn [bind].
    now rewrite (item_dict_missing _ _ Ho).
Qed.

Lemma java_dict_unchecked_witness :
  exists r,
    SpecJBBRun__init__ args_java_empty_dict world0
    = (Return r, mkWorld (entropy world0) (S (drawn world0)) (trace world0))
    /\ java r = PDict []
    /\ (dict_get [] "path" = None ->
        forall od, _full_options r od = Raise (KeyError "path"))
    /\ (forall p, dict_get [] "path" = Some p -> dict_get [] "options" = None ->
        forall od, _full_options r od = Raise (KeyError "options")).
Proof.
  exact (@java_dict_unchecked args_java_empty_dict world0 []
           [("type", lit "composite")]
           eq_refl eq_refl eq_refl eq_refl eq_refl eq_refl).
Defined.

(** ** Identifiers and their text *)








(** ** Task generation *)














(** ** Running *)

Lemma emits_ret {A} (P : event -> bool) (a : A) : emits P (ret a).
Proof. intros w. exists []. cbn. now rewrite app_nil_r. Qed.

Lemma emits_raise {A} (P : event -> bool) (e : exn) : emits P (@raise A e).
Proof. intros w. exists []. cbn. now rewrite app_nil_r. Qed.

Lemma emits_lift {A} (P : event -> bool) (c : result A) : emits P (lift c).
Proof. intros w. exists []. cbn. now rewrite app_nil_r. Qed.

Lemma emits_uuid4 (P : event -> bool) : emits P uuid4.
Proof. intros w. exists []. cbn. now rewrite app_nil_r. Qed.

Lemma emits_emit (P : event -> bool) (ev : event) : P ev = true -> emits P (emit ev).
Proof. intros H w. exists [ev]. cbn. now rewrite H. Qed.

Lemma emits_bind {A B} (P : event -> bool) (c : M A) (k : A -> M B) :
  emits P c -> (forall a, emits P (k a)) -> emits P (mbind c k).
Proof.
  intros Hc Hk w. unfold mbind. destruct (Hc w) as (r1 & H1 & P1).
  destruct (c w) as [[a|e] w1]; cbn in H1.
  - destruct (Hk a w1) as (r2 & H2 & P2). exists (r1 ++ r2).
    rewrite H2, H1, app_assoc, forallb_app, P1, P2. now split.
  - exists r1. now split.
Qed.

Lemma injector_tasks_emits (P : event -> bool) (self : SpecJBBRun) (g : uuid) (n : nat) :
  emits P (injector_tasks self g n).
Proof.
  induction n as [|n IH]; cbn [injector_tasks]; [apply emits_ret|].
  apply emits_bind; [apply emits_uuid4|intros ti].
  apply emits_bind; [apply emits_lift|intros args].
  apply emits_bind; [exact IH|intros rest]. apply emits_ret.
Qed.

Lemma group_tasks_emits (P : event -> bool) (self : SpecJBBRun) (n : nat) :
  emits P (group_tasks self n).
Proof.
  induction n as [|n IH]; cbn [group_tasks]; [apply emits_ret|].
  apply emits_bind; [apply emits_uuid4|intros g].
  apply emits_bind; [apply emits_uuid4|intros j].
  apply emits_bind; [apply emits_lift|intros args].
  apply emits_bind; [apply emits_lift|intros count].
  apply emits_bind; [apply injector_tasks_emits|intros inj].
  apply emits_bind; [exact IH|intros rest]. apply emits_ret.
Qed.

Lemma generate_tasks_emits (P : event -> bool) (self : SpecJBBRun) :
  emits P (_generate_tasks self).
Proof.
  unfold _generate_tasks.
  apply emits_bind; [apply emits_lift|intros type].
  destruct (py_is_lit type "composite"); [apply emits_ret|].
  apply emits_bind; [apply emits_lift|intros _].
  apply emits_bind; [apply emits_lift|intros _].
  apply emits_bind; [apply emits_lift|intros count].
  apply group_tasks_emits.
Qed.

Lemma run_processes_emits (self : SpecJBBRun) :
  emits is_process_event (run_processes self).
Proof.
  unfold run_processes.
  apply emits_bind; [apply emits_lift|intros args].
  apply emits_bind; [apply emits_lift|intros type].
  destruct (py_is_lit type "composite"); [now apply emits_emit|].
  apply emits_bind; [now apply emits_emit|intros _].
  apply emits_bind; [apply generate_tasks_emits|intros tasks].
  apply emits_bind; [|intros _].
  { unfold Pool. destruct (length tasks); [apply emits_raise|now apply emits_emit]. }
  apply emits_bind; [now apply emits_emit|intros _].
  now apply emits_emit.
Qed.

Lemma lower_ascii_idem (c : ascii) : lower_ascii (lower_ascii c) = lower_ascii c.
Proof. destruct c as [[] [] [] [] [] [] [] []]; reflexivity. Qed.

Lemma lower_idem (s : string) : lower (lower s) = lower s.
Proof.
  unfold lower. induction s as [|c s IH]; cbn; [reflexivity|].
  now rewrite lower_ascii_idem, IH.
Qed.

Lemma before_set_value (v v' : string) : before_set v = Return v' -> v' = v.
Proof. unfold before_set. destruct (only_keyrefs _ _); [|discriminate]. now intros [= <-]. Qed.

Lemma checked_value (t v' : string) :
  (match t with
   | EmptyString => Return t
   | String _ _ => before_set t
   end) = Return v' -> v' = t.
Proof. destruct t; [now intros [= <-]|apply before_set_value]. Qed.

Lemma read_options_folded (items : dict) (acc sect : section) :
  read_options items acc = Return sect -> sect = acc ++ folded items.
Proof.
  revert acc. induction items as [|[k v] items IH]; intros acc H; cbn in H.
  - injection H as <-. cbn. now rewrite app_nil_r.
  - destruct (existsb _ _); [discriminate|].
    destruct v; try discriminate;
      match type of H with
      | bind ?c _ = _ => destruct c as [value'|] eqn:E; [|discriminate]
      end;
      apply checked_value in E; subst value'; cbn [bind] in H; apply IH in H;
      rewrite H, <- app_assoc, lower_idem; reflexivity.
Qed.

Lemma run_unfold (writable : string -> bool) (self : SpecJBBRun) :
  run writable self
  = (path <~ open_w writable (props_file self) ;;
     finally
       (c <~ lift (read_dict "SPECtate" (props self)) ;;
        emit (FileWrite path (write_section "SPECtate" c)))
       (emit (FileClose path)) ~;;
     run_processes self).
Proof. reflexivity. Qed.

(** When the file cannot be opened, [run] raises the error of [open] and
    nothing else happens. *)
Lemma run_not_opened (writable : string -> bool) (self : SpecJBBRun) (w : world)
  (i : bool) (p : string) (e : exn) :
  props_file self = PStr i p ->
  open_error writable p = Some e ->
  run writable self w = (Raise e, w).
Proof.
  intros Hp He. rewrite run_unfold, Hp. unfold open_w. rewrite He. reflexivity.
Qed.

(** When the parser rejects the props, [run] raises its error with the file
    left empty and closed. *)
Lemma run_props_rejected (writable : string -> bool) (self : SpecJBBRun) (w : world)
  (i : bool) (p : string) (e : exn) :
  props_file self = PStr i p ->
  open_error writable p = None ->
  read_dict "SPECtate" (props self) = Raise e ->
  run writable self w
  = (Raise e, mkWorld (entropy w) (drawn w) (trace w ++ [FileOpen p; FileClose p])).
Proof.
  intros Hp Ho He. rewrite run_unfold, Hp. unfold open_w. rewrite Ho.
  unfold mbind at 1. unfold mbind at 1. cbn [emit ret].
  unfold mbind at 1. unfold finally, mbind at 1. unfold lift at 1. rewrite He.
  cbn [emit trace entropy drawn]. now rewrite <- app_assoc.
Qed.

(** When the file opens and the parser accepts the props, [run] writes the
    section, closes the file and goes on to the processes. *)
Lemma run_after_write (writable : string -> bool) (self : SpecJBBRun) (w : world)
  (i : bool) (p : string) (sect : section) :
  props_file self = PStr i p ->
  open_error writable p = None ->
  read_dict "SPECtate" (props self) = Return sect ->
  run writable self w
  = run_processes self
      (mkWorld (entropy w) (drawn w) (trace w ++ file_events p sect)).
Proof.
  intros Hp Ho Hs. rewrite run_unfold, Hp. unfold open_w. rewrite Ho.
  unfold mbind at 1. unfold mbind at 1. cbn [emit ret].
  unfold mbind at 1. unfold finally, mbind at 1. unfold lift at 1. rewrite Hs.
  cbn [emit trace entropy drawn]. unfold file_events.
  now rewrite <- !app_assoc.
Qed.

(** C7 fails as stated: the option names are not taken verbatim.  The
    property named Foo is written as foo. *)
Lemma props_key_is_folded :
  trace (snd (run any_file run_Foo world0))
  = [FileOpen "p.props";
     FileWrite "p.props" ("[SPECtate]" ++ nl ++ "foo = bar" ++ nl ++ nl);
     FileClose "p.props";
     ProcRun (mkTaskRunner composite_argv)]
  /\ ("[SPECtate]" ++ nl ++ "foo = bar" ++ nl ++ nl)%string
     <> write_section "SPECtate" [("Foo", "bar")].
Proof. split; [reflexivity|discriminate]. Qed.

(** C7, amended. For a run whose [props_file] is a [str] and whose props
    are ASCII text.  If the file cannot be opened, [run] raises the error of [open]
    and does nothing else.  Otherwise [run] first creates or empties that
    file.  If the parser accepts [props], it then writes one section named
    SPECtate whose options are, in the order of [props], each name folded to
    lower case with the [str()] of its value, closes the file, and only
    after that come events of processes.  If the parser rejects [props],
    [run] raises with the file left empty and closed, and no process is
    launched. *)
Theorem props_file_written
  (writable : string -> bool) (self : SpecJBBRun) (w : world) (i : bool) (p : string) :
  props_file self = PStr i p ->
  ascii_text (props self) = true ->
  (forall e, open_error writable p = Some e -> run writable self w = (Raise e, w))
  /\ (open_error writable p = None ->
      (forall sect,
          read_dict "SPECtate" (props self) = Return sect ->
          (exists items, props self = PDict items /\ sect = folded items)
          /\ exists rest,
              trace (snd (run writable self w))
              = trace w
                ++ [FileOpen p; FileWrite p (write_section "SPECtate" sect);
                    FileClose p]
                ++ rest
              /\ forallb is_process_event rest = true)
      /\ (forall e,
             read_dict "SPECtate" (props self) = Raise e ->
             run writable self w
             = (Raise e,
                mkWorld (entropy w) (drawn w)
                        (trace w ++ [FileOpen p; FileClose p])))).
Proof.
  intros Hp _. split; [intros e He; exact (@run_not_opened writable self w i p e Hp He)|].
  intros Ho. split.
  - intros sect Hs. split.
    + unfold read_dict in Hs. destruct (props self); try discriminate.
      eexists. split; [reflexivity|]. now apply read_options_folded in Hs.
    + rewrite (@run_after_write writable self w i p sect Hp Ho Hs).
      match goal with
      | |- context [run_processes self ?w1] =>
          destruct (run_processes_emits self w1) as (rest & Hr & Hall)
      end.
      exists rest. rewrite Hr. cbn [trace]. split; [|exact Hall].
      unfold file_events. now rewrite <- !app_assoc.
  - intros e He. exact (@run_props_rejected writable self w i p e Hp Ho He).
Qed.

Lemma props_file_written_witness :
  (exists items, props run_Foo = PDict items /\ [("foo", "bar")] = folded items)
  /\ exists rest,
      trace (snd (run any_file run_Foo world0))
      = trace world0
        ++ [FileOpen "p.props";
            FileWrite "p.props" (write_section "SPECtate" [("foo", "bar")]);
            FileClose "p.props"]
        ++ rest
      /\ forallb is_process_event rest = true.
Proof.
  destruct (@props_file_written any_file run_Foo world0 false "p.props"
              eq_refl eq_refl) as [_ H].
  destruct (H eq_refl) as [H1 _].
  exact (H1 [("foo", "bar")] eq_refl).
Defined.

(** ** The composite branch *)

Lemma after_start_emits (self : SpecJBBRun) (c : TaskRunner) :
  emits is_pool_event
    (tasks <~ _generate_tasks self ;;
     Pool (length tasks) ~;;
     emit (PoolMap tasks) ~;;
     emit (ProcStop c)).
Proof.
  apply emits_bind; [apply generate_tasks_emits|intros tasks].
  apply emits_bind; [|intros _].
  { unfold Pool. destruct (length tasks); [apply emits_raise|now apply emits_emit]. }
  apply emits_bind; [now apply emits_emit|intros _].
  now apply emits_emit.
Qed.

(** C4. The controller type is compared with the constant composite by
    identity.  For a run with ASCII text whose properties file can be
    opened, whose props the parser accepts and whose controller type has
    the text composite: when the type is the very object of the constant,
    [_generate_tasks] yields nothing and [run] writes the properties file
    and runs the one controller process, with no pool; when it is another
    [str] object with that text, [_generate_tasks] goes on to its loops and
    [run] starts the controller instead of running it, and what follows are
    events of the pool and the stop of the controller. *)
Theorem composite_compared_by_identity
  (writable : string -> bool) (self : SpecJBBRun) (w : world) (i : bool) (p : string)
  (sect : section) (args : list pyval) (interned : bool) :
  props_file self = PStr i p ->
  open_error writable p = None ->
  ascii_run self = true ->
  read_dict "SPECtate" (props self) = Return sect ->
  controller_run_args self = Return (PList args) ->
  item (controller self) "type" = Return (PStr interned "composite") ->
  let c := mkTaskRunner args in
  (interned = true ->
   _generate_tasks self w = (Return [], w)
   /\ run writable self w
      = (Return tt,
         mkWorld (entropy w) (drawn w) (trace w ++ file_events p sect ++ [ProcRun c])))
  /\ (interned = false ->
      _generate_tasks self w
      = (lift (item (backends self) "count") ~;;
         lift (item (injectors self) "count") ~;;
         count <~ lift (n <- item (backends self) "count" ;; py_range n) ;;
         group_tasks self count) w
      /\ exists rest,
          trace (snd (run writable self w))
          = trace w ++ file_events p sect ++ ProcStart c :: rest
          /\ forallb is_pool_event rest = true).
Proof.
  intros Hp Ho _ Hs Hargs Ht c.
  assert (Hgen : forall b : bool,
             _generate_tasks self w
             = (if b then ret []
                else lift (item (backends self) "count") ~;;
                     lift (item (injectors self) "count") ~;;
                     count <~ lift (n <- item (backends self) "count" ;; py_range n) ;;
                     group_tasks self count) w
             \/ interned <> b).
  { intros b. destruct (Bool.bool_dec interned b) as [<-|Hne]; [left|now right].
    unfold _generate_tasks. unfold mbind at 1. unfold lift at 1. rewrite Ht.
    cbn [py_is_lit]. rewrite String.eqb_refl. now destruct interned. }
  rewrite (@run_after_write writable self w i p sect Hp Ho Hs).
  split; intros ->.
  - split; [destruct (Hgen true) as [H|H]; [exact H|congruence]|].
    unfold run_processes.
    unfold mbind at 1. unfold lift at 1. rewrite Hargs. cbn [bind py_iter].
    unfold mbind at 1. unfold lift at 1. rewrite Ht.
    cbn [py_is_lit]. rewrite String.eqb_refl. fold c.
    unfold emit. cbn [entropy drawn trace]. now rewrite <- app_assoc.
  - split; [destruct (Hgen false) as [H|H]; [exact H|congruence]|].
    unfold run_processes.
    unfold mbind at 1. unfold lift at 1. rewrite Hargs. cbn [bind py_iter].
    unfold mbind at 1. unfold lift at 1. rewrite Ht.
    cbn [py_is_lit]. fold c.
    unfold mbind at 1. unfold emit at 1. cbn [entropy drawn trace].
    match goal with
    | |- context [snd (?k ?w1)] =>
        destruct (@after_start_emits self c w1) as (rest & Hr & Hall)
    end.
    exists rest. rewrite Hr. cbn [trace].
    split; [|exact Hall]. rewrite <- !app_assoc. reflexivity.
Qed.

Lemma composite_compared_by_identity_witness :
  (_generate_tasks run_composite_read world0
   = (lift (item (backends run_composite_read) "count") ~;;
      lift (item (injectors run_composite_read) "count") ~;;
      count <~ lift (n <- item (backends run_composite_read) "count" ;; py_range n) ;;
      group_tasks run_composite_read count) world0
   /\ exists rest,
       trace (snd (run any_file run_composite_read world0))
       = trace world0 ++ file_events "p.props" []
         ++ ProcStart (mkTaskRunner composite_argv) :: rest
       /\ forallb is_pool_event rest = true)
  /\ run any_file run_composite_read world0
     = (Return tt, mkWorld Z.of_nat 3 composite_read_trace)
  /\ fst (_generate_tasks run_composite_read world0)
     = Return [tagged_task backend_argv 0%Z 1%Z; tagged_task injector_argv 0%Z 2%Z].
Proof.
  split; [|split; reflexivity].
  exact (proj2 (@composite_compared_by_identity any_file run_composite_read world0
                  false "p.props" [] composite_argv false
                  eq_refl eq_refl eq_refl eq_refl eq_refl eq_refl)
               eq_refl).
Defined.

(** * More properties of the code *)

(** ** Component options *)

Lemma dict_get_set_same (d : dict) (k : string) (v : pyval) :
  dict_get (dict_set d k v) k = Some v.
Proof.
  induction d as [|[k0 v0] d IH]; cbn.
  - now rewrite String.eqb_refl.
  - destruct (String.eqb_spec k0 k) as [->|Hk]; cbn.
    + now rewrite String.eqb_refl.
    + destruct (String.eqb_spec k0 k); [contradiction|exact IH].
Qed.

Lemma default_to_get (d : dict) (k k' : string) (v : pyval) :
  dict_get (default_to d k v) k'
  = match dict_get d k' with
    | Some x => Some x
    | None => if String.eqb k k' then Some v else None
    end.
Proof.
  unfold default_to, dict_in.
  destruct (String.eqb_spec k k') as [<-|Hne].
  - destruct (dict_get d k) eqn:E; [now rewrite E|].
    now rewrite dict_get_set_same.
  - destruct (dict_get d k) eqn:E; [now destruct (dict_get d k')|].
    rewrite dict_get_set_other by assumption. now destruct (dict_get d k').
Qed.

Lemma dict_in_default_to (d : dict) (k k' : string) (v : pyval) :
  dict_in (default_to d k v) k' = dict_in d k' || String.eqb k k'.
Proof.
  unfold dict_in at 1 2. rewrite default_to_get.
  destruct (dict_get d k'); [reflexivity|]. now destruct (String.eqb k k').
Qed.

Lemma default_to_present (d : dict) (k : string) (v : pyval) :
  dict_in d k = true -> default_to d k v = d.
Proof. unfold default_to. now intros ->. Qed.

(** X1. Whatever [SpecJBBComponentOptions] accepts, a type name or a
    mapping, the object it builds has the four attributes type, count,
    options and jvm_opts. *)
Theorem component_options_complete (init count r : pyval) :
  SpecJBBComponentOptions init count = Return r ->
  exists d t c o j,
    r = PDict d
    /\ dict_get d "type" = Some t /\ dict_get d "count" = Some c
    /\ dict_get d "options" = Some o /\ dict_get d "jvm_opts" = Some j.
Proof.
  unfold SpecJBBComponentOptions. intros H.
  destruct init as [| | |i s| |d|]; try discriminate.
  - destruct (negb (existsb _ _)); [discriminate|]. cbn [bind] in H.
    injection H as <-. now eexists _, _, _, _, _.
  - cbn [bind] in H. unfold dict_in in H.
    destruct (dict_get d "type") as [t|] eqn:Et; [|discriminate].
    cbn [negb] in H. injection H as <-.
    eexists _, t,
      (match dict_get d "count" with Some x => x | None => count end),
      (match dict_get d "options" with Some x => x | None => PList [] end),
      (match dict_get d "jvm_opts" with Some x => x | None => PList [] end).
    split; [reflexivity|].
    rewrite !default_to_get, Et. cbn [String.eqb Ascii.eqb Bool.eqb].
    repeat split.
    + destruct (dict_get d "count"); reflexivity.
    + destruct (dict_get d "options"); reflexivity.
    + destruct (dict_get d "jvm_opts"); reflexivity.
Qed.

Lemma component_options_complete_witness :
  exists d t c o j,
    PDict [("type", str "backend"); ("count", PInt 1);
           ("options", PList []); ("jvm_opts", PList [])] = PDict d
    /\ dict_get d "type" = Some t /\ dict_get d "count" = Some c
    /\ dict_get d "options" = Some o /\ dict_get d "jvm_opts" = Some j.
Proof.
  exact (@component_options_complete (str "backend") (PInt 1) _ eq_refl).
Defined.

(** X2. Built from a mapping, the object keeps every entry of the mapping
    as it is and gets, for count, options and jvm_opts only, the default
    where the mapping has no entry. *)
Theorem component_options_defaults (d0 : dict) (count r : pyval) :
  SpecJBBComponentOptions (PDict d0) count = Return r ->
  exists d,
    r = PDict d
    /\ forall k, dict_get d k
                 = match dict_get d0 k with
                   | Some v => Some v
                   | None => component_default count k
                   end.
Proof.
  unfold SpecJBBComponentOptions. cbn [bind]. intros H.
  destruct (negb (dict_in d0 "type")); [discriminate|]. injection H as <-.
  eexists. split; [reflexivity|]. intros k.
  rewrite !default_to_get. unfold component_default.
  rewrite (String.eqb_sym "count" k), (String.eqb_sym "options" k),
    (String.eqb_sym "jvm_opts" k).
  destruct (dict_get d0 k); [reflexivity|].
  destruct (String.eqb k "count"); [reflexivity|].
  destruct (String.eqb k "options"); [reflexivity|].
  destruct (String.eqb k "jvm_opts"); reflexivity.
Qed.

Lemma component_options_defaults_witness :
  exists d,
    PDict [("type", str "multi"); ("count", PInt 2); ("options", PList []);
           ("jvm_opts", PList [])] = PDict d
    /\ forall k, dict_get d k
                 = match dict_get [("type", str "multi")] k with
                   | Some v => Some v
                   | None => component_default (PInt 2) k
                   end.
Proof.
  exact (@component_options_defaults [("type", str "multi")] (PInt 2) _ eq_refl).
Defined.

(** X3. The object [SpecJBBComponentOptions] builds is a fixed point: given
    its attribute dictionary again, with any count, the constructor returns
    that same dictionary. *)
Theorem component_options_idempotent (init count count' r : pyval) :
  SpecJBBComponentOptions init count = Return r ->
  SpecJBBComponentOptions r count' = Return r.
Proof.
  unfold SpecJBBComponentOptions at 1. intros H.
  destruct init as [| | |i s| |d|]; try discriminate.
  - destruct (negb (existsb _ _)); [discriminate|]. cbn [bind] in H.
    injection H as <-. reflexivity.
  - cbn [bind] in H. destruct (dict_in d "type") eqn:Et; [|discriminate].
    cbn [negb] in H. injection H as <-.
    set (D := default_to _ "jvm_opts" _).
    assert (Hc : dict_in D "count" = true)
      by (unfold D; rewrite !dict_in_default_to; cbn; now rewrite ?orb_true_r).
    assert (Ho : dict_in D "options" = true)
      by (unfold D; rewrite !dict_in_default_to; cbn; now rewrite ?orb_true_r).
    assert (Hj : dict_in D "jvm_opts" = true)
      by (unfold D; rewrite !dict_in_default_to; cbn; now rewrite ?orb_true_r).
    assert (Ht : dict_in D "type" = true)
      by (unfold D; rewrite !dict_in_default_to, Et; reflexivity).
    unfold SpecJBBComponentOptions. cbn [bind]. rewrite Ht. cbn [negb].
    rewrite (@default_to_present D "count" count' Hc).
    rewrite (@default_to_present D "options" (PList []) Ho).
    rewrite (@default_to_present D "jvm_opts" (PList []) Hj).
    reflexivity.
Qed.

Lemma component_options_idempotent_witness :
  SpecJBBComponentOptions
    (PDict [("type", str "multi"); ("count", PInt 2); ("options", PList []);
            ("jvm_opts", PList [])]) (PInt 7)
  = Return (PDict [("type", str "multi"); ("count", PInt 2); ("options", PList []);
                   ("jvm_opts", PList [])]).
Proof.
  exact (@component_options_idempotent (PDict [("type", str "multi")]) (PInt 2) (PInt 7)
           _ eq_refl).
Defined.

(** X4. A bare type name is accepted exactly when it is one of the five
    component types, and then becomes the type of an object with the given
    count and no options; any other name is turned down with a message that
    quotes it.  The type inside a mapping is not looked at, so a mapping
    with any type at all is accepted. *)
Theorem component_type_checked_for_names_only :
  (forall (i : bool) (s : string) (count : pyval),
      (In s component_type_names ->
       SpecJBBComponentOptions (PStr i s) count
       = Return (PDict [("type", PStr i s); ("count", count);
                        ("options", PList []); ("jvm_opts", PList [])]))
      /\ (~ In s component_type_names ->
          SpecJBBComponentOptions (PStr i s) count
          = Raise (Exception ("Type '" ++ s
                              ++ "' is not a valid SpecJBB component type"))))
  /\ (forall (d : dict) (t count : pyval),
         dict_get d "type" = Some t ->
         exists r, SpecJBBComponentOptions (PDict d) count = Return r).
Proof.
  split.
  - intros i s count.
    assert (H : existsb (py_eq (PStr i s)) SpecJBBComponentTypes = true
                <-> In s component_type_names).
    { cbn [existsb py_eq SpecJBBComponentTypes component_type_names In].
      rewrite !orb_true_iff, !String.eqb_eq. intuition congruence. }
    unfold SpecJBBComponentOptions.
    destruct (existsb (py_eq (PStr i s)) SpecJBBComponentTypes); split; intros Hs.
    + reflexivity.
    + exfalso. apply Hs, H. reflexivity.
    + apply H in Hs. discriminate.
    + reflexivity.
  - intros d t count Ht. unfold SpecJBBComponentOptions. cbn [bind].
    unfold dict_in at 1. rewrite Ht. cbn [negb]. eexists. reflexivity.
Qed.

Lemma component_type_checked_for_names_only_witness :
  SpecJBBComponentOptions (str "txinjector") (PInt 3)
  = Return (PDict [("type", str "txinjector"); ("count", PInt 3);
                   ("options", PList []); ("jvm_opts", PList [])])
  /\ SpecJBBComponentOptions (str "controller") (PInt 1)
     = Raise (Exception "Type 'controller' is not a valid SpecJBB component type")
  /\ exists r, SpecJBBComponentOptions (PDict [("type", str "bogus")]) (PInt 1) = Return r.
Proof.
  destruct component_type_checked_for_names_only as [H1 H2].
  split; [|split].
  - apply (H1 false "txinjector" (PInt 3)). cbn. tauto.
  - apply (H1 false "controller" (PInt 1)). cbn. intuition discriminate.
  - exact (H2 [("type", str "bogus")] (str "bogus") (PInt 1) eq_refl).
Defined.

(** ** Java options *)

(** X5. Whatever [JvmRunOptions] accepts, the object it builds has the
    attributes path and options; built from a mapping, its options are a
    list, and every entry of the mapping is kept as it is. *)
Theorem jvm_options_complete (val r : pyval) :
  JvmRunOptions val = Return r ->
  exists d p o,
    r = PDict d /\ dict_get d "path" = Some p /\ dict_get d "options" = Some o
    /\ (forall d0, val = PDict d0 ->
        is_list o = true
        /\ forall k v, dict_get d0 k = Some v -> dict_get d k = Some v).
Proof.
  unfold JvmRunOptions. intros H.
  destruct val as [| | |i s|l|d0|].
  - injection H as <-. eexists _, _, _. repeat split; try reflexivity; discriminate.
  - discriminate.
  - discriminate.
  - injection H as <-. eexists _, _, _. repeat split; try reflexivity; discriminate.
  - destruct (getitem (PList l) (PInt 0)) as [p|]; [|discriminate]. cbn in H.
    injection H as <-. eexists _, _, _. repeat split; try reflexivity; discriminate.
  - destruct (dict_get d0 "path") as [p|] eqn:Hp; [|discriminate].
    destruct (negb (is_str p)); [discriminate|].
    destruct (dict_get d0 "options") as [o|] eqn:Ho.
    + destruct (is_list o) eqn:Hl; [|discriminate]. injection H as <-.
      exists d0, p, o. split; [reflexivity|]. split; [exact Hp|].
      split; [exact Ho|]. intros d1 [= <-]. split; [exact Hl|]. auto.
    + injection H as <-. exists (dict_set d0 "options" (PList [])), p, (PList []).
      split; [reflexivity|]. split.
      { rewrite dict_get_set_other; [exact Hp|discriminate]. }
      split; [apply dict_get_set_same|].
      intros d1 [= <-]. split; [reflexivity|]. intros k v Hk.
      rewrite dict_get_set_other; [exact Hk|]. intros <-. congruence.
  - discriminate.
Qed.

Lemma jvm_options_complete_witness :
  exists d p o,
    PDict [("path", str "java"); ("heap", PInt 4); ("options", PList [])] = PDict d
    /\ dict_get d "path" = Some p /\ dict_get d "options" = Some o
    /\ (forall d0, PDict [("path", str "java"); ("heap", PInt 4)] = PDict d0 ->
        is_list o = true
        /\ forall k v, dict_get d0 k = Some v -> dict_get d k = Some v).
Proof.
  exact (@jvm_options_complete (PDict [("path", str "java"); ("heap", PInt 4)]) _ eq_refl).
Defined.

(** X6. On a bare string and on a list, [__set_java__] stores exactly the
    record [JvmRunOptions] would build, and fails exactly where it would,
    with the [IndexError] of the empty list. *)
Theorem set_java_agrees_with_JvmRunOptions (self : SpecJBBRun) (val : pyval) :
  is_str val || is_list val = true ->
  (r <- __set_java__ self val ;; Return (java r)) = JvmRunOptions val.
Proof.
  intros H. destruct val as [| | |i s|l| |]; try discriminate.
  - reflexivity.
  - unfold __set_java__, JvmRunOptions. cbn [is_str is_list].
    destruct (getitem (PList l) (PInt 0)); reflexivity.
Qed.

Lemma set_java_agrees_with_JvmRunOptions_witness :
  (r <- __set_java__ blank_run (PList []) ;; Return (java r)) = JvmRunOptions (PList [])
  /\ JvmRunOptions (PList []) = Raise IndexError.
Proof.
  split; [|reflexivity].
  exact (@set_java_agrees_with_JvmRunOptions blank_run (PList []) eq_refl).
Defined.

(** ** Constructed runs *)

Lemma set_topology_result (self r : SpecJBBRun) (c b i : pyval) :
  __set_topology__ self c b i = Return r ->
  r = mkRun (jar self) (props self) (props_file self) (run_id self) (java self)
            c (normalized_role b "backend") (normalized_role i "txinjector")
  /\ (exists cd, c = PDict cd /\ dict_in cd "type" = true)
  /\ count_or_dict b = true /\ count_or_dict i = true.
Proof.
  unfold __set_topology__, normalized_role, count_or_dict. intros H.
  destruct (is_none c && is_none b && is_none i); [discriminate|].
  destruct c as [| | | | |cd|]; try discriminate.
  cbn [is_dict negb py_contains bind is_none] in H.
  destruct (dict_in cd "type") eqn:Ht; [|discriminate]. cbn [negb] in H.
  destruct (is_int b);
    [|destruct (is_dict b); [|destruct (is_none b); [|discriminate]]];
    cbn [bind] in H;
    (destruct (is_int i);
     [|destruct (is_dict i); [|destruct (is_none i); [|discriminate]]]);
    injection H as <-;
    (split; [reflexivity|split; [now exists cd|split; reflexivity]]).
Qed.

Lemma set_java_result (self r : SpecJBBRun) (v : pyval) :
  __set_java__ self v = Return r ->
  exists jd, r = with_java self (PDict jd)
             /\ (forall i p, v = PStr i p -> jd = [("path", v); ("options", PList [])]).
Proof.
  unfold __set_java__. intros H.
  destruct v as [| | |i s|l|d|]; try discriminate; cbn [is_str is_list is_dict] in H.
  - injection H as <-. eexists. split; [reflexivity|]. now intros.
  - destruct (getitem (PList l) (PInt 0)); [|discriminate]. cbn in H.
    injection H as <-. eexists. split; [reflexivity|]. discriminate.
  - injection H as <-. eexists. split; [reflexivity|]. discriminate.
Qed.

Lemma init_result (a : init_args) (w w' : world) (r : SpecJBBRun) :
  SpecJBBRun__init__ a w = (Return r, w') ->
  exists self,
    __set_java__ (mkRun (arg_jar a) (arg_props a) (arg_props_file a)
                        (entropy w (drawn w)) PNone PNone PNone PNone)
                 (arg_java a) = Return self
    /\ __set_topology__ self (arg_controller a) (arg_backends a) (arg_injectors a)
       = Return r
    /\ w' = mkWorld (entropy w) (S (drawn w)) (trace w).
Proof.
  unfold SpecJBBRun__init__. intros H.
  destruct (_ || _); [discriminate|].
  unfold mbind, uuid4, lift in H.
  destruct (__set_java__ _ (arg_java a)) as [self|] eqn:Hj; [|discriminate].
  destruct (__set_topology__ self _ _ _) as [r'|] eqn:Ht; [|discriminate].
  injection H as <- <-. now exists self.
Qed.

(** X7. Every run the constructor returns has mappings as java, controller,
    backends and injectors, a controller with a type, the jar, props and
    props_file it was given, and as run identifier the one identifier drawn;
    construction adds no event to the world. *)
Theorem constructed_run_invariant (a : init_args) (w w' : world) (r : SpecJBBRun) :
  SpecJBBRun__init__ a w = (Return r, w') ->
  is_dict (java r) = true
  /\ (exists cd, controller r = PDict cd /\ dict_in cd "type" = true)
  /\ is_dict (backends r) = true /\ is_dict (injectors r) = true
  /\ jar r = arg_jar a /\ props r = arg_props a /\ props_file r = arg_props_file a
  /\ run_id r = entropy w (drawn w)
  /\ w' = mkWorld (entropy w) (S (drawn w)) (trace w).
Proof.
  intros H. apply init_result in H as (self & Hj & Ht & ->).
  apply set_java_result in Hj as (jd & -> & _).
  apply set_topology_result in Ht as (-> & Hc & Hb & Hi).
  cbn. repeat split; try assumption.
  - unfold normalized_role.
    destruct (is_int (arg_backends a)); [reflexivity|].
    destruct (is_dict (arg_backends a)) eqn:E; [exact E|reflexivity].
  - unfold normalized_role.
    destruct (is_int (arg_injectors a)); [reflexivity|].
    destruct (is_dict (arg_injectors a)) eqn:E; [exact E|reflexivity].
Qed.

Lemma constructed_run_invariant_witness :
  is_dict (java run_empty_jar) = true
  /\ (exists cd, controller run_empty_jar = PDict cd /\ dict_in cd "type" = true)
  /\ is_dict (backends run_empty_jar) = true /\ is_dict (injectors run_empty_jar) = true
  /\ jar run_empty_jar = arg_jar args_empty_jar
  /\ props run_empty_jar = arg_props args_empty_jar
  /\ props_file run_empty_jar = arg_props_file args_empty_jar
  /\ run_id run_empty_jar = entropy world0 (drawn world0)
  /\ mkWorld Z.of_nat 1 [] = mkWorld (entropy world0) (S (drawn world0)) (trace world0).
Proof.
  exact (@constructed_run_invariant args_empty_jar world0 (mkWorld Z.of_nat 1 [])
           run_empty_jar eq_refl).
Defined.

(** X8. A run constructed with a bare string as java and with counts (or
    nothing) as backends and injectors always yields its backend and
    injector command lines: the java path, -jar, the jar, -m with BACKEND or
    TXINJECTOR, -p and the properties file. *)
Theorem counted_roles_command_lines
  (a : init_args) (w w' : world) (r : SpecJBBRun) (i : bool) (p : string) :
  SpecJBBRun__init__ a w = (Return r, w') ->
  arg_java a = PStr i p ->
  is_int (arg_backends a) || is_none (arg_backends a) = true ->
  is_int (arg_injectors a) || is_none (arg_injectors a) = true ->
  backend_run_args r
  = Return (PList [PStr i p; str "-jar"; arg_jar a; str "-m"; str "BACKEND";
                   str "-p"; arg_props_file a])
  /\ injector_run_args r
     = Return (PList [PStr i p; str "-jar"; arg_jar a; str "-m"; str "TXINJECTOR";
                      str "-p"; arg_props_file a]).
Proof.
  intros H Hjava Hb Hi. apply init_result in H as (self & Hj & Ht & ->).
  rewrite Hjava in Hj. cbn in Hj. injection Hj as <-.
  apply set_topology_result in Ht as (-> & _ & _ & _).
  unfold backend_run_args, injector_run_args, normalized_role. cbn [backends injectors].
  split.
  - destruct (is_int (arg_backends a)); [reflexivity|].
    destruct (arg_backends a); try discriminate. reflexivity.
  - destruct (is_int (arg_injectors a)); [reflexivity|].
    destruct (arg_injectors a); try discriminate. reflexivity.
Qed.

Lemma counted_roles_command_lines_witness :
  backend_run_args run_2_multi
  = Return (PList [str "java"; str "-jar"; str "x.jar"; str "-m"; str "BACKEND";
                   str "-p"; str "p.props"])
  /\ injector_run_args run_2_multi
     = Return (PList [str "java"; str "-jar"; str "x.jar"; str "-m"; str "TXINJECTOR";
                      str "-p"; str "p.props"]).
Proof.
  exact (@counted_roles_command_lines args_counts world0 (mkWorld Z.of_nat 1 [])
           run_2_multi false "java" eq_refl eq_refl eq_refl eq_refl).
Defined.

(** ** Command lines, conversely *)

Lemma item_returns (c : pyval) (k : string) (v : pyval) :
  item c k = Return v -> exists d, c = PDict d /\ dict_get d k = Some v.
Proof.
  unfold item, getitem. intros H.
  destruct c as [| | |i s|l|d|]; try discriminate.
  - exists d. split; [reflexivity|].
    destruct (dict_get d k); [now injection H as <-|discriminate].
Qed.

Lemma list_add_returns (a : list pyval) (b : pyval) (l : list pyval) :
  list_add a b = Return l -> exists m, b = PList m /\ l = a ++ m.
Proof.
  unfold list_add. destruct b; try discriminate. intros [= <-]. now eexists.
Qed.

(** X9. [_full_options] returns only when the run's java is a mapping with a
    path and a list of options and the role is a mapping with a [str] type
    and lists, given or defaulted, as jvm_opts and options; for an ASCII
    type, what it returns is then the list [path, -jar, jar], the java
    options, the jvm_opts, [-m] and the type in upper case, the options,
    [-p] and the properties file.  In every other case it raises. *)
Theorem full_options_returns_only_formula (self : SpecJBBRun) (od r : pyval) :
  _full_options self od = Return r ->
  exists (jd odd : dict) (path : pyval) (java_options jvm_opts options : list pyval)
         (i : bool) (type : string),
    java self = PDict jd /\ od = PDict odd
    /\ dict_get jd "path" = Some path
    /\ dict_get jd "options" = Some (PList java_options)
    /\ dict_get odd "type" = Some (PStr i type)
    /\ role_list odd "jvm_opts" = PList jvm_opts
    /\ role_list odd "options" = PList options
    /\ (isascii type = true ->
        r = PList ([path; str "-jar"; jar self] ++ java_options ++ jvm_opts
                   ++ [str "-m"; str (upper type)] ++ options
                   ++ [str "-p"; props_file self])).
Proof.
  unfold _full_options. intros H.
  destruct (item (java self) "path") as [path|] eqn:Hp; [|discriminate].
  apply item_returns in Hp as (jd & Hj & Hp). rewrite Hj in H. cbn [bind] in H.
  destruct (item (PDict jd) "options") as [jo|] eqn:Ho; [|discriminate].
  apply item_returns in Ho as (jd' & [= <-] & Ho). cbn [bind] in H.
  destruct (list_add _ jo) as [java1|] eqn:H1; [|discriminate].
  apply list_add_returns in H1 as (java_options & -> & ->). cbn [bind] in H.
  destruct od as [| | | | |odd|]; try discriminate.
  rewrite !dict_get_default_role in H. cbn [bind] in H.
  destruct (list_add _ (role_list odd "jvm_opts")) as [java2|] eqn:H2; [|discriminate].
  apply list_add_returns in H2 as (jvm_opts & Hv & ->). cbn [bind] in H.
  destruct (item (PDict odd) "type") as [t|] eqn:Ht; [|discriminate].
  apply item_returns in Ht as (odd' & [= <-] & Ht). cbn [bind] in H.
  destruct t as [| | |i type| | |]; try discriminate. cbn [py_upper bind] in H.
  destruct (list_add _ (role_list odd "options")) as [spec1|] eqn:H3; [|discriminate].
  apply list_add_returns in H3 as (options & Hopt & ->). cbn [bind] in H.
  injection H as <-.
  exists jd, odd, path, java_options, jvm_opts, options, i, type.
  repeat split; try assumption.
  intros _. f_equal. rewrite <- !app_assoc. reflexivity.
Qed.

Lemma full_options_returns_only_formula_witness :
  exists (jd odd : dict) (path : pyval) (java_options jvm_opts options : list pyval)
         (i : bool) (type : string),
    java example_run = PDict jd /\ backends example_run = PDict odd
    /\ dict_get jd "path" = Some path
    /\ dict_get jd "options" = Some (PList java_options)
    /\ dict_get odd "type" = Some (PStr i type)
    /\ role_list odd "jvm_opts" = PList jvm_opts
    /\ role_list odd "options" = PList options
    /\ isascii type = true
    /\ example_argv
       = PList ([path; str "-jar"; jar example_run] ++ java_options ++ jvm_opts
                ++ [str "-m"; str (upper type)] ++ options
                ++ [str "-p"; props_file example_run]).
Proof.
  destruct (@full_options_returns_only_formula example_run (backends example_run)
              example_argv eq_refl)
    as (jd & odd & path & jo & jv & o & i & type & Hj & Hod & Hp & Ho & Ht & Hv
        & Hopt & Hr).
  assert (Ha : isascii type = true).
  { injection Hod as <-. cbn in Ht. injection Ht as _ <-. reflexivity. }
  exists jd, odd, path, jo, jv, o, i, type.
  repeat split; try assumption. exact (Hr Ha).
Defined.

(** ** The course of a run *)






(** X12. The command line of the controller is built only after the
    properties file is written: in a run with ASCII text whose properties
    file can be opened, when [_full_options] fails for the controller, [run]
    raises that error with the file already written and closed, and no
    process launched. *)
Theorem run_fails_after_write
  (writable : string -> bool) (self : SpecJBBRun) (w : world) (i : bool) (p : string)
  (sect : section) (e : exn) :
  props_file self = PStr i p ->
  open_error writable p = None ->
  ascii_run self = true ->
  read_dict "SPECtate" (props self) = Return sect ->
  controller_run_args self = Raise e ->
  run writable self w
  = (Raise e, mkWorld (entropy w) (drawn w) (trace w ++ file_events p sect)).
Proof.
  intros Hp Ho _ Hs Hargs.
  rewrite (@run_after_write writable self w i p sect Hp Ho Hs). unfold run_processes.
  unfold mbind at 1. unfold lift at 1. rewrite Hargs. reflexivity.
Qed.

Lemma run_fails_after_write_witness :
  run any_file run_no_path world0
  = (Raise (KeyError "path"),
     mkWorld Z.of_nat 0 ([] ++ file_events "p.props" [])).
Proof.
  exact (@run_fails_after_write any_file run_no_path world0 false "p.props" []
           (KeyError "path") eq_refl eq_refl eq_refl eq_refl eq_refl).
Defined.

(** ** Dictionary schemas *)

Lemma dict_get_In (d : dict) (k : string) (v : pyval) :
  dict_get d k = Some v -> In (k, v) d.
Proof.
  induction d as [|[k0 v0] d IH]; cbn; [discriminate|].
  destruct (String.eqb_spec k0 k) as [->|_].
  - intros [= ->]. now left.
  - intros H. right. now apply IH.
Qed.

Lemma In_dict_in (d : dict) (k : string) (v : pyval) :
  In (k, v) d -> dict_in d k = true.
Proof.
  unfold dict_in. induction d as [|[k0 v0] d IH]; cbn; [tauto|].
  intros [[= -> ->]|H].
  - now rewrite String.eqb_refl.
  - destruct (String.eqb k0 k); [reflexivity|now apply IH].
Qed.

Lemma sorted_keys_In (es : entries) (e : schema_key * schema) :
  In e (sorted_keys es) <-> In e es.
Proof.
  unfold sorted_keys, with_priority. rewrite !in_app_iff, !filter_In.
  split; [tauto|]. intros H.
  destruct e as [[[n|f]|[n|f] dflt] s]; cbn; tauto.
Qed.

Lemma find_entry_nth (es : entries) (k : string) (j i : nat) (sk : schema_key)
  (s : schema) :
  find_entry es k j = Some (i, sk, s) ->
  j <= i /\ nth_error es (i - j) = Some (sk, s) /\ key_matches sk k = true.
Proof.
  revert j. induction es as [|[sk0 s0] es IH]; intros j; cbn; [discriminate|].
  destruct (key_matches sk0 k) eqn:Hm.
  - intros [= <- <- <-]. rewrite Nat.sub_diag. now repeat split.
  - intros H. apply IH in H as (Hle & Hn & Hk).
    split; [lia|]. split; [|exact Hk].
    replace (i - j) with (S (i - S j)) by lia. exact Hn.
Qed.

Lemma find_entry_In (es : entries) (k : string) (j i : nat) (sk : schema_key)
  (s : schema) :
  find_entry es k j = Some (i, sk, s) -> In (sk, s) es /\ key_matches sk k = true.
Proof.
  intros H. apply find_entry_nth in H as (_ & Hn & Hk).
  split; [now apply nth_error_In in Hn|exact Hk].
Qed.

(** Every validated item comes from an item of the data, through the first
    schema key that accepts its name; every position in the coverage is
    that of such a key. *)
Lemma validate_items_origin (es : entries) (items new : dict) (cov : list nat) :
  validate_items es items = Return (new, cov) ->
  (forall k v', In (k, v') new ->
     exists v i sk s,
       In (k, v) items /\ find_entry es k 0 = Some (i, sk, s) /\ s v = Return v')
  /\ (forall i, In i cov ->
        exists k v' sk s, In (k, v') new /\ find_entry es k 0 = Some (i, sk, s))
  /\ length new <= length items
  /\ (length new = length items ->
      forall k v, In (k, v) items -> exists v', In (k, v') new).
Proof.
  revert new cov. induction items as [|[k v] items IH]; intros new cov H; cbn in H.
  - injection H as <- <-. cbn. repeat split; try tauto; try lia.
  - destruct (find_entry es k 0) as [[[i sk] s]|] eqn:Hf.
    + destruct (s v) as [v'|] eqn:Hs; [|discriminate].
      destruct (validate_items es items) as [[new0 cov0]|]; [|discriminate].
      cbn in H. injection H as <- <-.
      destruct (IH new0 cov0 eq_refl) as (H1 & H2 & H3 & H4).
      split; [|split; [|split]].
      * intros k1 v1 [[= <- <-]|Hin].
        -- exists v, i, sk, s. repeat split; try assumption. now left.
        -- destruct (H1 _ _ Hin) as (v0 & i0 & sk0 & s0 & Ha & Hb & Hc).
           exists v0, i0, sk0, s0. repeat split; try assumption. now right.
      * intros i1 [<-|Hin].
        -- exists k, v', sk, s. split; [now left|exact Hf].
        -- destruct (H2 _ Hin) as (k0 & v0 & sk0 & s0 & Ha & Hb).
           exists k0, v0, sk0, s0. split; [now right|exact Hb].
      * cbn. lia.
      * cbn. intros Hlen k1 v1 [[= <- <-]|Hin].
        -- exists v'. now left.
        -- destruct (H4 ltac:(lia) _ _ Hin) as (v0 & Hv0). exists v0. now right.
    + destruct (IH new cov H) as (H1 & H2 & H3 & H4).
      split; [|split; [|split]].
      * intros k1 v1 Hin. destruct (H1 _ _ Hin) as (v0 & i0 & sk0 & s0 & Ha & Hb & Hc).
        exists v0, i0, sk0, s0. repeat split; try assumption. now right.
      * exact H2.
      * cbn. lia.
      * cbn. intros Hlen. lia.
Qed.

Lemma validate_items_raises (es : entries) (items : dict) (e : exn) :
  validate_items es items = Raise e -> e = SchemaError.
Proof.
  induction items as [|[k v] items IH]; cbn; [discriminate|].
  destruct (find_entry es k 0) as [[[i sk] s]|]; [|exact IH].
  destruct (s v); [|now intros [= <-]].
  destruct (validate_items es items); [discriminate|].
  cbn. intros [= <-]. now apply IH.
Qed.

Lemma unused_defaults_In (es : entries) (cov : list nat) (j : nat) (k : string)
  (v : pyval) :
  In (k, v) (unused_defaults es cov j) ->
  exists s, In (Optional (Name k) (Some v), s) es.
Proof.
  revert j. induction es as [|[sk s] es IH]; intros j; cbn; [tauto|].
  assert (Hrec : In (k, v) (unused_defaults es cov (S j)) ->
                 exists s0, (sk, s) = (Optional (Name k) (Some v), s0)
                            \/ In (Optional (Name k) (Some v), s0) es).
  { intros H. destruct (IH _ H) as (s0 & Hs0). exists s0. now right. }
  destruct sk as [kp|[n|f] [dv|]]; try exact Hrec.
  destruct (existsb (Nat.eqb j) cov); [exact Hrec|].
  intros [[= -> ->]|H]; [|now apply Hrec].
  exists s. now left.
Qed.

Lemma dict_schema_returns (es : entries) (data out : pyval) :
  dict_schema es data = Return out ->
  exists items new cov,
    data = PDict items
    /\ validate_items (sorted_keys es) items = Return (new, cov)
    /\ required_covered (sorted_keys es) cov 0 = true
    /\ length new = length items
    /\ out = PDict (new ++ unused_defaults (sorted_keys es) cov 0).
Proof.
  unfold dict_schema. intros H.
  destruct data as [| | | | |items|]; try discriminate.
  destruct (validate_items (sorted_keys es) items) as [[new cov]|] eqn:Hv;
    [|discriminate].
  cbn [bind] in H.
  destruct (required_covered (sorted_keys es) cov 0) eqn:Hr; [|discriminate].
  cbn [negb] in H.
  destruct (Nat.eqb_spec (length new) (length items)) as [Hl|]; [|discriminate].
  cbn [negb] in H. injection H as <-.
  now exists items, new, cov.
Qed.

(** A dictionary schema raises [SchemaUnexpectedTypeError] for data that
    are not a dictionary, and one of the three other errors for a
    dictionary. *)
Lemma dict_schema_raises_cases (es : entries) (data : pyval) (e : exn) :
  dict_schema es data = Raise e ->
  (is_dict data = false /\ e = SchemaUnexpectedTypeError)
  \/ (is_dict data = true
      /\ (e = SchemaError \/ e = SchemaMissingKeyError \/ e = SchemaWrongKeyError)).
Proof.
  unfold dict_schema. intros H.
  destruct data as [| | | | |items|]; try (injection H as <-; left; now split).
  right. split; [reflexivity|].
  destruct (validate_items (sorted_keys es) items) as [[new cov]|] eqn:Hv.
  - cbn [bind] in H.
    destruct (negb (required_covered _ _ _)); [injection H as <-; tauto|].
    destruct (negb (Nat.eqb _ _)); [injection H as <-; tauto|discriminate].
  - cbn [bind] in H. injection H as <-. left.
    now apply validate_items_raises in Hv.
Qed.

Lemma dict_schema_raises (es : entries) (data : pyval) (e : exn) :
  dict_schema es data = Raise e -> is_schema_error e.
Proof.
  intros H. unfold is_schema_error.
  apply dict_schema_raises_cases in H as [[_ ->]|[_ H]]; tauto.
Qed.

(** Where an entry of the validated dictionary comes from: a value the
    first matching schema returned, or a default. *)
Lemma dict_schema_origin (es : entries) (data : pyval) (od : dict) (k : string)
  (v' : pyval) :
  dict_schema es data = Return (PDict od) ->
  dict_get od k = Some v' ->
  (exists v i sk s,
      find_entry (sorted_keys es) k 0 = Some (i, sk, s) /\ s v = Return v')
  \/ (exists s, In (Optional (Name k) (Some v'), s) es).
Proof.
  intros H Hk. apply dict_schema_returns in H
    as (items & new & cov & -> & Hv & _ & _ & [= ->]).
  apply dict_get_In, in_app_or in Hk as [Hk|Hk].
  - left. apply validate_items_origin in Hv as (H1 & _).
    destruct (H1 _ _ Hk) as (v & i & sk & s & _ & Hf & Hs). now exists v, i, sk, s.
  - right. apply unused_defaults_In in Hk as (s & Hs). exists s.
    now apply sorted_keys_In.
Qed.

Lemma required_covered_nth (es : entries) (cov : list nat) (j m : nat)
  (sk : schema_key) (s : schema) :
  required_covered es cov j = true ->
  nth_error es m = Some (sk, s) -> is_required sk = true -> In (j + m) cov.
Proof.
  revert j m. induction es as [|[sk0 s0] es IH]; intros j m H Hn Hr.
  - destruct m; discriminate.
  - cbn in H. apply andb_true_iff in H as [H0 H].
    destruct m as [|m]; cbn in Hn.
    + injection Hn as -> ->. rewrite Hr in H0. cbn in H0.
      apply existsb_exists in H0 as (x & Hx & Hjx).
      apply Nat.eqb_eq in Hjx. subst x. now rewrite Nat.add_0_r.
    + replace (j + S m) with (S j + m) by lia. now apply (IH (S j) m).
Qed.

Lemma unused_defaults_nth (es : entries) (cov : list nat) (j m : nat) (n : string)
  (dv : pyval) (s : schema) :
  nth_error es m = Some (Optional (Name n) (Some dv), s) ->
  ~ In (j + m) cov ->
  In (n, dv) (unused_defaults es cov j).
Proof.
  revert j m. induction es as [|[sk0 s0] es IH]; intros j m Hn Hc.
  - destruct m; discriminate.
  - destruct m as [|m]; cbn in Hn.
    + injection Hn as -> ->. cbn.
      destruct (existsb (Nat.eqb j) cov) eqn:He; [|now left].
      exfalso. apply Hc. apply existsb_exists in He as (x & Hx & Hjx).
      apply Nat.eqb_eq in Hjx. subst x. now rewrite Nat.add_0_r.
    + assert (Hrec : In (n, dv) (unused_defaults es cov (S j))).
      { apply (IH (S j) m Hn). now replace (S j + m) with (j + S m) by lia. }
      cbn. destruct sk0 as [kp|[n0|f] [dv0|]]; try exact Hrec.
      destruct (existsb (Nat.eqb j) cov); [exact Hrec|now right].
Qed.

Lemma covered_name (es : entries) (items new : dict) (cov : list nat) (m : nat)
  (sk : schema_key) (s : schema) (n : string) :
  validate_items es items = Return (new, cov) ->
  nth_error es m = Some (sk, s) -> pattern_of sk = Name n -> In m cov ->
  dict_in new n = true.
Proof.
  intros Hv Hn Hp Hc. apply validate_items_origin in Hv as (_ & H2 & _).
  destruct (H2 _ Hc) as (k & v' & sk' & s' & Hin & Hf).
  apply find_entry_nth in Hf as (_ & Hn' & Hk). rewrite Nat.sub_0_r, Hn in Hn'.
  injection Hn' as <- <-. unfold key_matches in Hk. rewrite Hp in Hk.
  apply String.eqb_eq in Hk. subst k. now apply In_dict_in in Hin.
Qed.

Lemma dict_in_app (d1 d2 : dict) (k : string) :
  dict_in (d1 ++ d2) k = dict_in d1 k || dict_in d2 k.
Proof.
  unfold dict_in. induction d1 as [|[k0 v0] d1 IH]; cbn; [reflexivity|].
  destruct (String.eqb k0 k); [reflexivity|exact IH].
Qed.

(** A required constant key, and an optional one with a default, are keys of
    every validated dictionary. *)
Lemma dict_schema_has_key (es : entries) (data : pyval) (od : dict)
  (sk : schema_key) (s : schema) (n : string) :
  dict_schema es data = Return (PDict od) ->
  In (sk, s) es ->
  (sk = Required (Name n) \/ exists dv, sk = Optional (Name n) (Some dv)) ->
  dict_in od n = true.
Proof.
  intros H Hin Hsk. apply dict_schema_returns in H
    as (items & new & cov & -> & Hv & Hr & _ & [= ->]).
  apply sorted_keys_In, In_nth_error in Hin as (m & Hm).
  rewrite dict_in_app.
  destruct (in_dec Nat.eq_dec m cov) as [Hc|Hc].
  - rewrite (@covered_name _ _ _ _ _ _ _ n Hv Hm); [reflexivity| |exact Hc].
    destruct Hsk as [->|(dv & ->)]; reflexivity.
  - destruct Hsk as [->|(dv & ->)].
    + exfalso. apply Hc.
      now apply (@required_covered_nth _ _ 0 m _ _ Hr Hm).
    + rewrite (@In_dict_in (unused_defaults (sorted_keys es) cov 0) n dv);
        [apply orb_true_r|].
      now apply (@unused_defaults_nth _ _ 0 m n dv s Hm).
Qed.

(** ** The schemas of [validate.py] *)

Lemma TemplateSchema_unfold : TemplateSchema = dict_schema TemplateSchema_entries.
Proof. reflexivity. Qed.

Lemma RunConfigSchema_unfold : RunConfigSchema = dict_schema RunConfigSchema_entries.
Proof. reflexivity. Qed.

Lemma SpectateConfig_unfold : SpectateConfig = dict_schema SpectateConfig_entries.
Proof. reflexivity. Qed.

Lemma validate_unfold (u : pyval) :
  validate u = (d <- SpectateConfig u ;; cross_check d).
Proof. reflexivity. Qed.

Lemma callable_returns (f : pyval -> bool) (x y : pyval) :
  callable f x = Return y -> y = x /\ f x = true.
Proof. unfold callable. destruct (f x); [now intros [= <-]|discriminate]. Qed.

Lemma validate_all_returns (s : schema) (l l' : list pyval) :
  validate_all s l = Return l' -> Forall2 (fun x x' => s x = Return x') l l'.
Proof.
  revert l'. induction l as [|x l IH]; intros l'; cbn.
  - intros [= <-]. constructor.
  - destruct (s x) as [x'|] eqn:Hx; [|discriminate]. cbn.
    destruct (validate_all s l) as [l0|]; [|discriminate]. cbn.
    intros [= <-]. constructor; [exact Hx|now apply IH].
Qed.

Lemma list_of_returns (s : schema) (x y : pyval) :
  list_of s x = Return y ->
  exists l l', x = PList l /\ y = PList l'
               /\ Forall2 (fun a a' => s a = Return a') l l'.
Proof.
  unfold list_of. destruct x as [| | | |l| |]; try discriminate.
  destruct (validate_all s l) as [l'|] eqn:H; [|discriminate]. cbn.
  intros [= <-]. exists l, l'. repeat split. now apply validate_all_returns.
Qed.

Lemma dict_schema_returns_dict (es : entries) (x y : pyval) :
  dict_schema es x = Return y -> is_dict y = true.
Proof.
  intros H. apply dict_schema_returns in H as (? & ? & ? & _ & _ & _ & _ & ->).
  reflexivity.
Qed.

Lemma dict_schema_origin_In (es : entries) (data : pyval) (od : dict) (k : string)
  (v' : pyval) :
  dict_schema es data = Return (PDict od) ->
  In (k, v') od ->
  (exists v sk s, In (sk, s) es /\ key_matches sk k = true /\ s v = Return v')
  \/ (exists s, In (Optional (Name k) (Some v'), s) es).
Proof.
  intros H Hk. apply dict_schema_returns in H
    as (items & new & cov & -> & Hv & _ & _ & [= ->]).
  apply in_app_or in Hk as [Hk|Hk].
  - left. apply validate_items_origin in Hv as (H1 & _).
    destruct (H1 _ _ Hk) as (v & i & sk & s & _ & Hf & Hs).
    apply find_entry_In in Hf as [Hin Hm].
    apply (proj1 (sorted_keys_In _ _)) in Hin.
    exists v, sk, s. repeat split; assumption.
  - right. apply unused_defaults_In in Hk as (s & Hs). exists s.
    now apply sorted_keys_In.
Qed.

Lemma find_template_args :
  find_entry (sorted_keys TemplateSchema_entries) "args" 0
  = Some (0, Required (Name "args"), list_of (callable is_stringy)).
Proof. reflexivity. Qed.

Lemma find_template_run_type :
  find_entry (sorted_keys TemplateSchema_entries) "run_type" 0
  = Some (1, Optional (Name "run_type") (Some (lit "composite")),
          And (callable is_stringy) (callable run_type_known)).
Proof. reflexivity. Qed.

Lemma find_template_java :
  find_entry (sorted_keys TemplateSchema_entries) "java" 0
  = Some (2, Optional (Name "java") (Some (lit "java")), callable is_stringy).
Proof. reflexivity. Qed.

Lemma find_template_jar :
  find_entry (sorted_keys TemplateSchema_entries) "jar" 0
  = Some (3, Optional (Name "jar") (Some (str "specjbb2015.jar")), callable is_stringy).
Proof. reflexivity. Qed.

Lemma find_template_default_props :
  find_entry (sorted_keys TemplateSchema_entries) "default_props" 0
  = Some (4, Optional (Name "default_props") None,
          dict_schema [ (Required (Pred is_stringy), object) ]).
Proof. reflexivity. Qed.

Lemma find_template_annotations :
  find_entry (sorted_keys TemplateSchema_entries) "annotations" 0
  = Some (5, Optional (Name "annotations") None,
          dict_schema [ (Required (Pred is_stringy), callable is_stringy) ]).
Proof. reflexivity. Qed.

Lemma find_template_translations :
  find_entry (sorted_keys TemplateSchema_entries) "translations" 0
  = Some (6, Optional (Name "translations") None,
          dict_schema [ (Required (Pred is_stringy), callable is_stringy) ]).
Proof. reflexivity. Qed.

(** Case analysis on the membership of an entry in one of the three entry
    lists, dropping the entries with another key. *)
Ltac entry_cases H :=
  cbn [In TemplateSchema_entries RunConfigSchema_entries SpectateConfig_entries] in H;
  repeat (destruct H as [H|H]; [try discriminate H|]); try contradiction.

Lemma TemplateSchema_shape (t t' : pyval) :
  TemplateSchema t = Return t' -> template_shape t'.
Proof.
  rewrite TemplateSchema_unfold. intros H.
  pose proof (dict_schema_returns_dict _ _ H) as Hd.
  destruct t' as [| | | | |td|]; try discriminate. clear Hd.
  assert (Hkey : forall sk s n,
             In (sk, s) TemplateSchema_entries ->
             (sk = Required (Name n) \/ exists dv, sk = Optional (Name n) (Some dv)) ->
             exists v, dict_get td n = Some v).
  { intros sk s n Hin Hsk.
    pose proof (@dict_schema_has_key _ _ _ sk s n H Hin Hsk) as Hn.
    unfold dict_in in Hn. destruct (dict_get td n) as [v|]; [now exists v|discriminate]. }
  destruct (Hkey _ _ "args" (or_introl eq_refl) (or_introl eq_refl)) as (va & Ha).
  destruct (Hkey _ _ "run_type" (or_intror (or_introl eq_refl))
              (or_intror (ex_intro _ _ eq_refl))) as (vr & Hr).
  destruct (Hkey _ _ "java" (or_intror (or_intror (or_introl eq_refl)))
              (or_intror (ex_intro _ _ eq_refl))) as (vj & Hj).
  destruct (Hkey _ _ "jar" (or_intror (or_intror (or_intror (or_introl eq_refl))))
              (or_intror (ex_intro _ _ eq_refl))) as (vjar & Hjar).
  pose proof (fun k v' => @dict_schema_origin _ _ _ k v' H) as Ho.
  assert (Hmap : forall k i s,
             find_entry (sorted_keys TemplateSchema_entries) k 0
             = Some (i, Optional (Name k) None, dict_schema s) ->
             forall m, dict_get td k = Some m -> is_dict m = true).
  { intros k i s Hf m Hm.
    destruct (Ho _ _ Hm) as [(v & i0 & sk & s0 & Hf0 & Hs)|(s0 & Hin)].
    - rewrite Hf in Hf0. injection Hf0 as <- <- <-.
      now apply dict_schema_returns_dict in Hs.
    - entry_cases Hin; injection Hin as <- _ _;
        first [ rewrite find_template_run_type in Hf
              | rewrite find_template_java in Hf
              | rewrite find_template_jar in Hf ];
        discriminate Hf. }
  exists td. destruct (Ho _ _ Ha) as [(v & i & sk & s & Hf & Hs)|(s & Hin)];
    [|entry_cases Hin].
  rewrite find_template_args in Hf. injection Hf as <- <- <-.
  apply list_of_returns in Hs as (l & args & -> & -> & Hall).
  exists args. split; [reflexivity|]. split; [exact Ha|]. split.
  { clear - Hall. induction Hall as [|x x' l l' Hx _ IH]; constructor; [|exact IH].
    apply callable_returns in Hx as [-> Hx]. exact Hx. }
  split.
  { exists vr. split; [exact Hr|].
    destruct (Ho _ _ Hr) as [(v & i & sk & s & Hf & Hs)|(s & Hin)].
    - rewrite find_template_run_type in Hf. injection Hf as <- <- <-.
      unfold And in Hs. destruct (callable is_stringy v) as [v0|] eqn:E; [|discriminate].
      apply callable_returns in E as [-> _]. cbn [bind] in Hs.
      now apply callable_returns in Hs as [-> Hs].
    - entry_cases Hin. injection Hin as <-. reflexivity. }
  split.
  { exists vj. split; [exact Hj|].
    destruct (Ho _ _ Hj) as [(v & i & sk & s & Hf & Hs)|(s & Hin)].
    - rewrite find_template_java in Hf. injection Hf as <- <- <-.
      now apply callable_returns in Hs as [-> Hs].
    - entry_cases Hin. injection Hin as <-. reflexivity. }
  split.
  { exists vjar. split; [exact Hjar|].
    destruct (Ho _ _ Hjar) as [(v & i & sk & s & Hf & Hs)|(s & Hin)].
    - rewrite find_template_jar in Hf. injection Hf as <- <- <-.
      now apply callable_returns in Hs as [-> Hs].
    - entry_cases Hin. injection Hin as <-. reflexivity. }
  split; [exact (Hmap _ _ _ find_template_default_props)|].
  split; [exact (Hmap _ _ _ find_template_translations)|].
  exact (Hmap _ _ _ find_template_annotations).
Qed.

Lemma find_run_template_type :
  find_entry (sorted_keys RunConfigSchema_entries) "template_type" 0
  = Some (0, Required (Name "template_type"), callable is_stringy).
Proof. reflexivity. Qed.

Lemma find_run_args :
  find_entry (sorted_keys RunConfigSchema_entries) "args" 0
  = Some (1, Required (Name "args"),
          dict_schema [ (Optional (Pred is_stringy) None, object) ]).
Proof. reflexivity. Qed.

Lemma RunConfigSchema_shape (r r' : pyval) :
  RunConfigSchema r = Return r' -> run_shape r'.
Proof.
  rewrite RunConfigSchema_unfold. intros H.
  pose proof (dict_schema_returns_dict _ _ H) as Hd.
  destruct r' as [| | | | |rd|]; try discriminate. clear Hd.
  assert (Hkey : forall s n,
             In (Required (Name n), s) RunConfigSchema_entries ->
             exists v, dict_get rd n = Some v).
  { intros s n Hin.
    pose proof (@dict_schema_has_key _ _ _ _ s n H Hin (or_introl eq_refl)) as Hn.
    unfold dict_in in Hn. destruct (dict_get rd n) as [v|]; [now exists v|discriminate]. }
  destruct (Hkey _ "template_type" (or_introl eq_refl)) as (vt & Ht).
  destruct (Hkey _ "args" (or_intror (or_introl eq_refl))) as (va & Ha).
  pose proof (fun k v' => @dict_schema_origin _ _ _ k v' H) as Ho.
  destruct (Ho _ _ Ht) as [(v & i & sk & s & Hf & Hs)|(s & Hin)]; [|entry_cases Hin].
  rewrite find_run_template_type in Hf. injection Hf as <- <- <-.
  apply callable_returns in Hs as [-> Hs].
  destruct v as [| | |i name| | |]; try discriminate.
  destruct (Ho _ _ Ha) as [(v & i0 & sk & s & Hf & Hs')|(s & Hin)]; [|entry_cases Hin].
  rewrite find_run_args in Hf. injection Hf as <- <- <-.
  apply dict_schema_returns_dict in Hs'.
  destruct va as [| | | | |ra|]; try discriminate.
  now exists rd, i, name, ra.
Qed.

Lemma find_config_TemplateData :
  find_entry (sorted_keys SpectateConfig_entries) "TemplateData" 0
  = Some (0, Required (Name "TemplateData"),
          dict_schema [ (Required (Pred is_stringy), TemplateSchema) ]).
Proof. reflexivity. Qed.

Lemma find_config_RunList :
  find_entry (sorted_keys SpectateConfig_entries) "RunList" 0
  = Some (1, Required (Name "RunList"), list_of RunConfigSchema).
Proof. reflexivity. Qed.

Lemma SpectateConfig_shape (u d : pyval) :
  SpectateConfig u = Return d -> config_shape d.
Proof.
  rewrite SpectateConfig_unfold. intros H.
  pose proof (dict_schema_returns_dict _ _ H) as Hd.
  destruct d as [| | | | |dd|]; try discriminate. clear Hd.
  assert (Hkey : forall s n,
             In (Required (Name n), s) SpectateConfig_entries ->
             exists v, dict_get dd n = Some v).
  { intros s n Hin.
    pose proof (@dict_schema_has_key _ _ _ _ s n H Hin (or_introl eq_refl)) as Hn.
    unfold dict_in in Hn. destruct (dict_get dd n) as [v|]; [now exists v|discriminate]. }
  destruct (Hkey _ "TemplateData" (or_introl eq_refl)) as (vt & Ht).
  destruct (Hkey _ "RunList" (or_intror (or_introl eq_refl))) as (vr & Hr).
  pose proof (fun k v' => @dict_schema_origin _ _ _ k v' H) as Ho.
  destruct (Ho _ _ Ht) as [(v & i & sk & s & Hf & Hs)|(s & Hin)]; [|entry_cases Hin].
  rewrite find_config_TemplateData in Hf. injection Hf as <- <- <-.
  pose proof (dict_schema_returns_dict _ _ Hs) as Hd.
  destruct vt as [| | | | |tpls|]; try discriminate. clear Hd.
  destruct (Ho _ _ Hr) as [(v0 & i & sk & s & Hf & Hs')|(s & Hin)]; [|entry_cases Hin].
  rewrite find_config_RunList in Hf. injection Hf as <- <- <-.
  apply list_of_returns in Hs' as (l & runs & -> & -> & Hall).
  exists dd, tpls, runs. split; [reflexivity|]. split; [exact Ht|].
  split; [exact Hr|]. split.
  - clear - Hall. induction Hall as [|x x' l l' Hx _ IH]; constructor; [|exact IH].
    now apply RunConfigSchema_shape in Hx.
  - intros name t Hin.
    destruct (@dict_schema_origin_In _ _ _ _ _ Hs Hin) as [(t0 & sk & s & Hes & _ & Hst)|(s & Hes)].
    + cbn [In] in Hes. destruct Hes as [[= <- <-]|[]].
      now apply TemplateSchema_shape in Hst.
    + cbn [In] in Hes. destruct Hes as [Hes|[]]. discriminate Hes.
Qed.

(** ** The cross-reference loops of [validate] *)

Lemma for_each_Some {A R} (l : list A) (body : A -> result (option R)) (v : R) :
  for_each l body = Return (Some v) -> exists x, In x l /\ body x = Return (Some v).
Proof.
  induction l as [|x l IH]; cbn; [discriminate|].
  destruct (body x) as [[r|]|] eqn:Hx; cbn; try discriminate.
  - intros [= <-]. exists x. split; [now left|exact Hx].
  - intros H. destruct (IH H) as (y & Hy & Hb). exists y. split; [now right|exact Hb].
Qed.

Lemma for_each_None {A R} (l : list A) (body : A -> result (option R)) :
  for_each l body = Return None -> forall x, In x l -> body x = Return None.
Proof.
  induction l as [|x l IH]; cbn; [tauto|].
  destruct (body x) as [[r|]|] eqn:Hx; cbn; try discriminate.
  intros H y [<-|Hy]; [exact Hx|now apply IH].
Qed.

Lemma for_each_Raise {A R} (l : list A) (body : A -> result (option R)) (e : exn) :
  for_each l body = Raise e -> exists x, In x l /\ body x = Raise e.
Proof.
  induction l as [|x l IH]; cbn; [discriminate|].
  destruct (body x) as [[r|]|e0] eqn:Hx; cbn; try discriminate.
  - intros H. destruct (IH H) as (y & Hy & Hb). exists y. split; [now right|exact Hb].
  - intros [= <-]. exists x. split; [now left|exact Hx].
Qed.

Lemma dict_in_keys (d : dict) (k : string) :
  dict_in d k = true <-> In k (map fst d).
Proof.
  unfold dict_in. induction d as [|[k0 v0] d IH]; cbn; [intuition discriminate|].
  destruct (String.eqb_spec k0 k) as [->|Hne]; [tauto|].
  rewrite IH. intuition congruence.
Qed.

(** Whether the list of declared args holds the name [k]. *)
Lemma declared_names (args : list pyval) (k : string) (i : bool) :
  existsb (py_eq (PStr i k)) args = true <-> In k (names_of (Some (PList args))).
Proof.
  cbn [names_of]. induction args as [|x args IH]; cbn; [intuition discriminate|].
  rewrite orb_true_iff, in_app_iff, IH.
  destruct x as [| | |j s| | |]; cbn; try (intuition discriminate).
  rewrite String.eqb_eq. intuition congruence.
Qed.

(** The loop over the keys of a mapping [m] against the declared args of a
    template of the validated shape: it never raises, and it lets the keys
    pass exactly when all of them are declared. *)
Lemma keys_declared_shaped (td m : dict) (args : list pyval) :
  dict_get td "args" = Some (PList args) ->
  (keys_declared (PDict td) (PDict m) = Return None
   /\ forall k, In k (map fst m) -> In k (names_of (Some (PList args))))
  \/ (keys_declared (PDict td) (PDict m) = Return (Some PNone)
      /\ exists k, In k (map fst m) /\ ~ In k (names_of (Some (PList args)))).
Proof.
  intros Ha. unfold keys_declared. cbn [py_iter bind].
  rewrite (item_dict _ _ Ha). cbn [bind py_contains].
  induction m as [|[k v] m IH]; cbn [map for_each].
  - left. split; [reflexivity|]. cbn. tauto.
  - cbn [fst]. destruct (existsb (py_eq (str k)) args) eqn:Hk; cbn [negb bind].
    + destruct IH as [[IH1 IH2]|[IH1 (k0 & Hk0 & Hn)]].
      * left. split; [exact IH1|]. intros k0 [<-|Hk0]; [|now apply IH2].
        now apply (declared_names args k false).
      * right. split; [exact IH1|]. exists k0. split; [now right|exact Hn].
    + right. split; [reflexivity|]. exists k. split; [now left|].
      intros Hin. apply (declared_names args k false) in Hin. congruence.
Qed.

(** The loop over the declared args of a template of the validated shape,
    against the args of a run: an arg passes when the run supplies it or
    the defaults have it; an arg the run does not supply makes the loop
    read the defaults, which raises when the template has none. *)
Lemma defaults_cover_shaped (rd td ra : dict) (l : list pyval) :
  dict_get rd "args" = Some (PDict ra) ->
  Forall (fun a => is_str a = true) l ->
  (forall m, dict_get td "default_props" = Some m -> is_dict m = true) ->
  let loop :=
    for_each l (fun arg =>
      run_args <- item (PDict rd) "args" ;;
      in_run <- py_contains run_args arg ;;
      if negb in_run then
        default_props <- item (PDict td) "default_props" ;;
        in_defaults <- py_contains default_props arg ;;
        Return (if negb in_defaults then Some PNone else None)
      else Return None) in
  let supplied a := In a (map fst ra) in
  let defaulted a := In a (keys_of (dict_get td "default_props")) in
  (loop = Return None
   /\ forall a, In a (names_of (Some (PList l))) -> supplied a \/ defaulted a)
  \/ (loop = Return (Some PNone)
      /\ exists a, In a (names_of (Some (PList l))) /\ ~ supplied a /\ ~ defaulted a)
  \/ (loop = Raise (KeyError "default_props")
      /\ dict_get td "default_props" = None
      /\ exists a, In a (names_of (Some (PList l))) /\ ~ supplied a).
Proof.
  intros Ha Hl Hdp. cbn zeta. rewrite (item_dict _ _ Ha). cbn [bind py_contains].
  assert (Hnames : forall i s l0 a,
             In a (names_of (Some (PList (PStr i s :: l0))))
             <-> a = s \/ In a (names_of (Some (PList l0)))).
  { intros i s l0 a. cbn. intuition congruence. }
  destruct (dict_get td "default_props") as [dp|] eqn:Hd.
  - rewrite (item_dict _ _ Hd). cbn [bind].
    pose proof (Hdp dp eq_refl) as Hdict.
    destruct dp as [| | | | |dpd|]; try discriminate. clear Hdict Hdp.
    cbn [py_contains bind keys_of].
    induction Hl as [|x l Hx _ IH]; cbn [for_each].
    + left. split; [reflexivity|]. cbn. tauto.
    + destruct x as [| | |i s| | |]; try discriminate. clear Hx. cbn [bind].
      destruct (dict_in ra s) eqn:Hs; cbn [negb bind].
      * apply dict_in_keys in Hs.
        destruct IH as [[IH1 IH2]|[[IH1 (a & Ha1 & Ha2)]|[_ [IH2 _]]]];
          [| |discriminate IH2].
        -- left. split; [exact IH1|]. intros a Hin.
           apply Hnames in Hin as [->|Hin]; [now left|now apply IH2].
        -- right. left. split; [exact IH1|]. exists a. split; [|exact Ha2].
           apply Hnames. now right.
      * assert (Hns : ~ In s (map fst ra)).
        { intros Hin. apply dict_in_keys in Hin. congruence. }
        destruct (dict_in dpd s) eqn:Hds; cbn [negb].
        -- apply dict_in_keys in Hds.
           destruct IH as [[IH1 IH2]|[[IH1 (a & Ha1 & Ha2)]|[_ [IH2 _]]]];
             [| |discriminate IH2].
           ++ left. split; [exact IH1|]. intros a Hin.
              apply Hnames in Hin as [->|Hin]; [now right|now apply IH2].
           ++ right. left. split; [exact IH1|]. exists a. split; [|exact Ha2].
              apply Hnames. now right.
        -- right. left. split; [reflexivity|]. exists s. split; [|split].
           ++ apply Hnames. now left.
           ++ exact Hns.
           ++ intros Hin. apply dict_in_keys in Hin. congruence.
  - rewrite (item_dict_missing _ _ Hd). cbn [bind keys_of]. clear Hdp.
    induction Hl as [|x l Hx _ IH]; cbn [for_each].
    + left. split; [reflexivity|]. cbn. tauto.
    + destruct x as [| | |i s| | |]; try discriminate. clear Hx. cbn [bind].
      destruct (dict_in ra s) eqn:Hs; cbn [negb bind].
      * apply dict_in_keys in Hs.
        destruct IH as [[IH1 IH2]|[[IH1 (a & Ha1 & Ha2)]|[IH1 [IH2 (a & Ha1 & Ha2)]]]].
        -- left. split; [exact IH1|]. intros a Hin.
           apply Hnames in Hin as [->|Hin]; [now left|now apply IH2].
        -- right. left. split; [exact IH1|]. exists a. split; [|exact Ha2].
           apply Hnames. now right.
        -- right. right. split; [exact IH1|]. split; [reflexivity|]. exists a.
           split; [|exact Ha2]. apply Hnames. now right.
      * assert (Hns : ~ In s (map fst ra)).
        { intros Hin. apply dict_in_keys in Hin. congruence. }
        right. right. split; [reflexivity|]. split; [reflexivity|].
        exists s. split; [|exact Hns]. apply Hnames. now left.
Qed.

Lemma bind_Return_eq {A B} (c : result A) (k : A -> result B) (a : A) :
  c = Return a -> bind c k = k a.
Proof. now intros ->. Qed.

(** What the body of the loop over the runs does for a run and templates of
    the validated shape. *)
Lemma check_run_shaped (dd tpls : dict) (run : pyval) :
  dict_get dd "TemplateData" = Some (PDict tpls) ->
  (forall name t, In (name, t) tpls -> template_shape t) ->
  run_shape run ->
  (check_run (PDict dd) run = Return None /\ run_consistent (PDict tpls) run)
  \/ (check_run (PDict dd) run = Return (Some PNone)
      /\ ~ run_consistent (PDict tpls) run)
  \/ (exists i name,
         field run "template_type" = Some (PStr i name)
         /\ ~ run_consistent (PDict tpls) run
         /\ ((dict_get tpls name = None
              /\ check_run (PDict dd) run = Raise (KeyError name))
             \/ (exists t, dict_get tpls name = Some t
                           /\ field t "default_props" = None
                           /\ check_run (PDict dd) run
                              = Raise (KeyError "default_props")))).
Proof.
  intros Htd Hshape (rd & i & name & ra & -> & Htt & Hra).
  unfold check_run.
  rewrite (bind_Return_eq _ (item_dict _ _ Htd)).
  rewrite (bind_Return_eq _ (item_dict _ _ Htt)).
  cbn [getitem].
  assert (Hdet : forall P : pyval -> Prop,
             run_consistent (PDict tpls) (PDict rd) ->
             (forall t, dict_get tpls name = Some t ->
                (forall a, In a (map fst ra) -> In a (names_of (field t "args"))) ->
                (forall a, In a (names_of (field t "args")) ->
                   In a (map fst ra) \/ In a (keys_of (field t "default_props"))) ->
                False) ->
             False).
  { intros _ (i' & name' & t' & H1 & H2 & H3 & H4) Hk. cbn [field] in H1, H2, H3, H4.
    rewrite Htt in H1. injection H1 as <- <-. rewrite Hra in H3, H4.
    exact (Hk t' H2 H3 H4). }
  specialize (Hdet (fun _ => True)).
  destruct (dict_get tpls name) as [t|] eqn:Ht.
  - pose proof (Hshape _ _ (dict_get_In _ _ Ht)) as Hts.
    destruct Hts as (td & args & -> & Ha & Hstr & _ & _ & _ & Hdp & _ & _).
    cbn [bind]. rewrite (bind_Return_eq _ (item_dict _ _ Hra)).
    destruct (@keys_declared_shaped td ra args Ha) as [[-> H1]|[-> (k & Hk & Hnk)]]; cbn [bind].
    + rewrite (bind_Return_eq _ (item_dict _ _ Ha)). cbn [bind py_iter].
      destruct (@defaults_cover_shaped rd td ra args Hra Hstr Hdp)
        as [[-> H2]|[[-> (a & Ha1 & Ha2 & Ha3)]|[-> [Hnone (a & Ha1 & Ha2)]]]].
      * left. split; [reflexivity|]. exists i, name, (PDict td).
        cbn [field]. rewrite Htt, Ht, Hra, Ha. repeat split; assumption.
      * right. left. split; [reflexivity|]. intros Hc. apply (Hdet Hc).
        intros t [= <-] _ H4. cbn [field] in H4. rewrite Ha in H4.
        destruct (H4 a Ha1); contradiction.
      * right. right. exists i, name. cbn [field]. split; [exact Htt|]. split.
        -- intros Hc. apply (Hdet Hc). intros t [= <-] _ H4. cbn [field] in H4.
           rewrite Ha, Hnone in H4. destruct (H4 a Ha1) as [H|H]; [contradiction|].
           exact H.
        -- right. exists (PDict td). split; [exact Ht|]. split; [exact Hnone|reflexivity].
    + right. left. split; [reflexivity|]. intros Hc. apply (Hdet Hc).
      intros t [= <-] H3 _. cbn [field] in H3. rewrite Ha in H3.
      apply Hnk. now apply H3.
  - right. right. exists i, name. cbn [field]. split; [exact Htt|]. split.
    + intros Hc. apply (Hdet Hc). intros t Hsome. discriminate Hsome.
    + left. split; [exact Ht|reflexivity].
Qed.

(** The body of the loop over the templates never raises on a template of
    the validated shape, and lets it pass exactly when its translations and
    annotations only name declared args. *)
Lemma check_template_shaped (t : pyval) :
  template_shape t ->
  (check_template t = Return None /\ template_consistent t)
  \/ (check_template t = Return (Some PNone) /\ ~ template_consistent t).
Proof.
  intros (td & args & -> & Ha & _ & _ & _ & _ & _ & Htr & Han).
  assert (Hmap : forall name,
             (forall m, dict_get td name = Some m -> is_dict m = true) ->
             (check_optional_map (PDict td) name = Return None
              /\ forall k, In k (keys_of (dict_get td name)) ->
                           In k (names_of (Some (PList args))))
             \/ (check_optional_map (PDict td) name = Return (Some PNone)
                 /\ exists k, In k (keys_of (dict_get td name))
                              /\ ~ In k (names_of (Some (PList args))))).
  { intros name Hm. unfold check_optional_map. cbn [py_contains bind]. unfold dict_in.
    destruct (dict_get td name) as [m|] eqn:E.
    - rewrite (item_dict _ _ E). cbn [bind].
      pose proof (Hm m eq_refl) as Hd. destruct m as [| | | | |md|]; try discriminate.
      exact (@keys_declared_shaped td md args Ha).
    - left. split; [reflexivity|]. cbn. tauto. }
  unfold check_template, template_consistent. cbn [field]. rewrite Ha.
  destruct (Hmap "translations" Htr) as [[-> H1]|[-> (k & Hk & Hn)]]; cbn [bind].
  - destruct (Hmap "annotations" Han) as [[-> H2]|[-> (k & Hk & Hn)]].
    + left. now repeat split.
    + right. split; [reflexivity|]. intros [_ H]. apply Hn. now apply H.
  - right. split; [reflexivity|]. intros [H _]. apply Hn. now apply H.
Qed.

Lemma runs_loop_shaped (dd tpls : dict) (runs : list pyval) :
  dict_get dd "TemplateData" = Some (PDict tpls) ->
  (forall name t, In (name, t) tpls -> template_shape t) ->
  Forall run_shape runs ->
  (for_each runs (check_run (PDict dd)) = Return None
   /\ Forall (run_consistent (PDict tpls)) runs)
  \/ (for_each runs (check_run (PDict dd)) = Return (Some PNone)
      /\ ~ Forall (run_consistent (PDict tpls)) runs)
  \/ (~ Forall (run_consistent (PDict tpls)) runs
      /\ exists run i name,
          In run runs
          /\ field run "template_type" = Some (PStr i name)
          /\ ((dict_get tpls name = None
               /\ for_each runs (check_run (PDict dd)) = Raise (KeyError name))
              \/ (exists t, dict_get tpls name = Some t
                            /\ field t "default_props" = None
                            /\ for_each runs (check_run (PDict dd))
                               = Raise (KeyError "default_props")))).
Proof.
  intros Htd Hshape Hruns.
  induction Hruns as [|run runs Hrun _ IH]; cbn [for_each].
  - left. split; [reflexivity|constructor].
  - destruct (@check_run_shaped dd tpls run Htd Hshape Hrun)
      as [[-> Hc]|[[-> Hn]|(i & name & Htt & Hn & Hcase)]]; cbn [bind].
    + destruct IH as [[IH1 IH2]|[[IH1 IH2]|(IH2 & r & i & name & Hin & Htt & Hcase)]].
      * left. split; [exact IH1|now constructor].
      * right. left. split; [exact IH1|]. intros H. apply IH2.
        now apply Forall_inv_tail in H.
      * right. right. split.
        { intros H. apply IH2. now apply Forall_inv_tail in H. }
        exists r, i, name. split; [now right|]. split; [exact Htt|exact Hcase].
    + right. left. split; [reflexivity|]. intros H. apply Hn.
      now apply Forall_inv in H.
    + right. right. split.
      { intros H. apply Hn. now apply Forall_inv in H. }
      exists run, i, name. split; [now left|]. split; [exact Htt|].
      destruct Hcase as [[H1 ->]|(t & H1 & H2 & ->)]; [left|right].
      * now split.
      * exists t. now repeat split.
Qed.

Lemma templates_loop_shaped (tpls : dict) :
  (forall name t, In (name, t) tpls -> template_shape t) ->
  (for_each (map snd tpls) check_template = Return None
   /\ forall name t, In (name, t) tpls -> template_consistent t)
  \/ (for_each (map snd tpls) check_template = Return (Some PNone)
      /\ ~ forall name t, In (name, t) tpls -> template_consistent t).
Proof.
  induction tpls as [|[name t] tpls IH]; intros Hshape; cbn [map snd for_each].
  - left. split; [reflexivity|]. intros ? ? [].
  - destruct (@check_template_shaped t (Hshape name t (or_introl eq_refl)))
      as [[-> Hc]|[-> Hn]]; cbn [bind].
    + destruct IH as [[IH1 IH2]|[IH1 IH2]].
      { intros n0 t0 Hin. apply (Hshape n0 t0). now right. }
      * left. split; [exact IH1|]. intros n0 t0 [[= <- <-]|Hin]; [exact Hc|].
        now apply (IH2 n0 t0).
      * right. split; [exact IH1|]. intros H. apply IH2. intros n0 t0 Hin.
        apply (H n0 t0). now right.
    + right. split; [reflexivity|]. intros H. apply Hn. apply (H name t). now left.
Qed.

(** What [validate] does after the schema, for a document of the validated
    shape: it returns the document when the four rules hold; when they do
    not, it returns [None], or raises a [KeyError] for a run whose template
    does not exist or has no defaults. *)
Lemma cross_check_shaped (d : pyval) :
  config_shape d ->
  (cross_check d = Return d /\ consistent d)
  \/ (cross_check d = Return PNone /\ ~ consistent d)
  \/ (~ consistent d
      /\ exists tpls runs run i name,
          field d "TemplateData" = Some (PDict tpls)
          /\ field d "RunList" = Some (PList runs)
          /\ In run runs
          /\ field run "template_type" = Some (PStr i name)
          /\ ((dict_get tpls name = None /\ cross_check d = Raise (KeyError name))
              \/ (exists t, dict_get tpls name = Some t
                            /\ field t "default_props" = None
                            /\ cross_check d = Raise (KeyError "default_props")))).
Proof.
  intros (dd & tpls & runs & -> & Htd & Hrl & Hruns & Hshape).
  assert (Hcons : consistent (PDict dd)
                  <-> Forall (run_consistent (PDict tpls)) runs
                      /\ forall name t, In (name, t) tpls -> template_consistent t).
  { unfold consistent. cbn [field]. rewrite Htd, Hrl. split.
    - intros (tpls' & runs' & [= <-] & [= <-] & H1 & H2). now split.
    - intros [H1 H2]. now exists tpls, runs. }
  unfold cross_check.
  rewrite (bind_Return_eq _ (item_dict _ _ Hrl)). cbn [py_iter bind].
  destruct (@runs_loop_shaped dd tpls runs Htd Hshape Hruns)
    as [[-> Hc]|[[-> Hn]|(Hn & run & i & name & Hin & Htt & Hcase)]]; cbn [bind].
  - rewrite (bind_Return_eq _ (item_dict _ _ Htd)). cbn [values bind].
    destruct (@templates_loop_shaped tpls Hshape) as [[-> Ht]|[-> Ht]]; cbn [bind].
    + left. split; [reflexivity|]. apply Hcons. now split.
    + right. left. split; [reflexivity|]. intros H. apply Hcons in H. tauto.
  - right. left. split; [reflexivity|]. intros H. apply Hcons in H. tauto.
  - right. right. split.
    { intros H. apply Hcons in H. tauto. }
    exists tpls, runs, run, i, name. cbn [field].
    split; [exact Htd|]. split; [exact Hrl|]. split; [exact Hin|]. split; [exact Htt|].
    destruct Hcase as [[H1 ->]|(t & H1 & H2 & ->)]; [left|right].
    + now split.
    + exists t. now repeat split.
Qed.

(** ** What [validate] returns and raises *)

Lemma validate_cases (u : pyval) :
  (exists e, SpectateConfig u = Raise e /\ validate u = Raise e /\ is_schema_error e)
  \/ (exists d, SpectateConfig u = Return d /\ config_shape d
                /\ validate u = cross_check d).
Proof.
  rewrite validate_unfold. destruct (SpectateConfig u) as [d|e] eqn:H.
  - right. exists d. split; [reflexivity|]. split; [|reflexivity].
    now apply SpectateConfig_shape in H.
  - left. exists e. split; [reflexivity|]. split; [reflexivity|].
    rewrite SpectateConfig_unfold in H. now apply dict_schema_raises in H.
Qed.

(** X13. A document that [validate] returns is the document the schema
    produced, and it satisfies the four cross-referential rules: every run
    names an existing template, supplies only declared args, leaves out only
    args that have a default, and every translation and annotation key of
    every template is a declared arg. *)
Theorem validate_returns_consistent (u d : pyval) :
  validate u = Return d -> d <> PNone ->
  SpectateConfig u = Return d /\ consistent d.
Proof.
  intros H Hd.
  destruct (validate_cases u) as [(e & _ & He & _)|(d0 & Hs & Hshape & Hv)];
    [congruence|].
  rewrite Hv in H.
  destruct (cross_check_shaped Hshape)
    as [[Hc Hcons]|[[Hc _]|(_ & tpls & runs & run & i & name & _ & _ & _ & _ & Hcase)]].
  - rewrite Hc in H. injection H as <-. now split.
  - rewrite Hc in H. injection H as <-. contradiction.
  - destruct Hcase as [[_ Hc]|(t & _ & _ & Hc)]; rewrite Hc in H; discriminate.
Qed.

Lemma validate_returns_consistent_witness :
  SpectateConfig good_document = Return good_document_validated
  /\ consistent good_document_validated.
Proof.
  apply (@validate_returns_consistent good_document good_document_validated);
    [reflexivity|discriminate].
Defined.

(** X15. [validate] returns [None] only for a document that passes the
    schema and breaks one of the four cross-referential rules. *)
Theorem validate_none_inconsistent (u : pyval) :
  validate u = Return PNone ->
  exists d, SpectateConfig u = Return d /\ config_shape d /\ ~ consistent d.
Proof.
  intros H.
  destruct (validate_cases u) as [(e & _ & He & _)|(d0 & Hs & Hshape & Hv)];
    [congruence|].
  rewrite Hv in H. exists d0. split; [exact Hs|]. split; [exact Hshape|].
  destruct (cross_check_shaped Hshape)
    as [[Hc _]|[[_ Hn]|(Hn & _)]]; try assumption.
  rewrite Hc in H. injection H as ->.
  destruct Hshape as (dd & _ & _ & Hdd & _). discriminate Hdd.
Qed.

Lemma validate_none_inconsistent_witness :
  exists d, SpectateConfig document_undeclared_arg = Return d
            /\ config_shape d /\ ~ consistent d.
Proof.
  exact (@validate_none_inconsistent document_undeclared_arg eq_refl).
Defined.

(** X16. [validate] raises in three situations only.  The document is not
    a mapping: [SchemaUnexpectedTypeError].  Or it is a mapping that the
    schema rejects: [SchemaError], [SchemaMissingKeyError] or
    [SchemaWrongKeyError].  Or it passes the schema, breaks the
    cross-referential rules, and has a run whose template is looked up in
    vain: the [KeyError] of the template name when no template has that
    name, the [KeyError] of default_props when the template has no defaults
    for an arg the run leaves out. *)
Theorem validate_raises (u : pyval) (e : exn) :
  validate u = Raise e ->
  (is_dict u = false /\ e = SchemaUnexpectedTypeError)
  \/ (is_dict u = true /\ SpectateConfig u = Raise e
      /\ (e = SchemaError \/ e = SchemaMissingKeyError \/ e = SchemaWrongKeyError))
  \/ (exists d tpls runs run i name,
         SpectateConfig u = Return d
         /\ ~ consistent d
         /\ field d "TemplateData" = Some (PDict tpls)
         /\ field d "RunList" = Some (PList runs)
         /\ In run runs
         /\ field run "template_type" = Some (PStr i name)
         /\ ((dict_get tpls name = None /\ e = KeyError name)
             \/ (exists t, dict_get tpls name = Some t
                           /\ field t "default_props" = None
                           /\ e = KeyError "default_props"))).
Proof.
  intros H.
  destruct (validate_cases u) as [(e0 & Hs & He & Herr)|(d0 & Hs & Hshape & Hv)].
  - rewrite He in H. injection H as <-. pose proof Hs as Hs'.
    rewrite SpectateConfig_unfold in Hs'.
    apply dict_schema_raises_cases in Hs' as [[Hu ->]|[Hu Hcl]].
    + left. now split.
    + right. left. now repeat split.
  - right. right. rewrite Hv in H.
    destruct (cross_check_shaped Hshape)
      as [[Hc _]|[[Hc _]|(Hn & tpls & runs & run & i & name & H1 & H2 & H3 & H4 & Hcase)]];
      try (rewrite Hc in H; discriminate).
    exists d0, tpls, runs, run, i, name. repeat split; try assumption.
    destruct Hcase as [[Hnone Hc]|(t & Hsome & Hdp & Hc)]; rewrite Hc in H;
      injection H as <-.
    + left. now split.
    + right. exists t. now repeat split.
Qed.

Lemma validate_raises_witness :
  (is_dict document_unknown_template = false
   /\ KeyError "u" = SchemaUnexpectedTypeError)
  \/ (is_dict document_unknown_template = true
      /\ SpectateConfig document_unknown_template = Raise (KeyError "u")
      /\ (KeyError "u" = SchemaError \/ KeyError "u" = SchemaMissingKeyError
          \/ KeyError "u" = SchemaWrongKeyError))
  \/ (exists d tpls runs run i name,
         SpectateConfig document_unknown_template = Return d
         /\ ~ consistent d
         /\ field d "TemplateData" = Some (PDict tpls)
         /\ field d "RunList" = Some (PList runs)
         /\ In run runs
         /\ field run "template_type" = Some (PStr i name)
         /\ ((dict_get tpls name = None /\ KeyError "u" = KeyError name)
             \/ (exists t, dict_get tpls name = Some t
                           /\ field t "default_props" = None
                           /\ KeyError "u" = KeyError "default_props"))).
Proof.
  exact (@validate_raises document_unknown_template (KeyError "u") eq_refl).
Defined.

(** ** What the constructors accept *)

(** X17. The constructor returns a run exactly for arguments with a string
    as jar, a string, a non-empty list or a mapping as java, a mapping with
    a type as controller, and a count, a mapping or nothing as backends and
    as injectors; for all other arguments it raises
    [InvalidRunConfigurationException], or [IndexError] for an empty list as
    java. *)
Theorem init_accepts_iff (a : init_args) (w : world) :
  (acceptable a = true ->
   exists r, SpecJBBRun__init__ a w
             = (Return r, mkWorld (entropy w) (S (drawn w)) (trace w)))
  /\ (acceptable a = false ->
      exists e w',
        SpecJBBRun__init__ a w = (Raise e, w')
        /\ ((exists msg, e = InvalidRunConfigurationException msg)
            \/ (e = IndexError /\ arg_java a = PList []))).
Proof.
  unfold acceptable, SpecJBBRun__init__.
  destruct (arg_jar a) as [| | |ij sj| | |] eqn:Ejar;
    try (split; [discriminate|]; intros _; cbn; rewrite ?orb_true_r;
         do 2 eexists; split; [reflexivity|left; eexists; reflexivity]).
  cbn [is_str andb negb orb existsb py_eq].
  destruct (arg_java a) as [| | |i s|l|jd|] eqn:Ejava;
    try (split; [discriminate|]; intros _; cbn;
         do 2 eexists; split; [reflexivity|left; eexists; reflexivity]).
  all: cbn [py_eq orb java_acceptable andb].
  all: unfold mbind, uuid4, lift.
  all: try (destruct l as [|x l];
            [split; [discriminate|]; intros _; cbn;
             do 2 eexists; split; [reflexivity|right; now split]|]).
  all: cbn [__set_java__ is_str is_list is_dict getitem int_value list_index
              slice_from_1 bind Z.ltb Z.compare length Z.of_nat nth_error Z.to_nat
              tl andb].
  all: unfold __set_topology__, has_type, count_or_dict.
  all: destruct (arg_controller a) as [| | | | |cd|] eqn:Ec;
    try (split; [discriminate|]; intros _; cbn [is_none is_dict andb negb];
         destruct (is_none (arg_backends a) && is_none (arg_injectors a));
         do 2 eexists; (split; [reflexivity|left; eexists; reflexivity])).
  all: cbn [is_none is_dict andb negb py_contains bind].
  all: destruct (dict_in cd "type");
    [|split; [discriminate|]; intros _;
      do 2 eexists; split; [reflexivity|left; eexists; reflexivity]].
  all: cbn [negb andb].
  all: destruct (is_int (arg_backends a));
    [|destruct (is_dict (arg_backends a));
      [|destruct (is_none (arg_backends a))]];
    cbn [bind orb andb];
    try (split; [discriminate|]; intros _;
         do 2 eexists; split; [reflexivity|left; eexists; reflexivity]).
  all: destruct (is_int (arg_injectors a));
    [|destruct (is_dict (arg_injectors a));
      [|destruct (is_none (arg_injectors a))]];
    cbn [orb];
    try (split; [discriminate|]; intros _;
         do 2 eexists; split; [reflexivity|left; eexists; reflexivity]).
  all: split; [intros _; eexists; reflexivity|discriminate].
Qed.

Lemma init_accepts_iff_witness :
  (exists r, SpecJBBRun__init__ args_counts world0
             = (Return r, mkWorld (entropy world0) (S (drawn world0)) (trace world0)))
  /\ (exists e w',
         SpecJBBRun__init__ args_java_number world0 = (Raise e, w')
         /\ ((exists msg, e = InvalidRunConfigurationException msg)
             \/ (e = IndexError /\ arg_java args_java_number = PList []))).
Proof.
  split.
  - exact (proj1 (init_accepts_iff args_counts world0) eq_refl).
  - exact (proj2 (init_accepts_iff args_java_number world0) eq_refl).
Defined.

(** X18. [JvmRunOptions] accepts a mapping exactly when its path is a string
    and its options, if it has any, are a list.  A mapping whose options are
    not a list is turned down with the message about the path. *)
Theorem jvm_options_mapping_accepted_iff (d : dict) :
  ((exists r, JvmRunOptions (PDict d) = Return r)
   <-> (exists i s, dict_get d "path" = Some (PStr i s))
       /\ (forall o, dict_get d "options" = Some o -> is_list o = true))
  /\ (forall i s o,
         dict_get d "path" = Some (PStr i s) ->
         dict_get d "options" = Some o -> is_list o = false ->
         JvmRunOptions (PDict d) = Raise (Exception "'path' must be a string")).
Proof.
  unfold JvmRunOptions. split; [split|].
  - intros (r & H).
    destruct (dict_get d "path") as [p|]; [|discriminate].
    destruct p as [| | |i s| | |]; try discriminate. cbn [is_str negb] in H.
    split; [now exists i, s|]. intros o Ho. rewrite Ho in H.
    destruct (is_list o); [reflexivity|discriminate].
  - intros [(i & s & Hp) Ho]. rewrite Hp. cbn [is_str negb].
    destruct (dict_get d "options") as [o|]; [|eexists; reflexivity].
    rewrite (Ho o eq_refl). eexists. reflexivity.
  - intros i s o Hp Ho Hl. rewrite Hp, Ho, Hl. reflexivity.
Qed.

Lemma jvm_options_mapping_accepted_iff_witness :
  JvmRunOptions (PDict [("path", str "java"); ("options", str "-Xmx1g")])
  = Raise (Exception "'path' must be a string").
Proof.
  exact (proj2 (jvm_options_mapping_accepted_iff
                  [("path", str "java"); ("options", str "-Xmx1g")])
               false "java" (str "-Xmx1g") eq_refl eq_refl eq_refl).
Defined.

(** ** Which properties can be written *)

Lemma existsb_eqb_In (k : string) (l : list string) :
  existsb (String.eqb k) l = true <-> In k l.
Proof.
  rewrite existsb_exists. split.
  - intros (x & Hx & He). apply String.eqb_eq in He. now subst.
  - intros H. exists k. split; [exact H|apply String.eqb_refl].
Qed.

Lemma map_fst_app_one (acc : section) (k v : string) :
  map fst (acc ++ [(k, v)]) = map fst acc ++ [k].
Proof. now rewrite map_app. Qed.

Lemma read_options_accepts (items : dict) (acc : section) :
  NoDup (map fst acc ++ folded_names items) ->
  forallb value_accepted (map snd items) = true ->
  exists sect, read_options items acc = Return sect.
Proof.
  revert acc. induction items as [|[k v] items IH]; intros acc Hnd Hv.
  - eexists. reflexivity.
  - cbn [read_options]. cbn [folded_names map fst] in Hnd.
    cbn [map snd forallb] in Hv. apply andb_true_iff in Hv as [Hv Hrest].
    destruct (existsb (String.eqb (lower k)) (map fst acc)) eqn:Hdup.
    { exfalso. apply existsb_eqb_In in Hdup. apply NoDup_remove_2 in Hnd.
      apply Hnd. apply in_or_app. now left. }
    unfold value_accepted in Hv. apply andb_true_iff in Hv as [Hnone Hpct].
    assert (Hset : (match py_str v with
                    | EmptyString => Return (py_str v)
                    | String _ _ => before_set (py_str v)
                    end) = Return (py_str v)).
    { unfold before_set. destruct (py_str v); [reflexivity|]. now rewrite Hpct. }
    assert (Hgo : exists sect,
               read_options items (acc ++ [(lower (lower k), py_str v)]) = Return sect).
    { apply IH; [|exact Hrest]. rewrite map_fst_app_one, lower_idem, <- app_assoc.
      exact Hnd. }
    destruct v; try discriminate Hnone; rewrite Hset; cbn [bind]; exact Hgo.
Qed.

Lemma read_options_rejects (items : dict) (acc : section) :
  ~ (NoDup (map fst acc ++ folded_names items)
     /\ forallb value_accepted (map snd items) = true) ->
  NoDup (map fst acc) ->
  exists e, read_options items acc = Raise e /\ is_parser_error e.
Proof.
  revert acc. induction items as [|[k v] items IH]; intros acc Hno Hacc.
  - exfalso. apply Hno. cbn. rewrite app_nil_r. now split.
  - cbn [read_options].
    destruct (existsb (String.eqb (lower k)) (map fst acc)) eqn:Hdup.
    { eexists. split; [reflexivity|]. left. now eexists. }
    assert (Hfresh : ~ In (lower k) (map fst acc)).
    { intros Hin. apply existsb_eqb_In in Hin. congruence. }
    destruct (is_none v) eqn:Hnone.
    { destruct v; try discriminate Hnone. eexists. split; [reflexivity|].
      right. now left. }
    destruct (match py_str v with
              | EmptyString => true
              | s => only_keyrefs KOut (remove_pct_pct s)
              end) eqn:Hpct.
    + assert (Hset : (match py_str v with
                      | EmptyString => Return (py_str v)
                      | String _ _ => before_set (py_str v)
                      end) = Return (py_str v)).
      { unfold before_set. destruct (py_str v); [reflexivity|]. now rewrite Hpct. }
      assert (Hgo : exists e,
                 read_options items (acc ++ [(lower (lower k), py_str v)]) = Raise e
                 /\ is_parser_error e).
      { apply IH.
        - intros [Hnd Hrest]. apply Hno. cbn [folded_names map fst snd forallb].
          rewrite map_fst_app_one, lower_idem, <- app_assoc in Hnd.
          split; [exact Hnd|]. unfold value_accepted. now rewrite Hnone, Hpct.
        - rewrite map_fst_app_one, lower_idem. apply NoDup_app; try assumption.
          + constructor; [tauto|constructor].
          + intros x Hx [<-|[]]. contradiction. }
      destruct v; try discriminate Hnone; rewrite Hset; cbn [bind]; exact Hgo.
    + assert (Hset : (match py_str v with
                      | EmptyString => Return (py_str v)
                      | String _ _ => before_set (py_str v)
                      end) = Raise ValueError).
      { unfold before_set. destruct (py_str v); [discriminate|]. now rewrite Hpct. }
      destruct v; try discriminate Hnone; rewrite Hset; cbn [bind];
        (eexists; split; [reflexivity|]; right; now right).
Qed.

(** X19. For a run with ASCII text whose properties file can be opened and
    whose props are a mapping: when the option names are pairwise different
    once folded to lower case and no value is [None] or keeps a stray
    percent sign, [run] writes them all, in order, and goes on to the
    processes; otherwise it raises the parser's error with the file left
    empty and closed and no process launched. *)
Theorem run_writes_props_iff
  (writable : string -> bool) (self : SpecJBBRun) (w : world) (i : bool) (p : string)
  (items : dict) :
  props_file self = PStr i p ->
  open_error writable p = None ->
  props self = PDict items ->
  ascii_run self = true ->
  (NoDup (folded_names items) /\ forallb value_accepted (map snd items) = true ->
   run writable self w
   = run_processes self
       (mkWorld (entropy w) (drawn w) (trace w ++ file_events p (folded items))))
  /\ (~ (NoDup (folded_names items) /\ forallb value_accepted (map snd items) = true) ->
      exists e,
        is_parser_error e
        /\ run writable self w
           = (Raise e,
              mkWorld (entropy w) (drawn w) (trace w ++ [FileOpen p; FileClose p]))).
Proof.
  intros Hp Ho Hprops _. split.
  - intros [Hnd Hv].
    destruct (@read_options_accepts items [] Hnd Hv) as (sect & Hs).
    pose proof (read_options_folded _ _ Hs) as Hf. cbn [app] in Hf. subst sect.
    apply (@run_after_write writable self w i p _ Hp Ho). now rewrite Hprops.
  - intros Hno.
    destruct (@read_options_rejects items [] Hno (NoDup_nil _)) as (e & He & Herr).
    exists e. split; [exact Herr|].
    apply (@run_props_rejected writable self w i p e Hp Ho).
    now rewrite Hprops.
Qed.

Lemma run_writes_props_iff_witness :
  run any_file run_Foo world0
  = run_processes run_Foo
      (mkWorld Z.of_nat 0 ([] ++ file_events "p.props" [("foo", "bar")]))
  /\ exists e,
      is_parser_error e
      /\ run any_file run_percent world0
         = (Raise e, mkWorld Z.of_nat 0 ([] ++ [FileOpen "p.props"; FileClose "p.props"])).
Proof.
  split.
  - refine (proj1 (@run_writes_props_iff any_file run_Foo world0 false "p.props"
                     [("Foo", str "bar")] eq_refl eq_refl eq_refl eq_refl) _).
    split; [|reflexivity]. repeat constructor. cbn. tauto.
  - refine (proj2 (@run_writes_props_iff any_file run_percent world0 false "p.props"
                     [("load", str "90%")] eq_refl eq_refl eq_refl eq_refl) _).
    intros [_ H]. discriminate H.
Defined.

(** ** What the schema rejects *)

Lemma validate_items_fails (es : entries) (items : dict) (k : string) (v : pyval)
  (i : nat) (sk : schema_key) (s : schema) (e : exn) :
  In (k, v) items -> find_entry es k 0 = Some (i, sk, s) -> s v = Raise e ->
  validate_items es items = Raise SchemaError.
Proof.
  intros Hin Hf Hs. induction items as [|[k0 v0] items IH]; [contradiction|].
  cbn [validate_items]. destruct Hin as [[= -> ->]|Hin].
  - now rewrite Hf, Hs.
  - specialize (IH Hin).
    destruct (find_entry es k0 0) as [[[i0 sk0] s0]|]; [|exact IH].
    destruct (s0 v0); [|reflexivity]. now rewrite IH.
Qed.

Lemma dict_schema_fails_on_value (es : entries) (items : dict) (k : string)
  (v : pyval) (i : nat) (sk : schema_key) (s : schema) (e : exn) :
  In (k, v) items -> find_entry (sorted_keys es) k 0 = Some (i, sk, s) ->
  s v = Raise e ->
  dict_schema es (PDict items) = Raise SchemaError.
Proof.
  intros Hin Hf Hs. unfold dict_schema.
  now rewrite (@validate_items_fails _ _ _ _ _ _ _ _ Hin Hf Hs).
Qed.

Lemma dict_schema_unknown_key (es : entries) (items : dict) (k : string) (v : pyval) :
  In (k, v) items -> find_entry (sorted_keys es) k 0 = None ->
  exists e, dict_schema es (PDict items) = Raise e /\ is_schema_error e.
Proof.
  intros Hin Hf. destruct (dict_schema es (PDict items)) as [out|e] eqn:H.
  - exfalso. apply dict_schema_returns in H
      as (items' & new & cov & [= <-] & Hv & _ & Hlen & _).
    apply validate_items_origin in Hv as (H1 & _ & _ & H4).
    destruct (H4 Hlen _ _ Hin) as (v' & Hnew).
    destruct (H1 _ _ Hnew) as (v0 & i & sk & s & _ & Hfound & _). congruence.
  - exists e. split; [reflexivity|]. now apply dict_schema_raises in H.
Qed.

Lemma dict_in_In (d : dict) (k : string) :
  dict_in d k = true -> exists v, In (k, v) d.
Proof.
  unfold dict_in. destruct (dict_get d k) as [v|] eqn:H; [|discriminate].
  intros _. exists v. now apply dict_get_In.
Qed.

Lemma template_needs_args (items : dict) :
  dict_in items "args" = false ->
  exists e, TemplateSchema (PDict items) = Raise e /\ is_schema_error e.
Proof.
  intros Hno. rewrite TemplateSchema_unfold.
  destruct (dict_schema TemplateSchema_entries (PDict items)) as [out|e] eqn:H.
  - exfalso.
    pose proof (dict_schema_returns_dict _ _ H) as Hd.
    destruct out as [| | | | |od|]; try discriminate. clear Hd.
    pose proof (@dict_schema_has_key _ _ _ _ _ "args" H (or_introl eq_refl)
                  (or_introl eq_refl)) as Hargs.
    apply dict_schema_returns in H
      as (items' & new & cov & Hitems & Hv & _ & _ & Hod).
    remember (sorted_keys TemplateSchema_entries) as es eqn:Hes.
    injection Hitems as <-. injection Hod as ->.
    rewrite dict_in_app in Hargs. apply orb_true_iff in Hargs as [Hargs|Hargs];
      apply dict_in_In in Hargs as (v' & Hin).
    + apply validate_items_origin in Hv as (H1 & _).
      destruct (H1 _ _ Hin) as (v & _ & _ & _ & Hitem & _).
      apply In_dict_in in Hitem. congruence.
    + apply unused_defaults_In in Hin as (s & Hs). subst es.
      apply (proj1 (sorted_keys_In _ _)) in Hs. entry_cases Hs.
  - exists e. split; [reflexivity|]. now apply dict_schema_raises in H.
Qed.

(** A template the schema rejects makes [validate] reject the document. *)
Lemma validate_rejects_template (u : pyval) (tpls : dict) (name : string)
  (t : pyval) (e : exn) :
  field u "TemplateData" = Some (PDict tpls) ->
  In (name, t) tpls ->
  TemplateSchema t = Raise e ->
  validate u = Raise SchemaError.
Proof.
  intros Hu Hin Ht. rewrite validate_unfold, SpectateConfig_unfold.
  destruct u as [| | | | |items|]; try discriminate. cbn [field] in Hu.
  apply dict_get_In in Hu.
  rewrite (@dict_schema_fails_on_value SpectateConfig_entries _ _ _ _ _ _ SchemaError
             Hu find_config_TemplateData); [reflexivity|].
  apply (@dict_schema_fails_on_value _ _ _ _ 0 (Required (Pred is_stringy))
           TemplateSchema e Hin); [reflexivity|exact Ht].
Qed.

Lemma find_template_unknown (k : string) :
  ~ In k template_keys ->
  find_entry (sorted_keys TemplateSchema_entries) k 0 = None.
Proof.
  intros Hk. cbn [template_keys In] in Hk.
  cbn [TemplateSchema_entries sorted_keys with_priority filter key_priority fst
         Nat.eqb app find_entry key_matches pattern_of].
  repeat match goal with
         | |- context [String.eqb ?n k] =>
             destruct (String.eqb_spec n k); [exfalso; apply Hk; tauto|]
         end.
  reflexivity.
Qed.

(** X20. A run type is accepted exactly when it is a string whose lower-case
    form is multi, composite, distributed_ctrl_txl or distributed_sut, and
    it is returned as it was written; a document with a template whose
    run_type is anything else is rejected by [validate] with a
    [SchemaError]. *)
Theorem run_type_checked_in_lower_case :
  (forall v r,
      run_type_schema v = Return r
      <-> r = v /\ exists i s, v = PStr i s /\ In (lower s) run_types)
  /\ (forall u tpls name td v,
         field u "TemplateData" = Some (PDict tpls) ->
         In (name, PDict td) tpls ->
         In ("run_type", v) td ->
         (forall i s, v = PStr i s -> ~ In (lower s) run_types) ->
         validate u = Raise SchemaError).
Proof.
  assert (Hknown : forall i s,
             run_type_known (PStr i s) = true <-> In (lower s) run_types).
  { intros i s. cbn [run_type_known]. apply existsb_eqb_In. }
  assert (Hschema : forall v r,
             run_type_schema v = Return r
             <-> r = v /\ exists i s, v = PStr i s /\ In (lower s) run_types).
  { intros v r. unfold run_type_schema, And, callable, is_stringy. split.
    - destruct v as [| | |i s| | |]; try discriminate. cbn [is_str bind].
      destruct (run_type_known (PStr i s)) eqn:E; [|discriminate].
      intros [= <-]. split; [reflexivity|]. exists i, s. split; [reflexivity|].
      exact (proj1 (Hknown i s) E).
    - intros [-> (i & s & -> & Hs)]. cbn [is_str bind].
      apply (proj2 (Hknown i s)) in Hs. now rewrite Hs. }
  split; [exact Hschema|].
  intros u tpls name td v Hu Hin Hv Hbad.
  destruct (run_type_schema v) as [r|e] eqn:E.
  - exfalso. apply Hschema in E as [_ (i & s & -> & Hs)]. exact (Hbad i s eq_refl Hs).
  - apply (@validate_rejects_template u tpls name (PDict td) SchemaError Hu Hin).
    rewrite TemplateSchema_unfold.
    exact (@dict_schema_fails_on_value _ _ _ _ _ _ _ _ Hv find_template_run_type E).
Qed.

Lemma run_type_checked_in_lower_case_witness :
  (run_type_schema (str "Distributed_SUT") = Return (str "Distributed_SUT")
   <-> str "Distributed_SUT" = str "Distributed_SUT"
       /\ exists i s, str "Distributed_SUT" = PStr i s /\ In (lower s) run_types)
  /\ validate document_bad_run_type = Raise SchemaError.
Proof.
  destruct run_type_checked_in_lower_case as [H1 H2]. split; [apply H1|].
  apply (H2 document_bad_run_type
            [("t", PDict [("args", PList []); ("run_type", str "hybrid")])]
            "t" [("args", PList []); ("run_type", str "hybrid")] (str "hybrid")).
  - reflexivity.
  - now left.
  - right. now left.
  - intros i s [= <- <-]. cbn. intuition discriminate.
Defined.

(** X21. A document is rejected by [validate] with a [SchemaError] when one
    of its templates has a key other than the eight the schema knows, or
    has no args. *)
Theorem template_keys_checked (u : pyval) (tpls : dict) (name : string) (td : dict) :
  field u "TemplateData" = Some (PDict tpls) ->
  In (name, PDict td) tpls ->
  (exists k v, In (k, v) td /\ ~ In k template_keys) \/ dict_in td "args" = false ->
  validate u = Raise SchemaError.
Proof.
  intros Hu Hin Hbad.
  assert (Ht : exists e, TemplateSchema (PDict td) = Raise e).
  { destruct Hbad as [(k & v & Hk & Hunknown)|Hargs].
    - rewrite TemplateSchema_unfold.
      destruct (@dict_schema_unknown_key TemplateSchema_entries _ _ _ Hk
                  (@find_template_unknown k Hunknown)) as (e & He & _).
      now exists e.
    - destruct (@template_needs_args td Hargs) as (e & He & _). now exists e. }
  destruct Ht as (e & He).
  exact (@validate_rejects_template u tpls name (PDict td) e Hu Hin He).
Qed.

Lemma template_keys_checked_witness :
  validate document_unknown_key = Raise SchemaError.
Proof.
  apply (@template_keys_checked document_unknown_key
           [("t", PDict [("args", PList []); ("heap", str "4g")])]
           "t" [("args", PList []); ("heap", str "4g")]).
  - reflexivity.
  - now left.
  - left. exists "heap", (str "4g"). split; [right; now left|].
    cbn. intuition discriminate.
Defined.

(** ** Validating a validated document again *)

Lemma validate_items_app (es : entries) (a b na nb : dict) (ca cb : list nat) :
  validate_items es a = Return (na, ca) ->
  validate_items es b = Return (nb, cb) ->
  validate_items es (a ++ b) = Return (na ++ nb, ca ++ cb).
Proof.
  intros Ha Hb. revert na ca Ha.
  induction a as [|[k v] a IH]; intros na ca Ha; cbn in Ha |- *.
  - injection Ha as <- <-. exact Hb.
  - destruct (find_entry es k 0) as [[[i sk] s]|].
    + destruct (s v) as [v'|]; [|discriminate].
      destruct (validate_items es a) as [[na0 ca0]|]; [|discriminate].
      cbn in Ha. injection Ha as <- <-. now rewrite (IH _ _ eq_refl).
    + now apply IH.
Qed.

(** Validating the validated items again changes nothing. *)
Lemma validate_items_again (es : entries) (items new : dict) (cov : list nat) :
  (forall sk s, In (sk, s) es -> stable s) ->
  validate_items es items = Return (new, cov) ->
  validate_items es new = Return (new, cov).
Proof.
  intros Hst. revert new cov.
  induction items as [|[k v] items IH]; intros new cov H; cbn in H.
  - injection H as <- <-. reflexivity.
  - destruct (find_entry es k 0) as [[[i sk] s]|] eqn:Hf.
    + destruct (s v) as [v'|] eqn:Hs; [|discriminate].
      destruct (validate_items es items) as [[new0 cov0]|]; [|discriminate].
      cbn in H. injection H as <- <-. cbn [validate_items]. rewrite Hf.
      apply find_entry_In in Hf as [Hin _].
      rewrite (Hst _ _ Hin _ _ Hs). now rewrite (IH _ _ eq_refl).
    + now apply IH.
Qed.

(** The defaults that were added validate to themselves, each through its
    own key. *)
Lemma validate_items_defaults (es es' : entries) (cov : list nat) (j : nat) :
  (forall m, nth_error es' m = nth_error es (j + m)) ->
  (forall i sk s n,
      nth_error es i = Some (sk, s) -> pattern_of sk = Name n ->
      find_entry es n 0 = Some (i, sk, s)) ->
  (forall n dv s, In (Optional (Name n) (Some dv), s) es -> s dv = Return dv) ->
  validate_items es (unused_defaults es' cov j)
  = Return (unused_defaults es' cov j, unused_indices es' cov j).
Proof.
  intros Hsuf Hfirst Hdef. revert j Hsuf.
  induction es' as [|[sk s] es' IH]; intros j Hsuf; cbn; [reflexivity|].
  assert (Hrec : validate_items es (unused_defaults es' cov (S j))
                 = Return (unused_defaults es' cov (S j),
                           unused_indices es' cov (S j))).
  { apply IH. intros m. specialize (Hsuf (S m)). cbn in Hsuf.
    now replace (S j + m) with (j + S m) by lia. }
  destruct sk as [kp|[n|f] [dv|]]; try exact Hrec.
  destruct (existsb (Nat.eqb j) cov); [exact Hrec|].
  pose proof (Hsuf 0) as H0. cbn in H0. rewrite Nat.add_0_r in H0. symmetry in H0.
  cbn [validate_items]. rewrite (Hfirst _ _ _ n H0 eq_refl).
  rewrite (Hdef n dv s (nth_error_In _ _ H0)). now rewrite Hrec.
Qed.

Lemma required_covered_more (es : entries) (cov extra : list nat) (j : nat) :
  required_covered es cov j = true ->
  required_covered es (cov ++ extra) j = true.
Proof.
  revert j. induction es as [|[sk s] es IH]; intros j; cbn; [reflexivity|].
  rewrite !andb_true_iff, !orb_true_iff. intros [[H|H] Hrest].
  - split; [now left|now apply IH].
  - split; [right|now apply IH]. rewrite existsb_app. now rewrite H.
Qed.

Lemma unused_indices_In (es : entries) (cov : list nat) (j m : nat) (n : string)
  (dv : pyval) (s : schema) :
  nth_error es m = Some (Optional (Name n) (Some dv), s) ->
  existsb (Nat.eqb (j + m)) cov = false ->
  In (j + m) (unused_indices es cov j).
Proof.
  revert j m. induction es as [|[sk0 s0] es IH]; intros j m Hn Hc.
  - destruct m; discriminate.
  - destruct m as [|m]; cbn in Hn.
    + injection Hn as -> ->. cbn. rewrite Nat.add_0_r in Hc. rewrite Hc. now left.
    + assert (Hrec : In (j + S m) (unused_indices es cov (S j))).
      { replace (j + S m) with (S j + m) by lia. apply (IH (S j) m Hn).
        now replace (S j + m) with (j + S m) by lia. }
      cbn. destruct sk0 as [kp|[n0|f] [dv0|]]; try exact Hrec.
      destruct (existsb (Nat.eqb j) cov); [exact Hrec|now right].
Qed.

(** Once the added defaults count as used, no default is left to add. *)
Lemma no_defaults_left (es es' : entries) (cov : list nat) (j : nat) :
  (forall m, nth_error es' m = nth_error es (j + m)) ->
  unused_defaults es' (cov ++ unused_indices es cov 0) j = [].
Proof.
  revert j. induction es' as [|[sk s] es' IH]; intros j Hsuf; cbn; [reflexivity|].
  assert (Hrec : unused_defaults es' (cov ++ unused_indices es cov 0) (S j) = []).
  { apply IH. intros m. specialize (Hsuf (S m)). cbn in Hsuf.
    now replace (S j + m) with (j + S m) by lia. }
  destruct sk as [kp|[n|f] [dv|]]; try exact Hrec.
  rewrite existsb_app.
  destruct (existsb (Nat.eqb j) cov) eqn:Hc; [exact Hrec|]. cbn [orb].
  pose proof (Hsuf 0) as H0. cbn in H0. rewrite Nat.add_0_r in H0. symmetry in H0.
  pose proof (@unused_indices_In es cov 0 j n dv s H0 Hc) as Hin. cbn in Hin.
  assert (He : existsb (Nat.eqb j) (unused_indices es cov 0) = true).
  { apply existsb_exists. exists j. split; [exact Hin|apply Nat.eqb_refl]. }
  now rewrite He.
Qed.

(** A dictionary schema with well formed entries is stable. *)
Lemma dict_schema_stable (es : entries) : entries_wf es -> stable (dict_schema es).
Proof.
  intros (Hst & Hfirst & Hdef) x y H.
  apply dict_schema_returns in H as (items & new & cov & -> & Hv & Hr & _ & ->).
  set (sorted := sorted_keys es) in *.
  assert (Hst' : forall sk s, In (sk, s) sorted -> stable s).
  { intros sk s Hin. apply (Hst sk s). now apply (proj1 (sorted_keys_In _ _)). }
  assert (Hdef' : forall n dv s,
             In (Optional (Name n) (Some dv), s) sorted -> s dv = Return dv).
  { intros n dv s Hin. apply (Hdef n dv s). now apply (proj1 (sorted_keys_In _ _)). }
  pose proof (@validate_items_again sorted items new cov Hst' Hv) as Hnew.
  pose proof (@validate_items_defaults sorted sorted cov 0 (fun m => eq_refl)
                Hfirst Hdef') as Hd.
  pose proof (@validate_items_app _ _ _ _ _ _ _ Hnew Hd) as Hall.
  unfold dict_schema. fold sorted. rewrite Hall. cbn [bind].
  rewrite (@required_covered_more sorted cov (unused_indices sorted cov 0) 0 Hr).
  cbn [negb].
  rewrite Nat.eqb_refl. cbn [negb].
  rewrite (@no_defaults_left sorted sorted cov 0 (fun m => eq_refl)).
  now rewrite app_nil_r.
Qed.

Lemma callable_stable (f : pyval -> bool) : stable (callable f).
Proof.
  intros x y H. apply callable_returns in H as [-> H]. unfold callable. now rewrite H.
Qed.

Lemma object_stable : stable object.
Proof. intros x y H. reflexivity. Qed.

Lemma run_type_schema_stable : stable (And (callable is_stringy) (callable run_type_known)).
Proof.
  intros x y H. unfold And in *.
  destruct (callable is_stringy x) as [x0|] eqn:E; [|discriminate].
  apply callable_returns in E as [-> E]. cbn [bind] in H.
  apply callable_returns in H as [-> H].
  unfold callable. rewrite E. cbn [bind]. now rewrite H.
Qed.

Lemma list_of_stable (s : schema) : stable s -> stable (list_of s).
Proof.
  intros Hs x y H. apply list_of_returns in H as (l & l' & -> & -> & Hall).
  unfold list_of. assert (Hl : validate_all s l' = Return l').
  { induction Hall as [|a a' l l' Ha _ IH]; cbn; [reflexivity|].
    now rewrite (Hs _ _ Ha), IH. }
  now rewrite Hl.
Qed.

(** The entries of a schema with one key, given as a function. *)
Lemma entries_wf_pred (sk : schema_key) (s : schema) (f : pyval -> bool) :
  pattern_of sk = Pred f -> (forall dv, sk <> Optional (Pred f) (Some dv)) ->
  stable s -> entries_wf [(sk, s)].
Proof.
  intros Hp Hnd Hs. split; [|split].
  - intros sk0 s0 [[= <- <-]|[]]. exact Hs.
  - intros j sk0 s0 n Hn Hname. exfalso.
    assert (Hin : In (sk0, s0) [(sk, s)]).
    { apply nth_error_In in Hn. now apply (proj1 (sorted_keys_In _ _)) in Hn. }
    destruct Hin as [[= <- <-]|[]]. congruence.
  - intros n dv s0 [[= -> <-]|[]]. discriminate Hp.
Qed.

Ltac wf_first_match :=
  let j := fresh "j" in
  let Hn := fresh "Hn" in
  let Hp := fresh "Hp" in
  intros j ? ? ? Hn Hp;
  repeat (destruct j as [|j];
          [cbn in Hn; injection Hn as <- <-; cbn in Hp;
           first [discriminate Hp | injection Hp as <-; reflexivity]|]);
  destruct j; discriminate Hn.

Lemma TemplateSchema_entries_wf : entries_wf TemplateSchema_entries.
Proof.
  split; [|split].
  - intros sk s Hin. cbn [TemplateSchema_entries In] in Hin.
    repeat (destruct Hin as [[= <- <-]|Hin]);
      try contradiction;
      first [ apply list_of_stable, callable_stable
            | apply run_type_schema_stable
            | apply callable_stable
            | apply dict_schema_stable;
              apply entries_wf_pred with (f := is_stringy);
              [reflexivity|intros dv; discriminate
              |first [apply object_stable|apply callable_stable]] ].
  - wf_first_match.
  - intros n dv s Hin. entry_cases Hin; injection Hin as <- <- <-; reflexivity.
Qed.

Lemma TemplateSchema_stable : stable TemplateSchema.
Proof. rewrite TemplateSchema_unfold. apply dict_schema_stable, TemplateSchema_entries_wf. Qed.

Lemma RunConfigSchema_entries_wf : entries_wf RunConfigSchema_entries.
Proof.
  split; [|split].
  - intros sk s Hin. cbn [RunConfigSchema_entries In] in Hin.
    repeat (destruct Hin as [[= <- <-]|Hin]);
      try contradiction;
      first [ apply callable_stable
            | apply dict_schema_stable;
              apply entries_wf_pred with (f := is_stringy);
              [reflexivity|intros dv; discriminate
              |first [apply object_stable|apply callable_stable]] ].
  - wf_first_match.
  - intros n dv s Hin. entry_cases Hin.
Qed.

Lemma RunConfigSchema_stable : stable RunConfigSchema.
Proof.
  rewrite RunConfigSchema_unfold. apply dict_schema_stable, RunConfigSchema_entries_wf.
Qed.

Lemma SpectateConfig_entries_wf : entries_wf SpectateConfig_entries.
Proof.
  split; [|split].
  - intros sk s Hin. cbn [SpectateConfig_entries In] in Hin.
    repeat (destruct Hin as [[= <- <-]|Hin]); try contradiction.
    + apply dict_schema_stable.
      apply entries_wf_pred with (f := is_stringy);
        [reflexivity|intros dv; discriminate|apply TemplateSchema_stable].
    + apply list_of_stable, RunConfigSchema_stable.
  - wf_first_match.
  - intros n dv s Hin. entry_cases Hin.
Qed.

Lemma SpectateConfig_stable : stable SpectateConfig.
Proof.
  rewrite SpectateConfig_unfold. apply dict_schema_stable, SpectateConfig_entries_wf.
Qed.

Lemma all_different_NoDup (l : list string) : all_different l = true -> NoDup l.
Proof.
  induction l as [|x l IH]; cbn; [constructor|].
  intros H. apply andb_true_iff in H as [Hx Hl]. constructor; [|now apply IH].
  intros Hin. apply existsb_eqb_In in Hin. now rewrite Hin in Hx.
Qed.

Lemma NoDup_dict_get (d : dict) (k : string) (v : pyval) :
  NoDup (map fst d) -> In (k, v) d -> dict_get d k = Some v.
Proof.
  induction d as [|[k0 v0] d IH]; cbn; [tauto|].
  intros Hnd [[= -> ->]|Hin].
  - now rewrite String.eqb_refl.
  - apply NoDup_cons_iff in Hnd as [Hk Hnd].
    destruct (String.eqb_spec k0 k) as [->|_]; [|now apply IH].
    exfalso. apply Hk. apply in_map_iff. now exists (k, v).
Qed.

(** A value whose mappings have pairwise different keys is equal to itself
    under [==]. *)
Lemma py_eq_refl (v : pyval) : distinct_keys v = true -> py_eq v v = true.
Proof.
  induction v as [|b|z|i s|l IH|d IH|t x] using pyval_nested_ind; cbn; intros Hd;
    try reflexivity.
  - now destruct b.
  - apply Z.eqb_refl.
  - apply String.eqb_refl.
  - induction IH as [|x l Hx _ IHl]; [reflexivity|]. cbn in Hd.
    apply andb_true_iff in Hd as [Hdx Hdl]. rewrite (Hx Hdx). now apply IHl.
  - apply andb_true_iff in Hd as [Hnd Hvals]. apply all_different_NoDup in Hnd.
    rewrite Nat.eqb_refl. cbn [andb].
    assert (Hsub : forall d',
               (forall kv, In kv d' -> In kv d) ->
               (fix sub (d0 : list (string * pyval)) : bool :=
                  match d0 with
                  | [] => true
                  | (k, v) :: d1 =>
                      match dict_get d k with
                      | Some v' => py_eq v v'
                      | None => false
                      end && sub d1
                  end) d' = true).
    { induction d' as [|[k v] d' IHd]; intros Hin; [reflexivity|].
      rewrite (@NoDup_dict_get d k v Hnd (Hin _ (or_introl eq_refl))).
      rewrite IHd by (intros kv Hkv; apply Hin; now right).
      rewrite andb_true_r.
      pose proof (Hin _ (or_introl eq_refl)) as Hkv.
      rewrite Forall_forall in IH. apply (IH _ Hkv).
      rewrite forallb_forall in Hvals. exact (Hvals _ Hkv). }
    apply Hsub. auto.
  - now rewrite !String.eqb_refl.
Qed.

(** X22. Validating is idempotent: a document that [validate] returned is
    returned again when it is validated again, equal under [==] to what it
    was; the order of the keys of its mappings is left open. *)
Theorem validate_idempotent (u d : pyval) :
  validate u = Return d -> d <> PNone -> distinct_keys d = true ->
  exists d', validate d = Return d' /\ py_eq d' d = true.
Proof.
  intros H Hd Hkeys.
  destruct (validate_cases u) as [(e & _ & He & _)|(d0 & Hs & Hshape & Hv)];
    [congruence|].
  rewrite Hv in H.
  assert (Hd0 : d0 = d /\ cross_check d0 = Return d0).
  { destruct (@cross_check_shaped d0 Hshape)
      as [[Hc _]|[[Hc _]|(_ & tpls & runs & run & i & name & _ & _ & _ & _ & Hcase)]].
    - rewrite Hc in H. injection H as <-. now split.
    - rewrite Hc in H. injection H as <-. contradiction.
    - destruct Hcase as [[_ Hc]|(t & _ & _ & Hc)]; rewrite Hc in H; discriminate. }
  destruct Hd0 as [<- Hc]. exists d0. split; [|now apply py_eq_refl].
  pose proof SpectateConfig_stable as Hst. unfold stable in Hst.
  rewrite validate_unfold, (Hst u d0 Hs). exact Hc.
Qed.

Lemma validate_idempotent_witness :
  exists d',
    validate good_document_validated = Return d'
    /\ py_eq d' good_document_validated = true.
Proof.
  apply (@validate_idempotent good_document good_document_validated);
    [reflexivity|discriminate|reflexivity].
Defined.

(** ** Counts and component options *)

(** X23. For a count given as backends or injectors, [__set_topology__]
    builds the same mapping, key for key, as [SpecJBBComponentOptions] does
    from the role's type name and that count. *)
Theorem counted_role_is_component_options (self r : SpecJBBRun) (c b i : pyval) :
  __set_topology__ self c b i = Return r ->
  (is_int b = true ->
   exists d d',
     backends r = PDict d
     /\ SpecJBBComponentOptions (lit "backend") b = Return (PDict d')
     /\ forall k, dict_get d k = dict_get d' k)
  /\ (is_int i = true ->
      exists d d',
        injectors r = PDict d
        /\ SpecJBBComponentOptions (lit "txinjector") i = Return (PDict d')
        /\ forall k, dict_get d k = dict_get d' k).
Proof.
  intros H. apply set_topology_result in H as (-> & _ & _ & _).
  cbn [backends injectors]. unfold normalized_role. split; intros ->.
  - eexists _, _. split; [reflexivity|]. split; [reflexivity|]. intros k.
    cbn [dict_get].
    destruct (String.eqb "count" k) eqn:Ec, (String.eqb "type" k) eqn:Et;
      try reflexivity.
    apply String.eqb_eq in Ec, Et. congruence.
  - eexists _, _. split; [reflexivity|]. split; [reflexivity|]. intros k.
    cbn [dict_get].
    destruct (String.eqb "count" k) eqn:Ec, (String.eqb "type" k) eqn:Et;
      try reflexivity.
    apply String.eqb_eq in Ec, Et. congruence.
Qed.

Lemma counted_role_is_component_options_witness :
  exists d d',
    backends run_2_multi = PDict d
    /\ SpecJBBComponentOptions (lit "backend") (PInt 2) = Return (PDict d')
    /\ forall k, dict_get d k = dict_get d' k.
Proof.
  exact (proj1 (@counted_role_is_component_options
                  (mkRun (str "x.jar") (PDict []) (str "p.props") 0%Z java_record
                         PNone PNone PNone)
                  run_2_multi (PDict [("type", str "multi")]) (PInt 2) PNone eq_refl)
               eq_refl).
Defined.

(** ** The validated document and the document it comes from *)

Lemma validate_items_length (es : entries) (items new : dict) (cov : list nat) :
  validate_items es items = Return (new, cov) -> length new <= length items.
Proof. intros H. now apply validate_items_origin in H as (_ & _ & H & _). Qed.

(** When no item is left out, the validated items are the items, each with
    the value that the first schema key accepting its name returned. *)
Lemma validate_items_pointwise (es : entries) (items new : dict) (cov : list nat) :
  validate_items es items = Return (new, cov) ->
  length new = length items ->
  Forall2 (fun kv kv' =>
             fst kv' = fst kv
             /\ exists i sk s,
                 find_entry es (fst kv) 0 = Some (i, sk, s)
                 /\ s (snd kv) = Return (snd kv'))
          items new.
Proof.
  revert new cov. induction items as [|[k v] items IH]; intros new cov H Hlen;
    cbn in H.
  - injection H as <- <-. constructor.
  - destruct (find_entry es k 0) as [[[i sk] s]|] eqn:Hf.
    + destruct (s v) as [v'|] eqn:Hs; [|discriminate].
      destruct (validate_items es items) as [[new0 cov0]|] eqn:Hv; [|discriminate].
      cbn in H. injection H as <- <-. cbn in Hlen. constructor.
      * cbn. split; [reflexivity|]. now exists i, sk, s.
      * apply (IH new0 cov0 eq_refl). lia.
    + apply validate_items_length in H. cbn in Hlen. lia.
Qed.

Lemma validate_items_identity (es : entries) (items new : dict) (cov : list nat) :
  (forall sk s, In (sk, s) es -> identity s) ->
  validate_items es items = Return (new, cov) ->
  length new = length items ->
  new = items.
Proof.
  intros Hid H Hlen. pose proof (validate_items_pointwise _ _ H Hlen) as Hall.
  clear H Hlen. induction Hall as [|[k v] [k' v'] items new Hkv _ IH]; [reflexivity|].
  cbn in Hkv. destruct Hkv as (-> & i & sk & s & Hf & Hs).
  apply find_entry_In in Hf as [Hin _]. apply (Hid _ _ Hin) in Hs. now subst.
Qed.

Lemma unused_defaults_none (es : entries) (cov : list nat) (j : nat) :
  (forall n dv s, ~ In (Optional (Name n) (Some dv), s) es) ->
  unused_defaults es cov j = [].
Proof.
  intros Hno. destruct (unused_defaults es cov j) as [|[k v] rest] eqn:E; [reflexivity|].
  exfalso. assert (Hin : In (k, v) (unused_defaults es cov j)) by (rewrite E; now left).
  apply unused_defaults_In in Hin as (s & Hs). exact (Hno _ _ _ Hs).
Qed.

(** A dictionary schema without defaults whose value schemas return the
    data themselves does so too. *)
Lemma dict_schema_identity (es : entries) :
  (forall sk s, In (sk, s) es -> identity s) ->
  (forall n dv s, ~ In (Optional (Name n) (Some dv), s) es) ->
  identity (dict_schema es).
Proof.
  intros Hid Hno x y H.
  apply dict_schema_returns in H as (items & new & cov & -> & Hv & _ & Hlen & ->).
  rewrite unused_defaults_none, app_nil_r.
  - f_equal. apply (@validate_items_identity (sorted_keys es) items new cov);
      [|exact Hv|exact Hlen].
    intros sk s Hin. apply (Hid sk s). now apply (proj1 (sorted_keys_In _ _)).
  - intros n dv s Hin. apply (Hno n dv s). now apply (proj1 (sorted_keys_In _ _)).
Qed.

Lemma callable_identity (f : pyval -> bool) : identity (callable f).
Proof. intros x y H. now apply callable_returns in H as [-> _]. Qed.

Lemma object_identity : identity object.
Proof. intros x y [= <-]. reflexivity. Qed.

Lemma list_of_identity (s : schema) : identity s -> identity (list_of s).
Proof.
  intros Hs x y H. apply list_of_returns in H as (l & l' & -> & -> & Hall).
  f_equal. induction Hall as [|a a' l l' Ha _ IH]; [reflexivity|].
  now rewrite (Hs _ _ Ha), IH.
Qed.

(** The schema of a map from names to values, with one key that is a
    function. *)
Lemma one_key_identity (sk : schema_key) (s : schema) (f : pyval -> bool) :
  pattern_of sk = Pred f -> identity s -> identity (dict_schema [(sk, s)]).
Proof.
  intros Hp Hs. apply dict_schema_identity.
  - intros sk0 s0 [[= <- <-]|[]]. exact Hs.
  - intros n dv s0 [[= -> _]|[]]. discriminate Hp.
Qed.

(** The schema of a run returns the run itself. *)
Lemma RunConfigSchema_identity : identity RunConfigSchema.
Proof.
  rewrite RunConfigSchema_unfold. apply dict_schema_identity.
  - intros sk s Hin. cbn [RunConfigSchema_entries In] in Hin.
    repeat (destruct Hin as [[= <- <-]|Hin]); try contradiction.
    + apply callable_identity.
    + apply one_key_identity with (f := is_stringy);
        [reflexivity|apply object_identity].
    + apply one_key_identity with (f := is_stringy);
        [reflexivity|apply callable_identity].
  - intros n dv s Hin. entry_cases Hin.
Qed.

Lemma And_identity (a b : schema) : identity a -> identity b -> identity (And a b).
Proof.
  intros Ha Hb x y H. unfold And in H.
  destruct (a x) as [x0|] eqn:E; [|discriminate]. cbn [bind] in H.
  apply Ha in E. apply Hb in H. congruence.
Qed.

Lemma TemplateSchema_entries_identity (sk : schema_key) (s : schema) :
  In (sk, s) TemplateSchema_entries -> identity s.
Proof.
  intros Hin. cbn [TemplateSchema_entries In] in Hin.
  repeat (destruct Hin as [[= <- <-]|Hin]); try contradiction;
    first [ apply list_of_identity, callable_identity
          | apply And_identity; apply callable_identity
          | apply callable_identity
          | apply one_key_identity with (f := is_stringy);
            [reflexivity|first [apply object_identity|apply callable_identity]] ].
Qed.

Lemma template_default_entry (k : string) (v : pyval) (s : schema) :
  In (Optional (Name k) (Some v), s) TemplateSchema_entries ->
  template_default k = Some v.
Proof.
  intros Hin. cbn [TemplateSchema_entries In] in Hin.
  repeat (destruct Hin as [Hin|Hin]; [try discriminate Hin|]); try contradiction;
    injection Hin as <- <- _; reflexivity.
Qed.

Lemma template_default_has_entry (k : string) (dv : pyval) :
  template_default k = Some dv ->
  exists s, In (Optional (Name k) (Some dv), s) TemplateSchema_entries.
Proof.
  unfold template_default.
  destruct (String.eqb_spec k "run_type") as [->|_];
    [intros [= <-]; eexists; right; left; reflexivity|].
  destruct (String.eqb_spec k "java") as [->|_];
    [intros [= <-]; eexists; right; right; left; reflexivity|].
  destruct (String.eqb_spec k "jar") as [->|_];
    [intros [= <-]; eexists; right; right; right; left; reflexivity|].
  discriminate.
Qed.

(** The validated template is the template, followed by the defaults of the
    keys it leaves out. *)
Lemma TemplateSchema_extends (t t' : pyval) :
  TemplateSchema t = Return t' ->
  exists td extra,
    t = PDict td /\ t' = PDict (td ++ extra)
    /\ (forall k v, In (k, v) extra -> template_default k = Some v)
    /\ (forall k dv, template_default k = Some dv -> dict_get td k = None ->
                     dict_get extra k = Some dv).
Proof.
  rewrite TemplateSchema_unfold. intros H. pose proof H as H0.
  apply dict_schema_returns in H as (items & new & cov & -> & Hv & _ & Hlen & ->).
  assert (Hnew : new = items).
  { apply (@validate_items_identity (sorted_keys TemplateSchema_entries) items new cov);
      [|exact Hv|exact Hlen].
    intros sk s Hin. apply (@TemplateSchema_entries_identity sk s).
    now apply (proj1 (sorted_keys_In _ _)). }
  subst new. clear Hv Hlen.
  set (extra := unused_defaults (sorted_keys TemplateSchema_entries) cov 0) in *.
  assert (Hextra : forall k v, In (k, v) extra -> template_default k = Some v).
  { intros k v Hin. apply unused_defaults_In in Hin as (s & Hs).
    apply (proj1 (sorted_keys_In _ _)) in Hs. exact (@template_default_entry k v s Hs). }
  exists items, extra. split; [reflexivity|]. split; [reflexivity|].
  split; [exact Hextra|].
  intros k dv Hd Hnone. destruct (@template_default_has_entry k dv Hd) as (s & Hs).
  pose proof (@dict_schema_has_key _ _ _ _ s k H0 Hs
                (or_intror (ex_intro _ dv eq_refl))) as Hin.
  rewrite dict_in_app in Hin. unfold dict_in at 1 in Hin. rewrite Hnone in Hin.
  cbn [orb] in Hin. unfold dict_in in Hin.
  destruct (dict_get extra k) as [v|] eqn:E; [|discriminate].
  apply dict_get_In, Hextra in E. congruence.
Qed.

Lemma dict_get_app (d1 d2 : dict) (k : string) :
  dict_get (d1 ++ d2) k
  = match dict_get d1 k with
    | Some v => Some v
    | None => dict_get d2 k
    end.
Proof.
  induction d1 as [|[k0 v0] d1 IH]; cbn; [reflexivity|].
  destruct (String.eqb k0 k); [reflexivity|exact IH].
Qed.

(** What the validated template has under a key: what the template has,
    and the default of the key where the template has nothing. *)
Lemma TemplateSchema_field (t t' : pyval) (k : string) :
  TemplateSchema t = Return t' ->
  field t' k = match field t k with
               | Some v => Some v
               | None => template_default k
               end.
Proof.
  intros H. apply TemplateSchema_extends in H as (td & extra & -> & -> & H1 & H2).
  cbn [field]. rewrite dict_get_app.
  destruct (dict_get td k) as [v|] eqn:E; [reflexivity|].
  destruct (template_default k) as [dv|] eqn:Ed.
  - exact (H2 k dv Ed E).
  - destruct (dict_get extra k) as [v|] eqn:Ex; [|reflexivity].
    apply dict_get_In, H1 in Ex. congruence.
Qed.

Lemma TemplateSchema_field_kept (t t' : pyval) (k : string) :
  TemplateSchema t = Return t' -> template_default k = None ->
  field t' k = field t k.
Proof.
  intros H Hk. rewrite (@TemplateSchema_field t t' k H), Hk. now destruct (field t k).
Qed.

(** Looking a key up in two lists of items that correspond one to one. *)
Lemma pointwise_get (R : string -> pyval -> pyval -> Prop) (items new : dict)
  (k : string) :
  Forall2 (fun kv kv' => fst kv' = fst kv /\ R (fst kv) (snd kv) (snd kv')) items new ->
  match dict_get items k, dict_get new k with
  | Some v, Some v' => R k v v'
  | None, None => True
  | _, _ => False
  end.
Proof.
  intros H. induction H as [|[k0 v0] [k1 v1] items new [Hk Hr] _ IH]; cbn; [exact I|].
  cbn in Hk, Hr. subst k1. destruct (String.eqb_spec k0 k) as [->|_]; [exact Hr|exact IH].
Qed.

Lemma pointwise_In (R : string -> pyval -> pyval -> Prop) (items new : dict) :
  Forall2 (fun kv kv' => fst kv' = fst kv /\ R (fst kv) (snd kv) (snd kv')) items new ->
  (forall k v, In (k, v) items -> exists v', In (k, v') new /\ R k v v')
  /\ (forall k v', In (k, v') new -> exists v, In (k, v) items /\ R k v v').
Proof.
  intros H. induction H as [|[k0 v0] [k1 v1] items new [Hk Hr] _ [IH1 IH2]].
  - split; intros ? ? [].
  - cbn in Hk, Hr. subst k1. split.
    + intros k v [[= <- <-]|Hin].
      * exists v1. split; [now left|exact Hr].
      * destruct (IH1 _ _ Hin) as (v' & Hin' & Hr'). exists v'. split; [now right|exact Hr'].
    + intros k v' [[= <- <-]|Hin].
      * exists v0. split; [now left|exact Hr].
      * destruct (IH2 _ _ Hin) as (v & Hin' & Hr'). exists v. split; [now right|exact Hr'].
Qed.

(** The items of a validated dictionary without defaults correspond one to
    one to the items of the data. *)
Lemma dict_schema_pointwise (es : entries) (items : dict) (out : pyval) :
  (forall n dv s, ~ In (Optional (Name n) (Some dv), s) es) ->
  dict_schema es (PDict items) = Return out ->
  exists new,
    out = PDict new
    /\ Forall2 (fun kv kv' =>
                  fst kv' = fst kv
                  /\ exists i sk s,
                      find_entry (sorted_keys es) (fst kv) 0 = Some (i, sk, s)
                      /\ s (snd kv) = Return (snd kv'))
               items new.
Proof.
  intros Hno H.
  apply dict_schema_returns in H as (items' & new & cov & [= <-] & Hv & _ & Hlen & ->).
  exists new. rewrite unused_defaults_none, app_nil_r.
  - split; [reflexivity|]. exact (@validate_items_pointwise _ _ _ _ Hv Hlen).
  - intros n dv s Hin. apply (Hno n dv s). now apply (proj1 (sorted_keys_In _ _)).
Qed.

(** The validated document has the run list of the document, and its
    templates are the validated templates of the document, name by name. *)
Lemma SpectateConfig_parts (u d : pyval) :
  SpectateConfig u = Return d ->
  field d "RunList" = field u "RunList"
  /\ exists tpls tpls',
      field u "TemplateData" = Some (PDict tpls)
      /\ field d "TemplateData" = Some (PDict tpls')
      /\ Forall2 (fun kv kv' =>
                    fst kv' = fst kv
                    /\ TemplateSchema (snd kv) = Return (snd kv'))
                 tpls tpls'.
Proof.
  intros H. pose proof (@SpectateConfig_shape u d H) as Hshape.
  rewrite SpectateConfig_unfold in H.
  destruct u as [| | | | |ud|]; try discriminate.
  apply dict_schema_pointwise in H as (dd & -> & Hall);
    [|intros n dv s Hin; entry_cases Hin].
  set (R := fun (k : string) (v v' : pyval) =>
              exists i sk s,
                find_entry (sorted_keys SpectateConfig_entries) k 0 = Some (i, sk, s)
                /\ s v = Return v') in *.
  cbn [field]. split.
  - pose proof (@pointwise_get R ud dd "RunList" Hall) as Hg.
    destruct (dict_get ud "RunList") as [v|], (dict_get dd "RunList") as [v'|];
      try contradiction; [|reflexivity].
    destruct Hg as (i & sk & s & Hf & Hs).
    rewrite find_config_RunList in Hf. injection Hf as _ _ <-.
    f_equal. exact (@list_of_identity _ RunConfigSchema_identity _ _ Hs).
  - destruct Hshape as (dd' & tpls' & runs & [= <-] & Htd & _).
    pose proof (@pointwise_get R ud dd "TemplateData" Hall) as Hg.
    rewrite Htd in Hg.
    destruct (dict_get ud "TemplateData") as [v|]; [|contradiction].
    destruct Hg as (i & sk & s & Hf & Hs).
    rewrite find_config_TemplateData in Hf. injection Hf as _ _ <-.
    destruct v as [| | | | |tpls|]; try discriminate.
    apply dict_schema_pointwise in Hs as (new & [= <-] & Hall');
      [|intros n dv s [Hin|[]]; discriminate Hin].
    exists tpls, tpls'. split; [reflexivity|]. split; [exact Htd|].
    eapply Forall2_impl; [|exact Hall'].
    intros [k v] [k' v'] (Hk & i' & sk' & s' & Hf' & Hs'). cbn [fst snd] in *.
    split; [exact Hk|].
    apply find_entry_In in Hf' as [Hin _].
    apply (proj1 (sorted_keys_In _ _)) in Hin.
    destruct Hin as [[= _ <-]|[]]. exact Hs'.
Qed.

Lemma template_consistent_validated (t t' : pyval) :
  TemplateSchema t = Return t' -> (template_consistent t <-> template_consistent t').
Proof.
  intros H. unfold template_consistent.
  rewrite (@TemplateSchema_field_kept t t' "args" H eq_refl).
  rewrite (@TemplateSchema_field_kept t t' "translations" H eq_refl).
  rewrite (@TemplateSchema_field_kept t t' "annotations" H eq_refl).
  reflexivity.
Qed.

Lemma run_consistent_validated (tpls tpls' : dict) (run : pyval) :
  Forall2 (fun kv kv' =>
             fst kv' = fst kv /\ TemplateSchema (snd kv) = Return (snd kv'))
          tpls tpls' ->
  (run_consistent (PDict tpls) run <-> run_consistent (PDict tpls') run).
Proof.
  intros Hall.
  pose proof (fun k => @pointwise_get
                         (fun _ v v' => TemplateSchema v = Return v') tpls tpls' k Hall)
    as Hget.
  unfold run_consistent. cbn [field]. split.
  - intros (i & name & t & H1 & H2 & H3 & H4). specialize (Hget name).
    rewrite H2 in Hget. destruct (dict_get tpls' name) as [t'|] eqn:E; [|contradiction].
    exists i, name, t'. split; [exact H1|]. split; [exact E|].
    rewrite (@TemplateSchema_field_kept t t' "args" Hget eq_refl).
    rewrite (@TemplateSchema_field_kept t t' "default_props" Hget eq_refl).
    now split.
  - intros (i & name & t' & H1 & H2 & H3 & H4). specialize (Hget name).
    rewrite H2 in Hget. destruct (dict_get tpls name) as [t|] eqn:E; [|contradiction].
    exists i, name, t. split; [exact H1|]. split; [exact E|].
    rewrite (@TemplateSchema_field_kept t t' "args" Hget eq_refl) in H3, H4.
    rewrite (@TemplateSchema_field_kept t t' "default_props" Hget eq_refl) in H4.
    now split.
Qed.

(** The four rules hold of the validated document exactly when they hold of
    the document. *)
Lemma consistent_validated (u d : pyval) :
  SpectateConfig u = Return d -> (consistent u <-> consistent d).
Proof.
  intros H. apply SpectateConfig_parts in H as (Hrl & tpls & tpls' & Hu & Hd & Hall).
  pose proof (@pointwise_In (fun _ v v' => TemplateSchema v = Return v') tpls tpls' Hall)
    as [Hin1 Hin2].
  unfold consistent. rewrite Hrl, Hu, Hd. split.
  - intros (tp & runs & [= <-] & Hr & Hruns & Ht).
    exists tpls', runs. split; [reflexivity|]. split; [exact Hr|]. split.
    + eapply Forall_impl; [|exact Hruns].
      intros run. apply (proj1 (@run_consistent_validated tpls tpls' run Hall)).
    + intros name t' Hin. destruct (Hin2 _ _ Hin) as (t & Hint & Hs).
      apply (proj1 (@template_consistent_validated t t' Hs)). exact (Ht name t Hint).
  - intros (tp & runs & [= <-] & Hr & Hruns & Ht).
    exists tpls, runs. split; [reflexivity|]. split; [exact Hr|]. split.
    + eapply Forall_impl; [|exact Hruns].
      intros run. apply (proj2 (@run_consistent_validated tpls tpls' run Hall)).
    + intros name t Hin. destruct (Hin1 _ _ Hin) as (t' & Hint & Hs).
      apply (proj2 (@template_consistent_validated t t' Hs)). exact (Ht name t' Hint).
Qed.

Lemma cross_check_consistent (d : pyval) :
  config_shape d -> consistent d -> cross_check d = Return d.
Proof.
  intros Hshape Hc.
  destruct (@cross_check_shaped d Hshape) as [[H _]|[[_ Hn]|[Hn _]]];
    [exact H|contradiction|contradiction].
Qed.

Lemma cross_check_inconsistent (d : pyval) :
  config_shape d -> cross_check d <> Return d -> ~ consistent d.
Proof.
  intros Hshape Hne Hc. apply Hne. now apply cross_check_consistent.
Qed.

(** ** The cross-referential rules *)

Lemma good_document_consistent : consistent good_document.
Proof.
  unfold consistent, good_document. cbn [field dict_get String.eqb Ascii.eqb Bool.eqb].
  eexists _, _. split; [reflexivity|]. split; [reflexivity|]. split.
  - constructor; [|constructor].
    exists false, "t", (PDict [("args", PList [str "a"; str "b"]);
                               ("default_props", PDict [("b", PInt 1)])]).
    cbn. repeat split; tauto.
  - intros name t [[= <- <-]|[]]. split; cbn; intros k [].
Qed.

Lemma document_no_defaults_inconsistent : ~ consistent document_no_defaults.
Proof.
  intros (tpls & runs & Ht & Hr & Hall & _). cbn in Ht, Hr.
  injection Ht as <-. injection Hr as <-. apply Forall_inv in Hall.
  destruct Hall as (i & name & t & H1 & H2 & _ & H4). cbn in H1.
  injection H1 as <- <-. cbn in H2. injection H2 as <-.
  destruct (H4 "a") as [[]|[]]. cbn. now left.
Qed.

(** C3. For a document that passes the schema and breaks one of the four
    rules, [validate] returns [None], or else raises a [KeyError] for a run
    whose template is looked up in vain: that of the template name when no
    template has that name (the rules take the template for granted), that
    of default_props when the template has no defaults at all and the run
    leaves out an arg. *)
Theorem rule_failure_outcome (u d : pyval) :
  SpectateConfig u = Return d -> ~ consistent u ->
  validate u = Return PNone
  \/ exists tpls runs run i name,
      field u "TemplateData" = Some (PDict tpls)
      /\ field u "RunList" = Some (PList runs)
      /\ In run runs
      /\ field run "template_type" = Some (PStr i name)
      /\ ((dict_get tpls name = None /\ validate u = Raise (KeyError name))
          \/ (exists t, dict_get tpls name = Some t
                        /\ field t "default_props" = None
                        /\ validate u = Raise (KeyError "default_props"))).
Proof.
  intros Hs Hn.
  assert (Hnd : ~ consistent d).
  { intros Hc. apply Hn. now apply (proj2 (@consistent_validated u d Hs)). }
  pose proof (@SpectateConfig_shape u d Hs) as Hshape.
  rewrite validate_unfold, Hs. cbn [bind].
  destruct (@cross_check_shaped d Hshape)
    as [[_ Hc]|[[Hc _]|(_ & tpls' & runs & run & i & name & H1 & H2 & H3 & H4 & Hcase)]];
    [contradiction|now left|right].
  apply SpectateConfig_parts in Hs as (Hrl & tpls & tpls0 & Hu & Hd & Hall).
  rewrite H1 in Hd. injection Hd as <-. rewrite H2 in Hrl.
  pose proof (@pointwise_get (fun _ v v' => TemplateSchema v = Return v')
                tpls tpls' name Hall) as Hget.
  exists tpls, runs, run, i, name. split; [exact Hu|]. split; [now symmetry|].
  split; [exact H3|]. split; [exact H4|].
  destruct Hcase as [[Hnone Hc]|(t' & Hsome & Hdp & Hc)].
  - left. rewrite Hnone in Hget. split; [|exact Hc].
    now destruct (dict_get tpls name).
  - right. rewrite Hsome in Hget. destruct (dict_get tpls name) as [t|]; [|contradiction].
    exists t. split; [reflexivity|]. split; [|exact Hc].
    now rewrite <- (@TemplateSchema_field_kept t t' "default_props" Hget eq_refl).
Qed.

Lemma rule_failure_outcome_witness :
  validate document_no_defaults = Raise (KeyError "default_props")
  /\ (validate document_no_defaults = Return PNone
      \/ exists tpls runs run i name,
          field document_no_defaults "TemplateData" = Some (PDict tpls)
          /\ field document_no_defaults "RunList" = Some (PList runs)
          /\ In run runs
          /\ field run "template_type" = Some (PStr i name)
          /\ ((dict_get tpls name = None
               /\ validate document_no_defaults = Raise (KeyError name))
              \/ (exists t, dict_get tpls name = Some t
                            /\ field t "default_props" = None
                            /\ validate document_no_defaults
                               = Raise (KeyError "default_props")))).
Proof.
  split; [reflexivity|].
  exact (@rule_failure_outcome document_no_defaults _ eq_refl
           document_no_defaults_inconsistent).
Defined.

(** C8. For a document that passes the schema and satisfies the four rules
    (every run names a template, supplies only args the template declares
    and leaves out only args that have a default, and the translations and
    annotations of every template only name declared args), [validate]
    returns the document as the schema returned it, defaults filled in, and
    the rules hold of that document too. *)
Theorem validate_accepts_consistent (u d : pyval) :
  SpectateConfig u = Return d -> consistent u ->
  validate u = Return d /\ consistent d.
Proof.
  intros Hs Hc. apply (proj1 (@consistent_validated u d Hs)) in Hc.
  split; [|exact Hc]. rewrite validate_unfold, Hs. cbn [bind].
  apply cross_check_consistent; [|exact Hc]. exact (@SpectateConfig_shape u d Hs).
Qed.

Lemma validate_accepts_consistent_witness :
  validate good_document = Return good_document_validated
  /\ consistent good_document_validated.
Proof.
  exact (@validate_accepts_consistent good_document good_document_validated
           eq_refl good_document_consistent).
Defined.

(** ** What a returned document holds *)

(** X14. A document that [validate] returns is complete and typed: each
    template is a mapping with a list of strings as args, a run type among
    the four known ones (compared in lower case), strings as java and jar,
    and mappings as default_props, translations and annotations where
    present; each run is a mapping with a string template_type and a
    mapping as args.  Each of its templates comes from a template of that
    name in the document that was given, and has under run_type, java and
    jar what that template has, or else the default: composite, java,
    specjbb2015.jar. *)
Theorem validate_returns_shaped (u d : pyval) :
  validate u = Return d -> d <> PNone ->
  config_shape d
  /\ exists tpls tpls',
      field u "TemplateData" = Some (PDict tpls)
      /\ field d "TemplateData" = Some (PDict tpls')
      /\ forall name t',
          In (name, t') tpls' ->
          exists t,
            In (name, t) tpls
            /\ forall k dv,
                template_default k = Some dv ->
                field t' k = Some (match field t k with Some v => v | None => dv end).
Proof.
  intros H Hd.
  destruct (validate_cases u) as [(e & _ & He & _)|(d0 & Hs & Hshape & Hv)];
    [congruence|].
  rewrite Hv in H.
  assert (Heq : d0 = d).
  { destruct (@cross_check_shaped d0 Hshape)
      as [[Hc _]|[[Hc _]|(_ & tpls & runs & run & i & name & _ & _ & _ & _ & Hcase)]].
    - rewrite Hc in H. now injection H.
    - rewrite Hc in H. injection H as <-. contradiction.
    - destruct Hcase as [[_ Hc]|(t & _ & _ & Hc)]; rewrite Hc in H; discriminate. }
  subst d0. split; [exact Hshape|].
  apply SpectateConfig_parts in Hs as (_ & tpls & tpls' & Hu & Hd' & Hall).
  exists tpls, tpls'. split; [exact Hu|]. split; [exact Hd'|].
  intros name t' Hin.
  destruct (proj2 (@pointwise_In (fun _ v v' => TemplateSchema v = Return v')
                     tpls tpls' Hall) name t' Hin) as (t & Hint & Hs).
  exists t. split; [exact Hint|]. intros k dv Hk.
  rewrite (@TemplateSchema_field t t' k Hs), Hk. now destruct (field t k).
Qed.

Lemma validate_returns_shaped_witness :
  config_shape good_document_validated
  /\ exists tpls tpls',
      field good_document "TemplateData" = Some (PDict tpls)
      /\ field good_document_validated "TemplateData" = Some (PDict tpls')
      /\ forall name t',
          In (name, t') tpls' ->
          exists t,
            In (name, t) tpls
            /\ forall k dv,
                template_default k = Some dv ->
                field t' k = Some (match field t k with Some v => v | None => dv end).
Proof.
  apply (@validate_returns_shaped good_document good_document_validated);
    [reflexivity|discriminate].
Defined.
